(** * Hytale RAG: tool layer, embedding pipeline, documentation parser
      and ingestion

    A shallow embedding of the TypeScript sources of [hytale-rag]
    ([db.ts], [embedder.ts], [index.ts], [core/schemas.ts],
    [core/tools/search-docs.ts], [core/tools/docs-stats.ts],
    [docs-parser.ts], [ingest-client.ts]) together with the properties the
    specification states about them and further properties of the code.

    Conventions.
    - A JavaScript [number] is an exact rational ([Q]); rounding of IEEE
      doubles is not modelled.  [NaN], the infinities, [undefined] and
      [null] are explicit constructors where the source can observe them.
      Row counts, offsets and batch sizes are [nat].
    - An [async] function is a computation in the monad [Eff]: it leaves a
      trace of the calls it made to its collaborators (embedding provider,
      vector store) and either returns a value or throws.  Where a loop of
      the source is not structurally recursive it takes fuel, and [None]
      stands for a loop that has not ended.
    - A plain JS object used as a counter table is a [gmap] from its own
      keys to what they hold; it is read and written the way an object
      that inherits from [Object.prototype] is ([Js.bump]).  A
      [Set<string>] is a [gset string].
    - A string stands for the text it is the UTF-8 encoding of.  [trim]
      removes the white space of the language in that encoding; positions
      count UTF-16 code units where the source cuts a string
      ([Js.substring0], [Js.charLength]); the case mappings
      [toUpperCase] and [toLowerCase] follow the Unicode tables and are
      taken as given ([Js.Lang]). *)

From Stdlib Require Import ZArith QArith Qminmax Qround Lia Lqa List Sorted Ascii String.
From stdpp Require Import base option list gmap strings pretty.

Local Open Scope string_scope.
Local Open Scope list_scope.
Local Open Scope nat_scope.

(** ** JavaScript values and exceptions *)

Module Js.

(** What [row._distance] can evaluate to. *)
Inductive num : Type :=
| Undefined
| Null
| NaN
| Num (q : Q).

(** [ToBoolean] on a number-or-missing value: only a non-zero number is
    truthy. *)
Definition truthy_num (v : num) : bool :=
  match v with
  | Num q => negb (Qeq_bool q 0)
  | _ => false
  end.

(** [v || 0] followed by a use of the result as an operand of a binary
    minus.  The operand is [v] when truthy, otherwise [0]. *)
Definition or_zero (v : num) : Q :=
  if truthy_num v then match v with Num q => q | _ => 0%Q end else 0%Q.

(** [ToBoolean] on a string: every string but the empty one. *)
Definition truthy_str (s : string) : bool :=
  match s with
  | EmptyString => false
  | String _ _ => true
  end.

(** [ToBoolean] on [string | undefined]. *)
Definition truthy (v : option string) : bool :=
  match v with
  | Some s => truthy_str s
  | None => false
  end.

(** The string itself when it is truthy: what [if (v)] lets through. *)
Definition if_truthy (v : option string) : option string :=
  match v with
  | Some s => if truthy_str s then Some s else None
  | None => None
  end.

(** [a || b] on [string | undefined] with a string default. *)
Definition or_else (v : option string) (d : string) : string :=
  match v with
  | Some s => if truthy_str s then s else d
  | None => d
  end.

(** [hay.includes(needle)] *)
Definition mentions (needle hay : string) : bool :=
  match String.index 0 needle hay with
  | Some _ => true
  | None => false
  end.

(** A thrown value.  [Error k m] is an instance of [Error] (or of one of
    the named subclasses) carrying [message = m]; [Value s] is anything
    else, [s] being what [String(v)] renders. *)
Inductive errkind : Type :=
| Generic
| UnknownTool
| DuplicateToolError
| TableNotFound.

Inductive thrown : Type :=
| Error (kind : errkind) (message : string)
| Value (rendered : string).

(** [error instanceof Error ? error.message : String(error)] *)
Definition message_of (e : thrown) : string :=
  match e with
  | Error _ m => m
  | Value s => s
  end.

(** *** Numbers a caller can hand over

    A [number] as a handler may receive it: a finite value, an infinity
    or [NaN]. *)
Inductive number : Type :=
| Finite (q : Q)
| PlusInfinity
| MinusInfinity
| NotANumber.

(** [Math.max(a, b)]: [NaN] when either is [NaN]. *)
Definition math_max (a b : number) : number :=
  match a, b with
  | NotANumber, _ => NotANumber
  | _, NotANumber => NotANumber
  | PlusInfinity, _ => PlusInfinity
  | _, PlusInfinity => PlusInfinity
  | MinusInfinity, y => y
  | x, MinusInfinity => x
  | Finite p, Finite q => Finite (Qmax p q)
  end.

(** [Math.min(a, b)]: [NaN] when either is [NaN]. *)
Definition math_min (a b : number) : number :=
  match a, b with
  | NotANumber, _ => NotANumber
  | _, NotANumber => NotANumber
  | MinusInfinity, _ => MinusInfinity
  | _, MinusInfinity => MinusInfinity
  | PlusInfinity, y => y
  | x, PlusInfinity => x
  | Finite p, Finite q => Finite (Qmin p q)
  end.

(** *** Objects used as counters

    The names an object literal inherits from [Object.prototype]: under
    such a name [o[key]] is not [undefined] although [o] has no key of
    its own. *)
Definition inheritedNames : list string :=
  ["constructor"; "__defineGetter__"; "__defineSetter__"; "hasOwnProperty";
   "__lookupGetter__"; "__lookupSetter__"; "isPrototypeOf"; "propertyIsEnumerable";
   "toString"; "valueOf"; "__proto__"; "toLocaleString"].

Definition inherits (key : string) : bool := existsb (String.eqb key) inheritedNames.

(** What a key of a counter holds: a count, or, under an inherited name,
    a string: the text the engine gives for the inherited member, followed
    by one [1] for every time the key was counted. *)
Inductive tally : Type :=
| Count (n : nat)
| Text (ones : nat).

(** [o[key] = (o[key] || 0) + 1] on an object that began as [{}].  Under
    an inherited name the first read gives the inherited member, which is
    truthy, and [+ 1] appends to its text; the assignment then gives [o] a
    key of its own, but for [__proto__], whose setter ignores a string. *)
Definition bump (o : gmap string tally) (key : string) : gmap string tally :=
  if String.eqb key "__proto__" then o
  else
    match o !! key with
    | Some (Count n) => <[key := Count (n + 1)]> o
    | Some (Text ones) => <[key := Text (ones + 1)]> o
    | None => if inherits key then <[key := Text 1]> o else <[key := Count 1]> o
    end.

(** *** Text

    The string of the given bytes. *)
Definition bytes (codes : list nat) : string :=
  string_of_list_ascii (map ascii_of_nat codes).

(** Whether a byte is an ASCII character. *)
Definition is_ascii (c : ascii) : bool := nat_of_ascii c <? 128.

(** The number of bytes of the character that starts with the byte [b]
    (1 for a byte that starts none). *)
Definition charLength (b : ascii) : nat :=
  let n := nat_of_ascii b in
  if n <? 192 then 1 else if n <? 224 then 2 else if n <? 240 then 3 else 4.

Definition byteAt (i : nat) (s : string) : nat :=
  match String.get i s with
  | Some b => nat_of_ascii b
  | None => 0
  end.

(** The first of the two code units of a character of four bytes, kept
    as the three bytes of its own code point. *)
Definition highSurrogate (s : string) : string :=
  let w := (byteAt 0 s mod 8) * 256 + (byteAt 1 s mod 64) * 4 + (byteAt 2 s / 16) mod 4 in
  let h := 216 * 256 + w - 64 in
  bytes [237; 128 + (h / 64) mod 64; 128 + h mod 64].

(** [s.substring(0, n)]: the first [n] code units of [s].  A character of
    up to three bytes is one code unit, a character of four bytes is
    two. *)
Fixpoint substring0 (n : nat) (s : string) {struct n} : string :=
  match n with
  | O => EmptyString
  | S n' =>
      match s with
      | EmptyString => EmptyString
      | String b _ =>
          let k := charLength b in
          if k =? 4 then
            match n' with
            | O => highSurrogate s
            | S n'' =>
                String.substring 0 4 s
                +:+ substring0 n'' (String.substring 4 (String.length s - 4) s)
            end
          else
            String.substring 0 k s
            +:+ substring0 n' (String.substring k (String.length s - k) s)
      end
  end.

(** The case mappings of the language, [String.prototype.toUpperCase] and
    [String.prototype.toLowerCase].  They follow the Unicode tables, which
    are not reproduced here: the mappings are taken as given. *)
Record Lang : Type := mkLang {
  toUpperCase : string -> string;
  toLowerCase : string -> string;
}.

(** What the two mappings do on ASCII text: they map the letters [a] to
    [z] and [A] to [Z] onto each other and leave every other character. *)
Definition ascii_upper_char (c : ascii) : ascii :=
  let n := nat_of_ascii c in
  if (97 <=? n) && (n <=? 122) then ascii_of_nat (n - 32) else c.

Definition ascii_lower_char (c : ascii) : ascii :=
  let n := nat_of_ascii c in
  if (65 <=? n) && (n <=? 90) then ascii_of_nat (n + 32) else c.

Fixpoint ascii_upper (s : string) : string :=
  match s with
  | EmptyString => EmptyString
  | String c rest => String (ascii_upper_char c) (ascii_upper rest)
  end.

Fixpoint ascii_lower (s : string) : string :=
  match s with
  | EmptyString => EmptyString
  | String c rest => String (ascii_lower_char c) (ascii_lower rest)
  end.

Fixpoint all_ascii (s : string) : bool :=
  match s with
  | EmptyString => true
  | String c rest => is_ascii c && all_ascii rest
  end.

(** The law of the language for ASCII text. *)
Definition asciiLaw (js : Lang) : Prop :=
  forall s, all_ascii s = true ->
            toUpperCase js s = ascii_upper s /\ toLowerCase js s = ascii_lower s.

End Js.

(** ** Asynchronous computations: a trace of collaborator calls and an
       outcome *)

Inductive Outcome (A : Type) : Type :=
| Returned (a : A)
| Threw (e : Js.thrown).
Arguments Returned {A} a.
Arguments Threw {A} e.

(** Calls that leave the process: the embedding provider, the vector store
    and the progress callback. *)
Inductive event : Type :=
| EvEmbedQuery (text purpose : string)
| EvEmbedCall (batch : list string) (purpose mode : string)
| EvSleep (ms : nat)
| EvProgress (current total : nat)
| EvTableExists (table : string)
| EvGetStats (table : string)
| EvQueryAll (table : string)
| EvSearch (table : string) (queryVector : list Q) (limit : Js.number)
           (filter : option (string * string)).

(** An awaited computation: the calls it made, in order, and how it
    ended. *)
Definition Eff (A : Type) : Type := (list event * Outcome A)%type.

Definition trace {A} (m : Eff A) : list event := fst m.
Definition outcome {A} (m : Eff A) : Outcome A := snd m.

(** [return a] *)
#[global] Instance eff_ret : MRet Eff := fun A a => ([], Returned a).

(** [const a = await m; k(a)]: an exception of [m] skips [k]. *)
#[global] Instance eff_bind : MBind Eff := fun A B k m =>
  match m with
  | (t, Returned a) => let '(t', r) := k a in (t ++ t', r)
  | (t, Threw e) => (t, Threw e)
  end.

(** [throw e] *)
Definition throw {A} (e : Js.thrown) : Eff A := ([], Threw e).

(** A call to a collaborator: logged, then its outcome. *)
Definition call {A} (ev : event) (r : Outcome A) : Eff A := ([ev], r).

(** [try { body } catch (error) { handler(error) }] *)
Definition try_catch {A} (body : Eff A) (handler : Js.thrown -> Eff A) : Eff A :=
  match body with
  | (t, Returned a) => (t, Returned a)
  | (t, Threw e) => let '(t', r) := handler e in (t ++ t', r)
  end.

(** ** [db.ts]: LanceDB helpers of the command-line scripts *)

Module Db.

(** A row of the code table as [toArray()] hands it back ([row: any]).
    A vector search adds [_distance]; a plain [query()] leaves it
    [undefined]. *)
Record Row : Type := mkRow {
  row_id : string;
  row_className : string;
  row_packageName : string;
  row_methodName : string;
  row_methodSignature : string;
  row_content : string;
  row_filePath : string;
  row_lineStart : Z;
  row_lineEnd : Z;
  row_vector : list Q;
  _distance : Js.num;
}.

(** [interface SearchResult] *)
Record SearchResult : Type := mkSearchResult {
  id : string;
  className : string;
  packageName : string;
  methodName : string;
  methodSignature : string;
  content : string;
  filePath : string;
  lineStart : Z;
  lineEnd : Z;
  score : Q;
}.

(** [interface DbStats] *)
Record DbStats : Type := mkDbStats {
  totalMethods : nat;
  uniqueClasses : nat;
  uniquePackages : nat;
}.

(** The LanceDB engine behind [lancedb.connect] and [db.openTable].  It is
    a collaborator.  A table that opens is a finite sequence of rows;
    [vectorSearch] stands for [table.vectorSearch(v).limit(n)] with the
    optional [where(f)], run by [toArray()]. *)
Record Engine : Type := mkEngine {
  openTable : string (* dbPath *) -> string (* tableName *) -> Outcome (list Row);
  vectorSearch : list Row -> list Q -> nat -> option string -> Outcome (list Row);
}.

(** [table.countRows()] *)
Definition countRows (table : list Row) : nat := length table.

(** [table.query().limit(n).offset(o).toArray()] on a table nobody writes
    to while it is read. *)
Definition queryPage (table : list Row) (n o : nat) : list Row :=
  take n (drop o table).

(** The arrow function mapped over the rows in [search]. *)
Definition toSearchResult (row : Row) : SearchResult :=
  {| id := row_id row;
     className := row_className row;
     packageName := row_packageName row;
     methodName := row_methodName row;
     methodSignature := row_methodSignature row;
     content := row_content row;
     filePath := row_filePath row;
     lineStart := row_lineStart row;
     lineEnd := row_lineEnd row;
     score := (1 - Js.or_zero (_distance row))%Q |}.

(** [if (filter) query = query.where(filter)]: an empty filter string is
    falsy, so no [where] clause is attached. *)
Definition whereClause (filter : option string) : option string :=
  match filter with
  | Some f => if Js.truthy_str f then Some f else None
  | None => None
  end.

(** [export async function search(dbPath, queryVector, limit = 5, filter?,
    tableName = "hytale_methods")] *)
Definition search (eng : Engine) (dbPath : string) (queryVector : list Q)
    (limit : option nat) (filter : option string) (tableName : option string)
    : Outcome (list SearchResult) :=
  let limit := default 5 limit in
  let tableName := default "hytale_methods" tableName in
  match openTable eng dbPath tableName with
  | Threw e => Threw e
  | Returned table =>
      match vectorSearch eng table queryVector limit (whereClause filter) with
      | Threw e => Threw e
      | Returned results => Returned (map toSearchResult results)
      end
  end.

(** [const batchSize = 5000] in [getStats]. *)
Definition batchSize : nat := 5000.

(** The body of [for (const row of batch)] in [getStats]. *)
Definition addRow (acc : gset string * gset string) (row : Row)
    : gset string * gset string :=
  let '(classNames, packageNames) := acc in
  (if Js.truthy_str (row_className row)
   then {[ row_className row ]} ∪ classNames else classNames,
   if Js.truthy_str (row_packageName row)
   then {[ row_packageName row ]} ∪ packageNames else packageNames).

(** What the [while (true)] loop of [getStats] has when it leaves: the two
    sets, the final offset, and (for the statements about paging) the
    offset and length of every page it asked for, in order. *)
Record Scan : Type := mkScan {
  scan_classNames : gset string;
  scan_packageNames : gset string;
  scan_offset : nat;
  scan_pages : list (nat * nat);
}.

(** The [while (true)] loop of [getStats], one iteration per unit of fuel;
    [None] when the fuel runs out before a [break]. *)
Fixpoint scanLoop (fuel : nat) (bs : nat) (table : list Row) (offset : nat)
    (acc : gset string * gset string) (pages : list (nat * nat)) : option Scan :=
  match fuel with
  | O => None
  | S fuel' =>
      let batch := queryPage table bs offset in
      let pages := pages ++ [(offset, length batch)] in
      if length batch =? 0 then
        Some (mkScan (fst acc) (snd acc) offset pages)
      else
        let acc := fold_left addRow batch acc in
        let offset := offset + length batch in
        if length batch <? bs then
          Some (mkScan (fst acc) (snd acc) offset pages)
        else scanLoop fuel' bs table offset acc pages
  end.

(** [export async function getStats(dbPath, tableName = "hytale_methods")],
    its loop given [fuel] iterations. *)
Definition getStats (fuel : nat) (eng : Engine) (dbPath : string)
    (tableName : option string) : option (Outcome DbStats) :=
  let tableName := default "hytale_methods" tableName in
  match openTable eng dbPath tableName with
  | Threw e => Some (Threw e)
  | Returned table =>
      let rowCount := countRows table in
      match scanLoop fuel batchSize table 0 (∅, ∅) [] with
      | None => None
      | Some s =>
          Some (Returned {| totalMethods := rowCount;
                            uniqueClasses := size (scan_classNames s);
                            uniquePackages := size (scan_packageNames s) |})
      end
  end.

(** The shape of a page log that starts at [offset]: every page starts
    where the previous one ended, every page but the last is full, and the
    last one is short (empty or smaller than the page size). *)
Fixpoint wellPaged (bs : nat) (offset : nat) (pages : list (nat * nat)) : bool :=
  match pages with
  | [] => false
  | (o, len) :: rest =>
      (o =? offset)
      && match rest with
         | [] => len <? bs
         | _ :: _ => (len =? bs) && wellPaged bs (offset + len) rest
         end
  end.

(** *** What a vector search promises

    [vectorSearch(v).limit(n)] hands back at most [n] rows, each with the
    distance of its vector to [v], the nearest first. *)

Fixpoint nearestFirst (rows : list Row) : bool :=
  match rows with
  | a :: rest =>
      match rest with
      | b :: _ =>
          match _distance a, _distance b with
          | Js.Num da, Js.Num db => Qle_bool da db
          | _, _ => false
          end
      | [] => true
      end && nearestFirst rest
  | [] => true
  end.

(** A row that carries its distance. *)
Definition hasDistance (r : Row) : Prop := exists d, _distance r = Js.Num d.

(** Hits in the order of non-increasing score. *)
Definition scoreDescending (hits : list SearchResult) : Prop :=
  Sorted (fun a b => (score b <= score a)%Q) hits.

(** *** A reference engine: exact nearest-neighbour search in memory

    Used to run [search] and [getStats] on concrete tables.  Distances
    are squared Euclidean distances, LanceDB's default metric. *)

(** The squared Euclidean distance of two vectors. *)
Fixpoint l2 (a b : list Q) : Q :=
  match a, b with
  | x :: a', y :: b' => ((x - y) * (x - y) + l2 a' b')%Q
  | _, _ => 0%Q
  end.

Definition distanceOf (row : Row) : Q := Js.or_zero (_distance row).

(** Insertion sort on the distance, ascending. *)
Fixpoint insertByDistance (r : Row) (rows : list Row) : list Row :=
  match rows with
  | [] => [r]
  | r' :: rest =>
      if Qle_bool (distanceOf r) (distanceOf r') then r :: rows
      else r' :: insertByDistance r rest
  end.

Definition sortByDistance (rows : list Row) : list Row :=
  foldr insertByDistance [] rows.

(** The row with the distance of its vector to the query in [_distance]. *)
Definition withDistance (query : list Q) (r : Row) : Row :=
  mkRow (row_id r) (row_className r) (row_packageName r) (row_methodName r)
        (row_methodSignature r) (row_content r) (row_filePath r)
        (row_lineStart r) (row_lineEnd r) (row_vector r)
        (Js.Num (l2 query (row_vector r))).

(** The engine over the tables [tables]; [evalWhere] evaluates a [where]
    clause on a row. *)
Definition flatEngine (tables : gmap string (list Row))
    (evalWhere : string -> Row -> bool) : Engine :=
  {| openTable := fun _ tableName =>
       match tables !! tableName with
       | Some rows => Returned rows
       | None => Threw (Js.Error Js.TableNotFound
                          ("Table '" +:+ tableName +:+ "' was not found"))
       end;
     vectorSearch := fun table query limit filter =>
       let kept := match filter with
                   | Some f => List.filter (evalWhere f) table
                   | None => table
                   end in
       Returned (take limit (sortByDistance (map (withDistance query) kept))) |}.

End Db.

(** ** [core/schemas.ts]: Zod schemas of the tool inputs *)

Module Schema.

(** A raw tool input, as decoded from the wire. *)
#[local] Unset Elimination Schemes.
Inductive json : Type :=
| JNull
| JBool (b : bool)
| JNumber (q : Q)
| JString (s : string)
| JArray (items : list json)
| JObject (fields : list (string * json)).
#[local] Set Elimination Schemes.

(** [obj[key]]; [None] is [undefined].  Keys of an object are unique. *)
Fixpoint prop (fields : list (string * json)) (key : string) : option json :=
  match fields with
  | [] => None
  | (k, v) :: rest => if String.eqb k key then Some v else prop rest key
  end.

(** Zod's name for the type of the value it received. *)
Definition received (v : option json) : string :=
  match v with
  | None => "undefined"
  | Some JNull => "null"
  | Some (JBool _) => "boolean"
  | Some (JNumber _) => "number"
  | Some (JString _) => "string"
  | Some (JArray _) => "array"
  | Some (JObject _) => "object"
  end.

(** One entry of [ZodError.issues]. *)
Record issue : Type := mkIssue {
  path : list string;
  message : string;
}.

(** The result of [schema.safeParse(input)]. *)
Inductive SafeParse (A : Type) : Type :=
| ParseOk (data : A)
| ParseError (issues : list issue).
Arguments ParseOk {A} data.
Arguments ParseError {A} issues.

(** A schema is what it does to an input; [None] is [undefined]. *)
Definition Schema (A : Type) : Type := option json -> SafeParse A.

Definition invalid_type {A} (expected : string) (v : option json) : SafeParse A :=
  ParseError
    [mkIssue [] (match v with
                 | None => "Required"
                 | Some _ => "Expected " +:+ expected +:+ ", received " +:+ received v
                 end)].

(** [z.string()] *)
Definition z_string : Schema string := fun v =>
  match v with
  | Some (JString s) => ParseOk s
  | _ => invalid_type "string" v
  end.

(** [.min(n)] on a string schema *)
Definition z_string_min (n : nat) (inner : Schema string) : Schema string := fun v =>
  match inner v with
  | ParseOk s =>
      if String.length s <? n
      then ParseError [mkIssue [] ("String must contain at least " +:+ pretty n
                                   +:+ " character(s)")]
      else ParseOk s
  | ParseError i => ParseError i
  end.

(** The checks chained on [z.number()]. *)
Inductive numcheck : Type :=
| IsInt
| Min (bound : Z)
| Max (bound : Z).

Definition is_integer (q : Q) : bool := Pos.eqb (Qden (Qred q)) 1.

Definition run_check (q : Q) (c : numcheck) : list issue :=
  match c with
  | IsInt =>
      if is_integer q then []
      else [mkIssue [] "Expected integer, received float"]
  | Min b =>
      if Qle_bool (inject_Z b) q then []
      else [mkIssue [] ("Number must be greater than or equal to " +:+ pretty b)]
  | Max b =>
      if Qle_bool q (inject_Z b) then []
      else [mkIssue [] ("Number must be less than or equal to " +:+ pretty b)]
  end.

(** [z.number()] followed by its checks, all of which are run. *)
Definition z_number (checks : list numcheck) : Schema Q := fun v =>
  match v with
  | Some (JNumber q) =>
      match concat (map (run_check q) checks) with
      | [] => ParseOk q
      | issues => ParseError issues
      end
  | _ => invalid_type "number" v
  end.

(** [z.enum(values)] *)
Definition z_enum (values : list string) : Schema string := fun v =>
  match v with
  | Some (JString s) =>
      if existsb (String.eqb s) values then ParseOk s
      else ParseError
             [mkIssue [] ("Invalid enum value. Expected "
                          +:+ String.concat " | " (map (fun x => "'" +:+ x +:+ "'") values)
                          +:+ ", received '" +:+ s +:+ "'")]
  | _ =>
      ParseError
        [mkIssue [] (match v with
                     | None => "Required"
                     | Some _ =>
                         "Expected "
                         +:+ String.concat " | " (map (fun x => "'" +:+ x +:+ "'") values)
                         +:+ ", received " +:+ received v
                     end)]
  end.

(** [.optional()] *)
Definition z_optional {A} (inner : Schema A) : Schema (option A) := fun v =>
  match v with
  | None => ParseOk None
  | Some _ =>
      match inner v with
      | ParseOk a => ParseOk (Some a)
      | ParseError i => ParseError i
      end
  end.

(** [.default(d)] on an optional schema: an [undefined] input is replaced
    by [d] before the inner schema sees it. *)
Definition z_default {A} (d : json) (inner : Schema (option A)) : Schema (option A) :=
  fun v =>
  match v with
  | None => inner (Some d)
  | Some _ => inner v
  end.

(** A field of [z.object({...})]: the issues of the field carry its key. *)
Definition field {A} (fields : list (string * json)) (key : string)
    (s : Schema A) : SafeParse A :=
  match s (prop fields key) with
  | ParseOk a => ParseOk a
  | ParseError i => ParseError (map (fun x => mkIssue (key :: path x) (message x)) i)
  end.

Definition issues_of {A} (r : SafeParse A) : list issue :=
  match r with
  | ParseOk _ => []
  | ParseError i => i
  end.

(** [z.object] of three keys: every key is parsed, the issues are
    gathered, unknown keys are dropped. *)
Definition z_object3 {A B C R} (mk : A -> B -> C -> R)
    (ka : string) (sa : Schema A) (kb : string) (sb : Schema B)
    (kc : string) (sc : Schema C) : Schema R := fun v =>
  match v with
  | Some (JObject fields) =>
      let ra := field fields ka sa in
      let rb := field fields kb sb in
      let rc := field fields kc sc in
      match ra, rb, rc with
      | ParseOk a, ParseOk b, ParseOk c => ParseOk (mk a b c)
      | _, _, _ => ParseError (issues_of ra ++ issues_of rb ++ issues_of rc)
      end
  | _ => invalid_type "object" v
  end.

(** [export const GAME_DATA_TYPES] *)
Definition GAME_DATA_TYPES : list string :=
  ["all"; "item"; "recipe"; "block"; "interaction"; "drop"; "npc"; "npc_group";
   "npc_ai"; "entity"; "projectile"; "farming"; "shop"; "environment";
   "weather"; "biome"; "worldgen"; "camera"; "objective"; "gameplay";
   "localization"; "zone"; "terrain_layer"; "cave"; "prefab"].

(** [export const DOCS_TYPES] *)
Definition DOCS_TYPES : list string :=
  ["all"; "guide"; "reference"; "faq"; "example"].

(** The [limit] key shared by the four search schemas:
    [z.number().int().min(1).max(20).optional().default(5)] *)
Definition limitSchema : Schema (option Q) :=
  z_default (JNumber 5) (z_optional (z_number [IsInt; Min 1; Max 20])).

(** [SearchCodeInput] and [SearchClientCodeInput].  The handlers read
    [limit] and [type] defensively, so they stay optional here. *)
Record SearchCodeInput : Type := mkSearchCodeInput {
  sc_query : string;
  sc_limit : option Q;
  sc_classFilter : option string;
}.

(** [export const searchCodeSchema] *)
Definition searchCodeSchema : Schema SearchCodeInput :=
  z_object3 mkSearchCodeInput
    "query" (z_string_min 1 z_string)
    "limit" limitSchema
    "classFilter" (z_optional z_string).

(** [export const searchClientCodeSchema] *)
Definition searchClientCodeSchema : Schema SearchCodeInput :=
  z_object3 mkSearchCodeInput
    "query" (z_string_min 1 z_string)
    "limit" limitSchema
    "classFilter" (z_optional z_string).

(** [SearchGameDataInput] and [SearchDocsInput], as a handler is handed
    them: [limit] is a [number] or [undefined], and a handler that is not
    called through its schema can be handed any number. *)
Record SearchTypedInput : Type := mkSearchTypedInput {
  st_query : string;
  st_type : option string;
  st_limit : option Js.number;
}.

(** The input a schema makes of the three validated keys: a validated
    limit is a finite number. *)
Definition typedInput (query : string) (type : option string) (limit : option Q)
    : SearchTypedInput :=
  mkSearchTypedInput query type (option_map Js.Finite limit).

(** [export const searchGameDataSchema] *)
Definition searchGameDataSchema : Schema SearchTypedInput :=
  z_object3 typedInput
    "query" (z_string_min 1 z_string)
    "type" (z_default (JString "all") (z_optional (z_enum GAME_DATA_TYPES)))
    "limit" limitSchema.

(** [export const searchDocsSchema] *)
Definition searchDocsSchema : Schema SearchTypedInput :=
  z_object3 typedInput
    "query" (z_string_min 1 z_string)
    "type" (z_default (JString "all") (z_optional (z_enum DOCS_TYPES)))
    "limit" limitSchema.

(** [export const emptySchema = z.object({})] *)
Definition emptySchema : Schema unit := fun v =>
  match v with
  | Some (JObject _) => ParseOk tt
  | _ => invalid_type "object" v
  end.

End Schema.

(** ** Configuration ([config/index.ts] is a collaborator; these are the
       options [index.ts] and the tools read) *)

Module Cfg.

(** [config.embedding] *)
Record Embedding : Type := mkEmbedding {
  provider : string;
  apiKey : option string;
  baseUrl : option string;
  batchSize : nat;
  rateLimitMs : nat;
}.

(** [config.vectorStore] *)
Record Store : Type := mkStore {
  store_provider : string;
  store_path : option string;
  store_apiKey : option string;
  store_host : option string;
  store_namespace : option string;
}.

(** [config.server] *)
Record Server : Type := mkServer {
  mode : string;
  host : string;
  port : nat;
}.

(** [config.tables], the table name of every domain *)
Record Tables : Type := mkTables {
  code : string;
  clientUi : string;
  gamedata : string;
  docs : string;
}.

(** What [loadConfig()] returns. *)
Record Config : Type := mkConfig {
  embedding : Embedding;
  vectorStore : Store;
  server : Server;
  tables : Tables;
}.

End Cfg.

(** ** [types.ts] *)

Module Types.

(** [interface DocsSearchResult] of [types.ts] *)
Record DocsSearchResult : Type := mkDocsSearchResult {
  id : string;
  type : option string;
  title : string;
  filePath : string;
  relativePath : string;
  content : string;
  category : option string;
  description : option string;
  score : Q;
}.

End Types.

(** ** [core/tools]: tool results, the context, and the two documentation
       tools *)

Module Tools.

(** [ToolResult<T>]: [{success: true, data}] or [{success: false, error}] *)
Inductive ToolResult (T : Type) : Type :=
| Success (data : T)
| Failure (error : string).
Arguments Success {T} data.
Arguments Failure {T} error.

(** A record of the documentation table, as the store hands it back. *)
Record DocRow : Type := mkDocRow {
  row_id : string;
  row_type : option string;
  row_title : string;
  row_filePath : string;
  row_relativePath : string;
  row_content : string;
  row_category : option string;
  row_description : option string;
}.

(** [interface DocsStats] of [docs-stats.ts]; the two records are the
    objects the handler counts in. *)
Record DocsStats : Type := mkDocsStats {
  totalDocs : nat;
  byCategory : gmap string Js.tally;
  byType : gmap string Js.tally;
}.

(** What [VectorStore.search] yields: [{data, score}]. *)
Record SearchHit : Type := mkSearchHit {
  hit_data : DocRow;
  hit_score : Q;
}.

(** [{limit, filter}], the filter being the object [{type: input.type}]. *)
Record SearchOptions : Type := mkSearchOptions {
  opt_limit : Js.number;
  opt_filter : option (string * string);
}.

(** What [VectorStore.getStats] yields, as far as the tools read it. *)
Record TableStats : Type := mkTableStats {
  rowCount : nat;
}.

(** What [for await (const batch of store.queryAll(table))] can observe: a
    finite run of batches that ends, or breaks off with an exception. *)
Inductive Batches : Type :=
| Done
| Yield (batch : list DocRow) (rest : Batches)
| Fails (e : Js.thrown).

(** The [EmbeddingProvider] interface, as far as the tools call it
    ([context.embedding.embedQuery(text, purpose)]). *)
Record EmbeddingProvider : Type := mkEmbeddingProvider {
  embedQuery : string -> string -> Outcome (list Q);
}.

(** The [VectorStore] interface, as far as [index.ts] and the tools call
    it. *)
Record VectorStore : Type := mkVectorStore {
  connect : Outcome unit;
  tableExists : string -> Outcome bool;
  getStats : string -> Outcome TableStats;
  search : string -> list Q -> SearchOptions -> Outcome (list SearchHit);
  queryAll : string -> Batches;
}.

(** [interface ToolContext], the four fields [main] fills in. *)
Record ToolContext : Type := mkToolContext {
  embedding : option EmbeddingProvider;
  vectorStore : VectorStore;
  config : Cfg.Config;
  configError : option string;
}.

(** [interface ToolDefinition<TInput, TOutput>], the four fields the tool
    definitions give. *)
Record ToolDefinition (TInput TOutput : Type) : Type := mkToolDefinition {
  name : string;
  description : string;
  inputSchema : Schema.Schema TInput;
  handler : TInput -> ToolContext -> Eff (ToolResult TOutput);
}.
Arguments mkToolDefinition {TInput TOutput}.
Arguments name {TInput TOutput}.
Arguments description {TInput TOutput}.
Arguments inputSchema {TInput TOutput}.
Arguments handler {TInput TOutput}.

(** A tool definition of any input and output type
    ([ToolDefinition<any, any>]): what [registry.register] is handed. *)
Record AnyTool : Type := mkAnyTool {
  TInput : Type;
  TOutput : Type;
  def : ToolDefinition TInput TOutput;
}.
Arguments mkAnyTool {TInput TOutput} def.

(** [tool.name] *)
Definition toolName (t : AnyTool) : string := name (def t).

(** [if (context.configError)]: the error when it is truthy. *)
Definition pendingConfigError (context : ToolContext) : option string :=
  Js.if_truthy (configError context).

(** *** [docs-stats.ts] *)

(** [row.category || "Other"] and [row.type || "unknown"] *)
Definition categoryOf (row : DocRow) : string := Js.or_else (row_category row) "Other".

Definition typeOf (row : DocRow) : string := Js.or_else (row_type row) "unknown".

(** The body of [for (const row of batch)]. *)
Definition countRow (acc : gmap string Js.tally * gmap string Js.tally) (row : DocRow)
    : gmap string Js.tally * gmap string Js.tally :=
  let '(byCategory, byType) := acc in
  let category := categoryOf row in
  let type := typeOf row in
  (Js.bump byCategory category, Js.bump byType type).

(** The [for await] loop over the batches of [queryAll]. *)
Fixpoint forAwait (batches : Batches)
    (acc : gmap string Js.tally * gmap string Js.tally)
    : Outcome (gmap string Js.tally * gmap string Js.tally) :=
  match batches with
  | Done => Returned acc
  | Yield batch rest => forAwait rest (fold_left countRow batch acc)
  | Fails e => Threw e
  end.

(** The rows a run of batches carries when it ends without an exception. *)
Fixpoint rowsOf (batches : Batches) : option (list DocRow) :=
  match batches with
  | Done => Some []
  | Yield batch rest =>
      match rowsOf rest with
      | Some rows => Some (batch ++ rows)
      | None => None
      end
  | Fails _ => None
  end.

Definition docsTableMissing : string :=
  "Documentation table not found. Run 'npm run ingest-docs' to index the documentation.".

(** [docsStatsTool.handler] *)
Definition docsStatsHandler (_input : unit) (context : ToolContext)
    : Eff (ToolResult DocsStats) :=
  match pendingConfigError context with
  | Some e => mret (Failure e)
  | None =>
      try_catch
        (let tableName := Cfg.docs (Cfg.tables (config context)) in
         exists_ ← call (EvTableExists tableName)
                        (tableExists (vectorStore context) tableName);
         if negb exists_ then mret (Failure docsTableMissing)
         else
           tableStats ← call (EvGetStats tableName)
                             (getStats (vectorStore context) tableName);
           counts ← call (EvQueryAll tableName)
                         (forAwait (queryAll (vectorStore context) tableName) (∅, ∅));
           mret (Success {| totalDocs := rowCount tableStats;
                            byCategory := fst counts;
                            byType := snd counts |}))
        (fun error => mret (Failure (Js.message_of error)))
  end.

(** [export const docsStatsTool] *)
Definition docsStatsTool : ToolDefinition unit DocsStats :=
  {| name := "hytale_docs_stats";
     description :=
       "Get statistics about the indexed HytaleModding.dev documentation. "
       +:+ "Shows total documents and breakdown by category and type.";
     inputSchema := Schema.emptySchema;
     handler := docsStatsHandler |}.

(** *** [search-docs.ts] *)

(** [Math.min(Math.max(1, input.limit ?? 5), 20)]; [None] is a limit that
    is [undefined] or [null].  [Math.max] and [Math.min] give [NaN] when an
    argument is [NaN]. *)
Definition clampLimit (limit : option Js.number) : Js.number :=
  Js.math_min (Js.math_max (Js.Finite 1) (default (Js.Finite 5) limit)) (Js.Finite 20).

(** [input.type && input.type !== "all" ? { type: input.type } : undefined] *)
Definition typeFilter (type : option string) : option (string * string) :=
  match type with
  | Some t =>
      if Js.truthy_str t && negb (String.eqb t "all") then Some ("type", t) else None
  | None => None
  end.

(** The arrow function mapped over the hits. *)
Definition toDocsResult (r : SearchHit) : Types.DocsSearchResult :=
  {| Types.id := row_id (hit_data r);
     Types.type := row_type (hit_data r);
     Types.title := row_title (hit_data r);
     Types.filePath := row_filePath (hit_data r);
     Types.relativePath := row_relativePath (hit_data r);
     Types.content := row_content (hit_data r);
     Types.category := row_category (hit_data r);
     Types.description := row_description (hit_data r);
     Types.score := hit_score r |}.

(** [searchDocsTool.handler] *)
Definition searchDocsHandler (input : Schema.SearchTypedInput) (context : ToolContext)
    : Eff (ToolResult (list Types.DocsSearchResult)) :=
  match pendingConfigError context, embedding context with
  | Some e, _ => mret (Failure e)
  | None, None => mret (Failure "Embedding provider not configured")
  | None, Some provider =>
      let limit := clampLimit (Schema.st_limit input) in
      queryVector ← call (EvEmbedQuery (Schema.st_query input) "text")
                         (embedQuery provider (Schema.st_query input) "text");
      let filter := typeFilter (Schema.st_type input) in
      let table := Cfg.docs (Cfg.tables (config context)) in
      results ← call (EvSearch table queryVector limit filter)
                     (search (vectorStore context) table queryVector
                             (mkSearchOptions limit filter));
      mret (Success (map toDocsResult results))
  end.

(** [export const searchDocsTool] *)
Definition searchDocsTool : ToolDefinition Schema.SearchTypedInput (list Types.DocsSearchResult) :=
  {| name := "search_hytale_docs";
     description :=
       "Search HytaleModding.dev documentation using semantic search. "
       +:+ "Use this to find modding guides, tutorials, and reference documentation. "
       +:+ "Covers topics like plugin development, ECS, block creation, commands, events, and more.";
     inputSchema := Schema.searchDocsSchema;
     handler := searchDocsHandler |}.

End Tools.

(** ** The tool registry *)

Module Registry.

(** Modelled from the spec: the [data] of the "uniform [ToolResult]" of
    [invoke], whose type depends on the tool that produced it. *)
Definition AnyData : Type := { T : Type & T }.

(** Modelled from the spec: a handler's result seen as that uniform
    result. *)
Definition packResult {T} (r : Tools.ToolResult T) : Tools.ToolResult AnyData :=
  match r with
  | Tools.Success d => Tools.Success (existT T d)
  | Tools.Failure e => Tools.Failure e
  end.

(** Modelled from the spec: the state of [ToolRegistry]
    ([core/tools/index.ts], which declares the class, is not part of the
    sources at hand): the definitions in registration order, names
    unique. *)
Definition t : Type := list Tools.AnyTool.

(** Modelled from the spec: [new ToolRegistry()]. *)
Definition empty : t := [].

(** Modelled from the spec: [get(name) -> ToolDefinition | NotFound]. *)
Definition get (r : t) (name : string) : option Tools.AnyTool :=
  find (fun d => String.eqb (Tools.toolName d) name) r.

(** Modelled from the spec: [list()], the definitions in registration
    order. *)
Definition list_ (r : t) : list Tools.AnyTool := r.

(** Modelled from the spec: [register(def)] "fails with
    [DuplicateToolError] if [def.name] already present"; otherwise the
    definition is appended.  The second component is the registry after
    the call. *)
Definition register (d : Tools.AnyTool) (r : t) : Outcome unit * t :=
  match get r (Tools.toolName d) with
  | Some _ =>
      (Threw (Js.Error Js.DuplicateToolError
                ("Tool already registered: " +:+ Tools.toolName d)), r)
  | None => (Returned tt, r ++ [d])
  end.

(** Modelled from the spec: the "field-level message" a validation failure
    is reported with: every issue as [path: message]. *)
Definition formatIssues (issues : list Schema.issue) : string :=
  String.concat "; "
    (map (fun i => String.concat "." (Schema.path i) +:+ ": " +:+ Schema.message i)
         issues).

(** Modelled from the spec: [invoke(name, rawInput, context)], steps 1 to 4
    of section 4.1: look the tool up (absent: fail with [UnknownTool]);
    validate the raw input against the schema (failure: a [success:false]
    result); apply what the schema declares per field (running the schema
    does both: the schemas of [core/schemas.ts] declare defaults and
    bounds, and no clamping); call the handler on the validated input;
    wrap what the handler throws into a [success:false] result. *)
Definition invoke (r : t) (name : string) (rawInput : option Schema.json)
    (context : Tools.ToolContext) : Eff (Tools.ToolResult AnyData) :=
  match get r name with
  | None => throw (Js.Error Js.UnknownTool ("Unknown tool: " +:+ name))
  | Some tool =>
      match Tools.inputSchema (Tools.def tool) rawInput with
      | Schema.ParseError issues => mret (Tools.Failure (formatIssues issues))
      | Schema.ParseOk input =>
          try_catch
            (result ← Tools.handler (Tools.def tool) input context;
             mret (packResult result))
            (fun error => mret (Tools.Failure (Js.message_of error)))
      end
  end.

End Registry.

(** ** [index.ts]: the entry point *)

Module Main.

Definition nl : string := String (ascii_of_nat 10) EmptyString.

(** The double quote. *)
Definition dq : string := String (ascii_of_nat 34) EmptyString.

(** The white space [trim] removes, in UTF-8: the [WhiteSpace] and
    [LineTerminator] code points of the language, that is U+0009 to
    U+000D, U+0020, U+00A0, U+1680, U+2000 to U+200A, U+2028, U+2029,
    U+202F, U+205F, U+3000 and U+FEFF. *)
Definition whiteSpace : list string :=
  map Js.bytes
    [[9]; [10]; [11]; [12]; [13]; [32]; [194; 160]; [225; 154; 128];
     [226; 128; 128]; [226; 128; 129]; [226; 128; 130]; [226; 128; 131];
     [226; 128; 132]; [226; 128; 133]; [226; 128; 134]; [226; 128; 135];
     [226; 128; 136]; [226; 128; 137]; [226; 128; 138];
     [226; 128; 168]; [226; 128; 169]; [226; 128; 175]; [226; 129; 159];
     [227; 128; 128]; [239; 187; 191]].

(** What is left of [s] behind the one of [spaces] it starts with, if it
    starts with one. *)
Fixpoint afterSpace (spaces : list string) (s : string) : option string :=
  match spaces with
  | [] => None
  | space :: others =>
      if String.prefix space s
      then Some (String.substring (String.length space)
                                  (String.length s - String.length space) s)
      else afterSpace others s
  end.

(** [s] without the [spaces] it starts with; every step removes at least
    a byte, so the length of [s] is fuel enough. *)
Fixpoint dropSpaces (spaces : list string) (fuel : nat) (s : string) : string :=
  match fuel with
  | O => s
  | S fuel' =>
      match afterSpace spaces s with
      | Some rest => dropSpaces spaces fuel' rest
      | None => s
      end
  end.

(** [String.prototype.trimStart], [trimEnd] and [trim] *)
Definition trimStart (s : string) : string :=
  dropSpaces whiteSpace (String.length s) s.

Definition trimEnd (s : string) : string :=
  String.rev (dropSpaces (map String.rev whiteSpace) (String.length s) (String.rev s)).

Definition trim (s : string) : string := trimEnd (trimStart s).

(** [content.split("\n")] *)
Fixpoint splitLines (cur : string) (s : string) : list string :=
  match s with
  | EmptyString => [String.rev cur]
  | String c rest =>
      if Ascii.eqb c (ascii_of_nat 10) then String.rev cur :: splitLines EmptyString rest
      else splitLines (String c cur) rest
  end.

(** The character class [[A-Za-z0-9_-]]. *)
Definition is_key_char (c : ascii) : bool :=
  let n := nat_of_ascii c in
  ((65 <=? n) && (n <=? 90)) || ((97 <=? n) && (n <=? 122))
  || ((48 <=? n) && (n <=? 57)) || (n =? 95) || (n =? 45).

Fixpoint all_key_chars (s : string) : bool :=
  match s with
  | EmptyString => true
  | String c rest => is_key_char c && all_key_chars rest
  end.

(** [line.match(/^<prefix>[A-Za-z0-9_-]+$/)] for a three-character prefix. *)
Definition looksLikeKey (pre : string) (line : string) : bool :=
  String.prefix pre line
  && (let rest := String.substring 3 (String.length line - 3) line in
      negb (String.eqb rest EmptyString) && all_key_chars rest).

(** The [.env] file in the working directory (which is taken to exist):
    there is none, it cannot be read, or it has a content. *)
Inductive EnvFile : Type :=
| NoFile
| Unreadable
| Content (content : string).

Definition voyageKeyMessage (line : string) : string :=
  ".env file misconfigured: Found what looks like a Voyage API key without the variable name."
  +:+ nl +:+ nl +:+ "Your .env file contains:" +:+ nl +:+ "  " +:+ line
  +:+ nl +:+ nl +:+ "It should be:" +:+ nl +:+ "  VOYAGE_API_KEY=" +:+ line
  +:+ nl +:+ nl +:+ "Please fix your .env file and restart Claude Code.".

Definition openaiKeyMessage (line : string) : string :=
  ".env file misconfigured: Found what looks like an OpenAI API key without the variable name."
  +:+ nl +:+ nl +:+ "Your .env file contains:" +:+ nl +:+ "  " +:+ line
  +:+ nl +:+ nl +:+ "It should be:" +:+ nl +:+ "  OPENAI_API_KEY=" +:+ line
  +:+ nl +:+ nl +:+ "Please fix your .env file and restart Claude Code.".

(** The [for (const line of lines)] loop of [checkEnvFile]. *)
Fixpoint scanEnvLines (lines : list string) : option string :=
  match lines with
  | [] => None
  | line :: rest =>
      if looksLikeKey "pa-" line then Some (voyageKeyMessage line)
      else if looksLikeKey "sk-" line then Some (openaiKeyMessage line)
      else scanEnvLines rest
  end.

(** [function checkEnvFile(): string | undefined] *)
Definition checkEnvFile (env : EnvFile) : option string :=
  match env with
  | NoFile => None
  | Unreadable => None
  | Content content =>
      let lines :=
        List.filter (fun l => Js.truthy_str l && negb (String.prefix "#" l))
                    (map trim (splitLines EmptyString content)) in
      scanEnvLines lines
  end.

(** [function validateApiKeyFormat(provider, apiKey): string | undefined] *)
Definition validateApiKeyFormat (provider apiKey : string) : option string :=
  if String.eqb provider "voyage" then
    if negb (String.prefix "pa-" apiKey) then
      Some ("Invalid Voyage API key format. Voyage API keys should start with " +:+ dq +:+ "pa-" +:+ dq +:+ "."
            +:+ nl +:+ nl +:+ "Your key starts with: " +:+ dq +:+ Js.substring0 3 apiKey
            +:+ "..." +:+ dq +:+ nl +:+ nl
            +:+ "Get a valid API key at https://www.voyageai.com/ and update your .env file.")
    else None
  else if String.eqb provider "openai" then
    if negb (String.prefix "sk-" apiKey) then
      Some ("Invalid OpenAI API key format. OpenAI API keys should start with " +:+ dq +:+ "sk-" +:+ dq +:+ "."
            +:+ nl +:+ nl +:+ "Your key starts with: " +:+ dq +:+ Js.substring0 3 apiKey
            +:+ "..." +:+ dq +:+ nl +:+ nl
            +:+ "Check your API key and update your .env file.")
    else None
  else None.

(** The name of the environment variable the user is told to set. *)
Definition envVar (js : Js.Lang) (provider : string) : string :=
  if String.eqb provider "voyage" then "VOYAGE_API_KEY"
  else if String.eqb provider "openai" then "OPENAI_API_KEY"
  else Js.toUpperCase js provider +:+ "_API_KEY".

Definition apiKeyMissingMessage (js : Js.Lang) (provider : string) : string :=
  "API key not configured. Get a free Voyage API key at https://www.voyageai.com/ and add it to your .env file:"
  +:+ nl +:+ nl +:+ envVar js provider +:+ "=your-key-here" +:+ nl +:+ nl
  +:+ "Then restart Claude Code.".

(** The first block of [main]: what [configError] holds when the checks
    are through ([undefined] is [None]). *)
Definition resolveConfigError (js : Js.Lang) (env : EnvFile) (config : Cfg.Config)
    : option string :=
  match Js.if_truthy (checkEnvFile env) with
  | Some envFileError => Some envFileError
  | None =>
      match Js.if_truthy (Cfg.apiKey (Cfg.embedding config)) with
      | None => Some (apiKeyMissingMessage js (Cfg.provider (Cfg.embedding config)))
      | Some apiKey =>
          Js.if_truthy
            (validateApiKeyFormat (Cfg.provider (Cfg.embedding config)) apiKey)
      end
  end.

(** A server [main] starts. *)
Inductive ServerKind : Type :=
| MCP
| REST (host : string) (port : nat)
| OpenAI (host : string) (port : nat).

(** What [index.ts] imports and does not define: [loadConfig], the two
    provider factories, the class [ToolRegistry] with its constructor and
    [register] (which leaves the registry changed or throws), the six tool
    definitions it registers, and the functions that start a server:
    [start MCP] is the awaited [startMCPServer(registry, context)],
    [start (REST host port)] is [createRESTServer(registry, context,
    config)] followed by [startRESTServer(restApp, config)], and
    [start (OpenAI host port)] is [createOpenAIServer(registry, context,
    config)] followed by [startOpenAIServer(openaiApp, host, port)].  Each
    of them returns or throws. *)
Record Imports : Type := mkImports {
  loadConfig : Outcome Cfg.Config;
  createEmbeddingProvider : Cfg.Embedding -> Outcome Tools.EmbeddingProvider;
  createVectorStore : Cfg.Store -> Outcome Tools.VectorStore;
  ToolRegistry : Type;
  newToolRegistry : Outcome ToolRegistry;
  register : Tools.AnyTool -> ToolRegistry -> Outcome unit * ToolRegistry;
  searchCodeTool : Tools.AnyTool;
  searchClientCodeTool : Tools.AnyTool;
  searchGameDataTool : Tools.AnyTool;
  codeStatsTool : Tools.AnyTool;
  clientCodeStatsTool : Tools.AnyTool;
  gameDataStatsTool : Tools.AnyTool;
  start : ServerKind -> ToolRegistry -> Tools.ToolContext -> Cfg.Config -> Outcome unit;
}.

(** What [console.error] is called with: one string, or a label and a
    thrown value, which is printed the way the runtime inspects it (for an
    [Error], with its stack). *)
Inductive Printed : Type :=
| Line (text : string)
| Inspected (label : string) (value : Js.thrown).

(** How [main] ends: the process is ended by [process.exit], after a
    call of [console.error]; or every server of the mode was started and
    the process is left serving; or [main] returns without having started
    a server, the mode being none of the four. *)
Inductive Process (R : Type) : Type :=
| Exit (code : nat) (stderr : Printed)
| Serving (servers : list ServerKind) (registry : R)
          (context : Tools.ToolContext)
| NothingStarted (registry : R) (context : Tools.ToolContext).
Arguments Exit {R} code stderr.
Arguments Serving {R} servers registry context.
Arguments NothingStarted {R} registry context.

(** [main().catch((error) => { console.error("Fatal error:", error);
    process.exit(1) })] *)
Definition fatal {R} (error : Js.thrown) : Process R :=
  Exit 1 (Inspected "Fatal error:" error).

(** The six [registry.register(...)] calls, in order; the first one that
    throws ends the sequence. *)
Fixpoint registerAll (imp : Imports) (tools : list Tools.AnyTool)
    (r : ToolRegistry imp) : Outcome (ToolRegistry imp) :=
  match tools with
  | [] => Returned r
  | d :: rest =>
      match register imp d r with
      | (Returned _, r') => registerAll imp rest r'
      | (Threw e, _) => Threw e
      end
  end.

(** The [if (mode === ...) else if ...] chain at the end of [main]: the
    servers of the mode, in the order they are started. *)
Definition serversFor (s : Cfg.Server) : list ServerKind :=
  if String.eqb (Cfg.mode s) "mcp" then [MCP]
  else if String.eqb (Cfg.mode s) "rest" then [REST (Cfg.host s) (Cfg.port s)]
  else if String.eqb (Cfg.mode s) "openai" then [OpenAI (Cfg.host s) (Cfg.port s)]
  else if String.eqb (Cfg.mode s) "all"
       then [REST (Cfg.host s) (Cfg.port s); OpenAI (Cfg.host s) (Cfg.port s + 1)]
  else [].

(** The calls that start the servers, in order; the first one that throws
    ends the sequence. *)
Fixpoint startAll (imp : Imports) (servers : list ServerKind)
    (registry : ToolRegistry imp) (context : Tools.ToolContext) (config : Cfg.Config)
    : Outcome unit :=
  match servers with
  | [] => Returned tt
  | server :: rest =>
      match start imp server registry context config with
      | Returned _ => startAll imp rest registry context config
      | Threw e => Threw e
      end
  end.

(** The tools [main] registers, in order. *)
Definition tools (imp : Imports) : list Tools.AnyTool :=
  [searchCodeTool imp; searchClientCodeTool imp; searchGameDataTool imp;
   codeStatsTool imp; clientCodeStatsTool imp; gameDataStatsTool imp].

(** [if (!configError && config.embedding.apiKey) { embedding =
    createEmbeddingProvider(...) }]: the provider [main] goes on with,
    [undefined] when none is created. *)
Definition embeddingFor (imp : Imports) (config : Cfg.Config)
    (configError : option string) : Outcome (option Tools.EmbeddingProvider) :=
  if negb (Js.truthy configError) && Js.truthy (Cfg.apiKey (Cfg.embedding config))
  then
    match createEmbeddingProvider imp (Cfg.embedding config) with
    | Returned p => Returned (Some p)
    | Threw e => Threw e
    end
  else Returned None.

(** [main] from the provider set-up on, given what [configError] holds. *)
Definition startServers (imp : Imports) (config : Cfg.Config)
    (configError : option string) : Process (ToolRegistry imp) :=
  match embeddingFor imp config configError with
  | Threw e => fatal e
  | Returned embedding =>
      match createVectorStore imp (Cfg.vectorStore config) with
      | Threw e => fatal e
      | Returned vectorStore =>
          match Tools.connect vectorStore with
          | Threw e => fatal e
          | Returned _ =>
              match newToolRegistry imp with
              | Threw e => fatal e
              | Returned empty =>
                  match registerAll imp (tools imp) empty with
                  | Threw e => fatal e
                  | Returned registry =>
                      let context :=
                        {| Tools.embedding := embedding;
                           Tools.vectorStore := vectorStore;
                           Tools.config := config;
                           Tools.configError := configError |} in
                      match serversFor (Cfg.server config) with
                      | [] => NothingStarted registry context
                      | servers =>
                          match startAll imp servers registry context config with
                          | Threw e => fatal e
                          | Returned _ => Serving servers registry context
                          end
                      end
                  end
              end
          end
      end
  end.

(** [async function main()] from the line after [loadConfig()] on, with
    the configuration it returned and the [.env] file found in the working
    directory, and with the [catch] its call is followed by. *)
Definition main (js : Js.Lang) (imp : Imports) (env : EnvFile) (config : Cfg.Config)
    : Process (ToolRegistry imp) :=
  let configError := resolveConfigError js env config in
  if Js.truthy configError && negb (String.eqb (Cfg.mode (Cfg.server config)) "mcp")
  then Exit 1 (Line ("Error: " +:+ default EmptyString configError))
  else startServers imp config configError.

(** [main().catch(...)], [loadConfig()] included: an exception of
    [loadConfig] is caught like any other. *)
Definition run (js : Js.Lang) (imp : Imports) (env : EnvFile)
    : Process (ToolRegistry imp) :=
  match loadConfig imp with
  | Threw e => fatal e
  | Returned config => main js imp env config
  end.

End Main.

(** ** [embedder.ts]: embedding helpers of the ingest scripts *)

Module Embedder.

(** [MethodChunk] of [parser.ts], the fields this module and [db.ts] read. *)
Record MethodChunk : Type := mkMethodChunk {
  id : string;
  className : string;
  packageName : string;
  methodName : string;
  methodSignature : string;
  content : string;
  filePath : string;
  lineStart : Z;
  lineEnd : Z;
}.

(** [interface EmbeddedChunk extends MethodChunk]: [{...chunk, vector}];
    [vector] is [result.vectors[i]], [undefined] past the end. *)
Record EmbeddedChunk : Type := mkEmbeddedChunk {
  chunk : MethodChunk;
  vector : option (list Q);
}.

(** [function buildMethodEmbeddingText(chunk)] *)
Definition buildMethodEmbeddingText (chunk : MethodChunk) : string :=
  String.concat Main.nl
    ["// Package: " +:+ packageName chunk;
     "// Class: " +:+ className chunk;
     "// Method: " +:+ methodName chunk;
     EmptyString;
     methodSignature chunk;
     EmptyString;
     content chunk].

(** The options [new VoyageEmbeddingProvider({...})] is given. *)
Record VoyageOptions : Type := mkVoyageOptions {
  type : string;
  apiKey : string;
  batchSize : nat;
  rateLimitMs : nat;
}.

(** The embedding endpoint: one request for one batch of texts, with the
    purpose and mode tags. *)
Definition Api : Type := list string -> string -> string -> Outcome (list (list Q)).

(** [{ vectors }], the result of [embedBatch]. *)
Record EmbedResult : Type := mkEmbedResult {
  vectors : list (list Q);
}.

(** Modelled from the spec: the batch loop of
    [VoyageEmbeddingProvider.embedBatch] ([providers/embedding/voyage.ts]
    is not part of the sources at hand), section 4.2: the texts are taken
    [batchSize] at a time from position [i]; between successive batches
    the delay [rateLimitMs] is awaited; the provider is called once per
    batch and a failed call fails the whole operation; the results are
    concatenated in call order; after each batch the progress callback gets
    the cumulative count.  One iteration per unit of fuel, [None] when the
    fuel runs out before the loop ends. *)
Fixpoint embedLoop (fuel : nat) (api : Api) (opts : VoyageOptions)
    (texts : list string) (purpose mode : string) (i : nat)
    (acc : list (list Q)) : option (Eff (list (list Q))) :=
  match fuel with
  | O => None
  | S fuel' =>
      if length texts <=? i then Some (mret acc)
      else
        let batch := take (batchSize opts) (drop i texts) in
        let step : Eff (list (list Q)) :=
          (_ ← (if 0 <? i then call (EvSleep (rateLimitMs opts)) (Returned tt)
                else mret tt);
           embeddings ← call (EvEmbedCall batch purpose mode) (api batch purpose mode);
           _ ← call (EvProgress ((i + batchSize opts) `min` length texts) (length texts))
                    (Returned tt);
           mret (acc ++ embeddings)) in
        match step with
        | (t, Threw e) => Some (t, Threw e)
        | (t, Returned acc') =>
            match embedLoop fuel' api opts texts purpose mode (i + batchSize opts) acc' with
            | None => None
            | Some (t', r) => Some (t ++ t', r)
            end
        end
  end.

(** Modelled from the spec: [embedBatch(texts, {purpose, mode},
    onProgress)] of the Voyage provider.  The loop gets one iteration per
    text and one more, which is enough whenever the batch size is
    positive; [None] stands for a loop that does not end (batch size 0 on
    a non-empty input). *)
Definition embedBatch (api : Api) (opts : VoyageOptions) (texts : list string)
    (purpose mode : string) : option (Eff EmbedResult) :=
  match embedLoop (S (length texts)) api opts texts purpose mode 0 [] with
  | None => None
  | Some m => Some (vs ← m; mret (mkEmbedResult vs))
  end.

(** [export async function embedChunks(chunks, apiKey, onProgress?)] *)
Definition embedChunks (api : Api) (chunks : list MethodChunk) (apiKey : string)
    : option (Eff (list EmbeddedChunk)) :=
  let provider := {| type := "voyage"; apiKey := apiKey;
                     batchSize := 128; rateLimitMs := 100 |} in
  let texts := map buildMethodEmbeddingText chunks in
  match embedBatch api provider texts "code" "document" with
  | None => None
  | Some m =>
      Some (result ← m;
            mret (imap (fun i chunk => mkEmbeddedChunk chunk (vectors result !! i))
                       chunks))
  end.

End Embedder.

(** ** A vector store in memory

    An implementation of the [VectorStore] interface over tables held in
    memory, to run the handlers on.  It behaves the way section 4.3 of the
    specification describes a store: [search] filters, scores with
    [1 - distance] and returns the best hits first; [queryAll] yields
    bounded batches and stops at a short one; a table that does not exist
    surfaces as [TableNotFound]. *)

Module MemStore.

(** A stored record: the metadata and the vector. *)
Definition Record_ : Type := (Tools.DocRow * list Q)%type.

(** The size of the batches [queryAll] yields. *)
Definition pageSize : nat := 1000.

(** The batches of [queryAll]: pages of [pageSize] rows, up to the first
    page that is empty or short. *)
Fixpoint yieldPages (fuel : nat) (rows : list Tools.DocRow) : Tools.Batches :=
  match fuel with
  | O => Tools.Done
  | S fuel' =>
      let batch := take pageSize rows in
      if length batch =? 0 then Tools.Done
      else Tools.Yield batch
             (if length batch <? pageSize then Tools.Done
              else yieldPages fuel' (drop pageSize rows))
  end.

(** Insertion sort on the score, descending. *)
Fixpoint insertByScore (h : Tools.SearchHit) (hits : list Tools.SearchHit)
    : list Tools.SearchHit :=
  match hits with
  | [] => [h]
  | h' :: rest =>
      if Qle_bool (Tools.hit_score h') (Tools.hit_score h) then h :: hits
      else h' :: insertByScore h rest
  end.

(** The equality predicate [{type: t}] on the metadata. *)
Definition matches (filter : option (string * string)) (r : Record_) : bool :=
  match filter with
  | None => true
  | Some (_, t) =>
      match Tools.row_type (fst r) with
      | Some t' => String.eqb t t'
      | None => false
      end
  end.

(** What an operation on a table that does not exist throws. *)
Definition notFound {A} (table : string) : Outcome A :=
  Threw (Js.Error Js.TableNotFound ("Table '" +:+ table +:+ "' was not found")).

(** How many of [n] hits a limit lets through. *)
Definition atMost (limit : Js.number) (n : nat) : nat :=
  match limit with
  | Js.Finite q => Z.to_nat (Qfloor q)
  | Js.PlusInfinity => n
  | Js.MinusInfinity => 0
  | Js.NotANumber => 0
  end.

(** The store over the tables [tables]. *)
Definition make (tables : gmap string (list Record_)) : Tools.VectorStore :=
  {| Tools.connect := Returned tt;
     Tools.tableExists := fun table =>
       Returned (match tables !! table with Some _ => true | None => false end);
     Tools.getStats := fun table =>
       match tables !! table with
       | Some records => Returned (Tools.mkTableStats (length records))
       | None => notFound table
       end;
     Tools.search := fun table queryVector options =>
       match tables !! table with
       | Some records =>
           Returned
             (take (atMost (Tools.opt_limit options) (length records))
                (foldr insertByScore []
                   (map (fun r => Tools.mkSearchHit (fst r)
                                    (1 - Db.l2 queryVector (snd r))%Q)
                        (List.filter (matches (Tools.opt_filter options)) records))))
       | None => notFound table
       end;
     Tools.queryAll := fun table =>
       match tables !! table with
       | Some records => yieldPages (S (length records)) (map fst records)
       | None => Tools.Fails (Js.Error Js.TableNotFound
                                ("Table '" +:+ table +:+ "' was not found"))
       end |}.

End MemStore.

(** ** Concrete tables, stores and inputs the statements below are run on *)

Module Fixtures.

(** A row of the code table for the method [run] of class [cls]. *)
Definition methodRow (id cls pkg : string) (v : list Q) (d : Js.num) : Db.Row :=
  Db.mkRow id cls pkg "run" "void run()" "{ }" (cls +:+ ".java") 1 3 v d.

(** A code table with one method whose vector is far from the origin. *)
Definition farTable : list Db.Row :=
  [methodRow "m1" "Inventory" "game.player" [3 # 2]%Q Js.Undefined].

(** A code table of three methods at distances 0, 1/4 and 4 from the
    origin. *)
Definition threeRows : list Db.Row :=
  [methodRow "m3" "World" "game.world" [2%Q] Js.Undefined;
   methodRow "m1" "Inventory" "game.player" [0%Q] Js.Undefined;
   methodRow "m2" "Hotbar" "game.player" [1 # 2]%Q Js.Undefined].

(** A database with the two code tables, and the reference engine over
    it. *)
Definition codeDb : gmap string (list Db.Row) :=
  {[ "hytale_methods" := threeRows; "far" := farTable ]}.

Definition codeEngine : Db.Engine := Db.flatEngine codeDb (fun _ _ => true).

(** An engine that hands the stored rows back as they are, without
    distances. *)
Definition plainEngine : Db.Engine :=
  {| Db.openTable := Db.openTable codeEngine;
     Db.vectorSearch := fun table _ limit _ => Returned (take limit table) |}.

(** Case mappings that do on every text what the language does on ASCII
    text; the examples apply them to ASCII text only. *)
Definition js : Js.Lang := Js.mkLang Js.ascii_upper Js.ascii_lower.

(** The configuration of a server in mode [mode] with the API key
    [apiKey]. *)
Definition configOf (mode : string) (apiKey : option string) : Cfg.Config :=
  {| Cfg.embedding := Cfg.mkEmbedding "voyage" apiKey None 128 100;
     Cfg.vectorStore := Cfg.mkStore "lancedb" (Some "data/lancedb") None None None;
     Cfg.server := Cfg.mkServer mode "localhost" 3000;
     Cfg.tables := Cfg.mkTables "hytale_methods" "hytale_client_ui"
                                "hytale_gamedata" "hytale_docs" |}.

(** A documentation record of type [guide] in category [plugin]. *)
Definition guideRow : Tools.DocRow :=
  Tools.mkDocRow "guide:plugin/creating-block" (Some "guide") "Creating a block"
    "content/docs/en/plugin/creating-block.mdx" "plugin/creating-block.mdx"
    "How to create a block." (Some "plugin") None.

(** A store without tables, and a store whose documentation table holds
    the one record [guideRow]. *)
Definition unseededStore : Tools.VectorStore := MemStore.make ∅.

Definition seededStore : Tools.VectorStore :=
  MemStore.make {[ "hytale_docs" := [(guideRow, [1; 0]%Q)] ]}.

(** An embedding provider that maps every query to the same vector. *)
Definition constantProvider : Tools.EmbeddingProvider :=
  {| Tools.embedQuery := fun _ _ => Returned [1; 0]%Q |}.

(** A context with a valid configuration. *)
Definition contextOf (store : Tools.VectorStore) : Tools.ToolContext :=
  {| Tools.embedding := Some constantProvider;
     Tools.vectorStore := store;
     Tools.config := configOf "mcp" (Some "pa-0123456789");
     Tools.configError := None |}.

(** The context of an MCP server that was started without an API key. *)
Definition contextWithoutKey (store : Tools.VectorStore) : Tools.ToolContext :=
  {| Tools.embedding := None;
     Tools.vectorStore := store;
     Tools.config := configOf "mcp" None;
     Tools.configError := Main.resolveConfigError js Main.NoFile (configOf "mcp" None) |}.

(** A registry holding the two documentation tools. *)
Definition docsRegistry : Registry.t :=
  [Tools.mkAnyTool Tools.searchDocsTool; Tools.mkAnyTool Tools.docsStatsTool].

(** The raw input [{query: "block creation", limit: l}]. *)
Definition searchInput (l : Q) : option Schema.json :=
  Some (Schema.JObject [("query", Schema.JString "block creation");
                        ("limit", Schema.JNumber l)]).

(** Stand-ins for the tool definitions [index.ts] imports; only their
    names matter to [main]. *)
Definition namedTool (name : string) : Tools.AnyTool :=
  Tools.mkAnyTool
    {| Tools.name := name;
       Tools.description := name;
       Tools.inputSchema := Schema.emptySchema;
       Tools.handler := fun _ _ => mret (Tools.Success tt) |}.

(** An embedding endpoint that maps every text to the one-dimensional
    vector of its length. *)
Definition lengthOf (text : string) : list Q :=
  [inject_Z (Z.of_nat (String.length text))].

Definition lengthApi : Embedder.Api := fun batch _ _ => Returned (map lengthOf batch).

(** Provider options with the given batch size. *)
Definition voyage (batchSize : nat) : Embedder.VoyageOptions :=
  Embedder.mkVoyageOptions "voyage" "pa-0123456789" batchSize 100.

Definition threeTexts : list string := ["alpha"; "be"; "gam"].

(** The imports of [index.ts] over the store in memory and the registry of
    the specification. *)
Definition imports : Main.Imports :=
  {| Main.loadConfig := Returned (configOf "mcp" None);
     Main.createEmbeddingProvider := fun _ => Returned constantProvider;
     Main.createVectorStore := fun _ => Returned seededStore;
     Main.ToolRegistry := Registry.t;
     Main.newToolRegistry := Returned Registry.empty;
     Main.register := Registry.register;
     Main.searchCodeTool := namedTool "search_code";
     Main.searchClientCodeTool := namedTool "search_client_code";
     Main.searchGameDataTool := namedTool "search_gamedata";
     Main.codeStatsTool := namedTool "code_stats";
     Main.clientCodeStatsTool := namedTool "client_code_stats";
     Main.gameDataStatsTool := namedTool "gamedata_stats";
     Main.start := fun _ _ _ _ => Returned tt |}.

End Fixtures.

(** ** [docs-parser.ts]: the documentation files *)

Module DocsParser.

(** [s.includes(t)]: [t] starts at some position of [s]. *)
Fixpoint includes (s t : string) : bool :=
  String.prefix t s
  || match s with
     | EmptyString => false
     | String _ rest => includes rest t
     end.

(** [(content.match(/```/g) || []).length]: the matches of a global
    regular expression are taken from left to right and do not overlap. *)
Fixpoint countFences (content : string) : nat :=
  match content with
  | String "`" (String "`" (String "`" rest)) => S (countFences rest)
  | String _ rest => countFences rest
  | EmptyString => 0
  end.

(** [function getDocsType(relativePath, content): DocsType] *)
Definition getDocsType (js : Js.Lang) (relativePath content : string) : string :=
  let pathLower := Js.toLowerCase js relativePath in
  if includes pathLower "faq" then "faq"
  else if includes pathLower "example" || includes pathLower "sample" then "example"
  else if includes pathLower "reference" || includes pathLower "api" then "reference"
  else
    let codeBlocks := countFences content in
    if 6 <=? codeBlocks then "example" else "guide".

(** [s.split(sep)] for a separator that is one character of a class: the
    pieces between the separators, empty pieces included; a string without
    separator is its only piece. *)
Fixpoint split (sep : ascii -> bool) (s : string) : list string :=
  match s with
  | EmptyString => [EmptyString]
  | String c rest =>
      if sep c then EmptyString :: split sep rest
      else
        match split sep rest with
        | piece :: pieces => String c piece :: pieces
        | [] => [String c EmptyString]
        end
  end.

(** The character class [[/\\]]. *)
Definition is_slash (c : ascii) : bool :=
  (nat_of_ascii c =? 47) || (nat_of_ascii c =? 92).

(** [function extractCategory(relativePath): string | undefined] *)
Definition extractCategory (relativePath : string) : option string :=
  let parts := split is_slash relativePath in
  if 1 <? length parts then head parts else None.

(** What the module uses of [path]: it is a collaborator. *)
Record Path : Type := mkPath {
  join : string -> string -> string;
  relative : string -> string -> string;
  extname : string -> string;
  basename : string -> string -> string;
}.

(** [word.charAt(0).toUpperCase() + word.slice(1)]: the first code unit
    in upper case, then the rest.  The first code unit of a character of
    four bytes is half of the character, which has no upper case: the word
    is put together again as it was. *)
Definition capitalize (js : Js.Lang) (word : string) : string :=
  match word with
  | EmptyString => EmptyString
  | String b _ =>
      let k := Js.charLength b in
      if k =? 4 then word
      else Js.toUpperCase js (String.substring 0 k word)
           +:+ String.substring k (String.length word - k) word
  end.

(** [function extractTitle(frontmatter, filePath): string] *)
Definition extractTitle (js : Js.Lang) (path : Path) (frontmatter : gmap string string)
    (filePath : string) : string :=
  match Js.if_truthy (frontmatter !! "title") with
  | Some title => title
  | None =>
      match Js.if_truthy (frontmatter !! "name") with
      | Some name => name
      | None =>
          let basename := basename path filePath (extname path filePath) in
          String.concat " "
            (map (capitalize js) (split (fun c => nat_of_ascii c =? 45) basename))
      end
  end.

(** An entry of [fs.readdirSync(dir, { withFileTypes: true })]. *)
Record Dirent : Type := mkDirent {
  name : string;
  isDirectory : bool;
  isFile : bool;
}.

(** What the module uses of [fs]: it is a collaborator, and nothing writes
    to the directory while it is read. *)
Record Fs : Type := mkFs {
  readdirSync : string -> Outcome (list Dirent);
  readFileSync : string -> Outcome string;
}.

(** [ext === ".mdx" || ext === ".md"] for
    [ext = path.extname(entry.name).toLowerCase()]. *)
Definition isDocsFile (js : Js.Lang) (path : Path) (entryName : string) : bool :=
  let ext := Js.toLowerCase js (extname path entryName) in
  String.eqb ext ".mdx" || String.eqb ext ".md".

(** The inner [function walk(currentDir)] of [collectDocsFiles], pushing
    onto [files]; one level of directories per unit of fuel, [None] when
    the fuel runs out. *)
Fixpoint walk (js : Js.Lang) (fuel : nat) (fs : Fs) (path : Path) (currentDir : string)
    (files : list string) : option (list string) :=
  match fuel with
  | O => None
  | S fuel' =>
      match readdirSync fs currentDir with
      | Threw _ => Some files
      | Returned entries =>
          (fix each (entries : list Dirent) (files : list string)
             : option (list string) :=
             match entries with
             | [] => Some files
             | entry :: rest =>
                 let fullPath := join path currentDir (name entry) in
                 if isDirectory entry then
                   match walk js fuel' fs path fullPath files with
                   | Some files' => each rest files'
                   | None => None
                   end
                 else if isFile entry then
                   if isDocsFile js path (name entry)
                   then each rest (files ++ [fullPath])
                   else each rest files
                 else each rest files
             end) entries files
      end
  end.

(** [function collectDocsFiles(dir): string[]] *)
Definition collectDocsFiles (js : Js.Lang) (fuel : nat) (fs : Fs) (path : Path)
    (dir : string) : option (list string) :=
  walk js fuel fs path dir [].

(** [interface DocsStats].  [byCategory] and [byType] are objects that
    begin as [{}] and are used as counters. *)
Record DocsStats : Type := mkDocsStats {
  totalFiles : nat;
  byCategory : gmap string Js.tally;
  byType : gmap string Js.tally;
}.

(** The body of [for (const file of files)] in [getDocsStats]. *)
Definition countFile (js : Js.Lang) (fs : Fs) (path : Path) (docsPath : string)
    (stats : DocsStats) (file : string) : DocsStats :=
  let relativePath := relative path docsPath file in
  let category := Js.or_else (extractCategory relativePath) "Other" in
  match readFileSync fs file with
  | Threw _ => stats
  | Returned content =>
      if String.prefix "{" (Main.trim content) then stats
      else
        let type := getDocsType js relativePath content in
        {| totalFiles := totalFiles stats + 1;
           byCategory := Js.bump (byCategory stats) category;
           byType := Js.bump (byType stats) type |}
  end.

(** The category that body counts [file] under. *)
Definition categoryOf (path : Path) (docsPath file : string) : string :=
  Js.or_else (extractCategory (relative path docsPath file)) "Other".

(** Whether that body counts [file]: the file can be read and its
    content, trimmed, does not start with a brace. *)
Definition counts (fs : Fs) (file : string) : bool :=
  match readFileSync fs file with
  | Returned content => negb (String.prefix "{" (Main.trim content))
  | Threw _ => false
  end.

(** [export async function getDocsStats(docsPath): Promise<DocsStats>] *)
Definition getDocsStats (js : Js.Lang) (fuel : nat) (fs : Fs) (path : Path)
    (docsPath : string) : option DocsStats :=
  match collectDocsFiles js fuel fs path docsPath with
  | Some files =>
      Some (fold_left (countFile js fs path docsPath) files (mkDocsStats 0 ∅ ∅))
  | None => None
  end.

(** A directory as [walk] finds it: one that cannot be listed, or its
    entries, each directory among them with what is below it. *)
#[local] Unset Elimination Schemes.
Inductive Tree : Type :=
| Unlisted
| Listing (entries : list (Dirent * option Tree)).
#[local] Set Elimination Schemes.

(** The number of directory levels of a tree. *)
Fixpoint depth (t : Tree) : nat :=
  match t with
  | Unlisted => 1
  | Listing entries =>
      S (foldr Nat.max 0
           (map (fun entry : Dirent * option Tree =>
                   match snd entry with
                   | Some sub => if isDirectory (fst entry) then depth sub else 0
                   | None => 0
                   end) entries))
  end.

(** [fs] shows the tree [t] at [dir]: the listing of [dir] is the one of
    [t], and so on below every directory of the listing. *)
Fixpoint shows (fs : Fs) (path : Path) (dir : string) (t : Tree) : Prop :=
  match t with
  | Unlisted => exists e, readdirSync fs dir = Threw e
  | Listing entries =>
      readdirSync fs dir = Returned (map fst entries)
      /\ foldr and True
           (map (fun entry : Dirent * option Tree =>
                   isDirectory (fst entry) = true ->
                   match snd entry with
                   | Some sub => shows fs path (join path dir (name (fst entry))) sub
                   | None => False
                   end) entries)
  end.

(** The documentation files of a tree: the entries in listing order, each
    directory in full before the entry after it. *)
Fixpoint docsFiles (js : Js.Lang) (path : Path) (dir : string) (t : Tree)
    : list string :=
  match t with
  | Unlisted => []
  | Listing entries =>
      flat_map (fun entry : Dirent * option Tree =>
                  if isDirectory (fst entry) then
                    match snd entry with
                    | Some sub => docsFiles js path (join path dir (name (fst entry))) sub
                    | None => []
                    end
                  else if isFile (fst entry) && isDocsFile js path (name (fst entry))
                       then [join path dir (name (fst entry))]
                       else []) entries
  end.

(** [capitalize] on a word in ASCII: the first letter in upper case. *)
Definition capitalizeAscii (word : string) : string :=
  match word with
  | EmptyString => EmptyString
  | String c rest => String (Js.ascii_upper_char c) rest
  end.

(** The fallback of [extractTitle] read character by character, for a
    name in ASCII: a dash becomes a space, and the letter at the start and
    after every dash is put in upper case. *)
Fixpoint titleCase (start : bool) (basename : string) : string :=
  match basename with
  | EmptyString => EmptyString
  | String c rest =>
      if nat_of_ascii c =? 45 then String " " (titleCase true rest)
      else String (if start then Js.ascii_upper_char c else c) (titleCase false rest)
  end.

End DocsParser.

(** ** [ingest-client.ts], with [embedClientUIChunks] of [embedder.ts] and
    [createClientUITable] of [db.ts]: the ingestion of the client UI *)

Module Ingest.

(** [ClientUIChunk] of [client-ui-parser.ts], the fields the code at hand
    reads. *)
Record ClientUIChunk : Type := mkClientUIChunk {
  id : string;
  type : string;
  name : string;
  filePath : string;
  relativePath : string;
  content : string;
  category : option string;
  textForEmbedding : string;
}.

(** [interface EmbeddedClientUIChunk extends ClientUIChunk]:
    [{...chunk, vector}]; [vector] is [result.vectors[i]], [undefined]
    past the end. *)
Record EmbeddedClientUIChunk : Type := mkEmbeddedClientUIChunk {
  chunk : ClientUIChunk;
  vector : option (list Q);
}.

(** An element of [data] in [createClientUITable]. *)
Record ClientUIRow : Type := mkClientUIRow {
  row_id : string;
  row_type : string;
  row_name : string;
  row_filePath : string;
  row_relativePath : string;
  row_content : string;
  row_category : string;
  row_textForEmbedding : string;
  row_vector : option (list Q);
}.

(** What [main] reads of the result of [getClientUIStats];
    [byCategory] is given as [Object.entries] lists it. *)
Record ClientUIStats : Type := mkClientUIStats {
  totalFiles : nat;
  xamlFiles : nat;
  uiFiles : nat;
  jsonFiles : nat;
  byCategory : list (string * nat);
}.

(** The result of [parseClientUIDirectory]. *)
Record ParseResult : Type := mkParseResult {
  chunks : list ClientUIChunk;
  errors : list string;
}.

(** The calls that leave the script. *)
Inductive call : Type :=
| MkdirSync (path : string)
| WriteFileSync (file data : string)
| GetClientUIStats (clientDataPath : string)
| ParseClientUIDirectory (clientDataPath : string)
| EmbedBatch (provider : Embedder.VoyageOptions) (texts : list string)
             (purpose mode : string)
| Connect (dbPath : string)
| DropTable (dbPath tableName : string)
| CreateTable (dbPath tableName : string) (data : list ClientUIRow).

(** What a call came back with: an exception, nothing, or the value it
    returned. *)
Inductive answer : Type :=
| Thrown (e : Js.thrown)
| Void
| Stats (stats : ClientUIStats)
| Parsed (parsed : ParseResult)
| Vectors (result : Embedder.EmbedResult).

(** What the script does that can be seen from outside, in order: the
    lines it prints, what [existsSync] told it, and its calls, each logged
    when it comes back, with what it came back with. *)
Inductive io : Type :=
| Log (line : string)
| Err (line : string)
| ErrValue (label : string) (e : Js.thrown)
| Stdout (text : string)
| ExistsSync (path : string) (found : bool)
| Called (c : call) (a : answer).

(** A trace without what is printed: the checks and the calls, with their
    answers. *)
Definition isAction (ev : io) : bool :=
  match ev with
  | ExistsSync _ _ | Called _ _ => true
  | _ => false
  end.

Definition actions (t : list io) : list io := List.filter isAction t.

(** The lines a user is told a failure with. *)
Definition isError (ev : io) : bool :=
  match ev with
  | Err _ | ErrValue _ _ => true
  | _ => false
  end.

(** The calls that reach the database. *)
Definition isTableCall (c : call) : bool :=
  match c with
  | Connect _ | DropTable _ _ | CreateTable _ _ _ => true
  | _ => false
  end.

(** What the script runs on, over a world [W] that its calls read and
    change: the file system, the clock, the two modules it imports and does
    not define here, the embedding provider and LanceDB.  A call with a
    progress callback also tells the arguments of every call of the
    callback, in order.  [defaultDbPath] is
    [path.resolve(__dirname, "..", "data", "lancedb")] and [seconds ms] is
    [(ms / 1000).toFixed(1)]. *)
Record Host (W : Type) : Type := mkHost {
  defaultDbPath : string;
  join : string -> string -> string;
  seconds : Z -> string;
  now : W -> Z * W;
  existsSync : string -> W -> bool * W;
  mkdirSync : string -> W -> Outcome unit * W;
  writeFileSync : string -> string -> W -> Outcome unit * W;
  getClientUIStats : string -> W -> Outcome ClientUIStats * W;
  parseClientUIDirectory :
    string -> W -> list (nat * nat * string) * Outcome ParseResult * W;
  embedBatch :
    Embedder.VoyageOptions -> list string -> string -> string ->
    W -> list (nat * nat) * Outcome Embedder.EmbedResult * W;
  connect : string -> W -> Outcome unit * W;
  dropTable : string -> string -> W -> Outcome unit * W;
  createTable : string -> string -> list ClientUIRow -> W -> Outcome unit * W;
}.
Arguments defaultDbPath {W}.
Arguments join {W}.
Arguments seconds {W}.
Arguments now {W}.
Arguments existsSync {W}.
Arguments mkdirSync {W}.
Arguments writeFileSync {W}.
Arguments getClientUIStats {W}.
Arguments parseClientUIDirectory {W}.
Arguments embedBatch {W}.
Arguments connect {W}.
Arguments dropTable {W}.
Arguments createTable {W}.

(** How a part of the script ends: it goes on with a value, it throws, or
    the process is ended by [process.exit]. *)
Inductive Result (A : Type) : Type :=
| Done (a : A)
| Raised (e : Js.thrown)
| Exited (code : nat).
Arguments Done {A} a.
Arguments Raised {A} e.
Arguments Exited {A} code.

(** A part of the script: from the world it starts in, what it does, the
    world it leaves and how it ends. *)
Definition Run (W A : Type) : Type := W -> list io * W * Result A.

Definition traceOf {W A} (x : list io * W * Result A) : list io := fst (fst x).
Definition worldOf {W A} (x : list io * W * Result A) : W := snd (fst x).
Definition resultOf {W A} (x : list io * W * Result A) : Result A := snd x.

#[global] Instance run_ret {W} : MRet (Run W) := fun A a w => ([], w, Done a).

#[global] Instance run_bind {W} : MBind (Run W) := fun A B k m w =>
  match m w with
  | (t, w', Done a) => let '(t', w'', r) := k a w' in (t ++ t', w'', r)
  | (t, w', Raised e) => (t, w', Raised e)
  | (t, w', Exited code) => (t, w', Exited code)
  end.

Definition emit {W} (ev : io) : Run W unit := fun w => ([ev], w, Done tt).

Definition emitAll {W} (evs : list io) : Run W unit := fun w => (evs, w, Done tt).

(** [process.exit(code)] *)
Definition exit {W A} (code : nat) : Run W A := fun w => ([], w, Exited code).

(** [fs.existsSync(path)] *)
Definition probe {W} (host : Host W) (path : string) : Run W bool := fun w =>
  let '(found, w') := existsSync host path w in ([ExistsSync path found], w', Done found).

(** [Date.now()] *)
Definition clock {W} (host : Host W) : Run W Z := fun w =>
  let '(ms, w') := now host w in ([], w', Done ms).

(** A call, and a call with a progress callback: what the callback does
    comes before the call is back.  [was] says how the value the call
    returned is logged. *)
Definition request {W A} (c : call) (was : A -> answer) (f : W -> Outcome A * W)
    : Run W A := fun w =>
  match f w with
  | (Returned a, w') => ([Called c (was a)], w', Done a)
  | (Threw e, w') => ([Called c (Thrown e)], w', Raised e)
  end.

Definition requestWithProgress {W A P} (c : call) (was : A -> answer)
    (f : W -> list P * Outcome A * W) (onProgress : P -> list io) : Run W A := fun w =>
  match f w with
  | (progress, Returned a, w') =>
      (flat_map onProgress progress ++ [Called c (was a)], w', Done a)
  | (progress, Threw e, w') =>
      (flat_map onProgress progress ++ [Called c (Thrown e)], w', Raised e)
  end.

Definition void (_ : unit) : answer := Void.

(** [try { body } catch (e) { handler(e) }] *)
Definition try_catch {W A} (body : Run W A) (handler : Js.thrown -> Run W A)
    : Run W A := fun w =>
  match body w with
  | (t, w', Raised e) => let '(t', w'', r) := handler e w' in (t ++ t', w'', r)
  | (t, w', Done a) => (t, w', Done a)
  | (t, w', Exited code) => (t, w', Exited code)
  end.

(** [e.message] in a template, for [e: any]: a thrown value that is no
    [Error] has no [message]. *)
Definition messageOf (e : Js.thrown) : string :=
  match e with
  | Js.Error _ message => message
  | Js.Value _ => "undefined"
  end.

(** [export async function embedClientUIChunks(chunks, apiKey, onProgress?)] *)
Definition embedClientUIChunks {W} (host : Host W) (chunks : list ClientUIChunk)
    (apiKey : string) (onProgress : nat * nat -> list io)
    : Run W (list EmbeddedClientUIChunk) :=
  let provider := {| Embedder.type := "voyage"; Embedder.apiKey := apiKey;
                     Embedder.batchSize := 128; Embedder.rateLimitMs := 100 |} in
  let texts := map textForEmbedding chunks in
  result ← requestWithProgress (EmbedBatch provider texts "text" "document") Vectors
             (embedBatch host provider texts "text" "document") onProgress;
  mret (imap (fun i chunk => mkEmbeddedClientUIChunk chunk (Embedder.vectors result !! i))
             chunks).

(** The arrow function mapped over the chunks in [createClientUITable]. *)
Definition toRow (c : EmbeddedClientUIChunk) : ClientUIRow :=
  {| row_id := id (chunk c);
     row_type := type (chunk c);
     row_name := name (chunk c);
     row_filePath := filePath (chunk c);
     row_relativePath := relativePath (chunk c);
     row_content := content (chunk c);
     row_category := Js.or_else (category (chunk c)) EmptyString;
     row_textForEmbedding := textForEmbedding (chunk c);
     row_vector := vector c |}.

(** [export async function createClientUITable(dbPath, chunks,
    tableName = "hytale_client_ui")] *)
Definition createClientUITable {W} (host : Host W) (dbPath : string)
    (chunks : list EmbeddedClientUIChunk) (tableName : option string) : Run W unit :=
  let tableName := default "hytale_client_ui" tableName in
  _ ← request (Connect dbPath) void (connect host dbPath);
  let data := map toRow chunks in
  _ ← try_catch (request (DropTable dbPath tableName) void
                   (dropTable host dbPath tableName))
                (fun _ => mret tt);
  _ ← request (CreateTable dbPath tableName data) void
        (createTable host dbPath tableName data);
  emit (Log ("  Created table '" +:+ tableName +:+ "' with " +:+ pretty (length data)
             +:+ " rows")).

(** The constants of [ingest-client.ts]. *)
Definition DEFAULT_CLIENT_DATA : string :=
  "D:/Roaming/install/release/package/game/latest/Client/Data".

Definition TABLE_NAME : string := "hytale_client_ui".

(** The carriage return. *)
Definition cr : string := String (ascii_of_nat 13) EmptyString.

(** [entries.sort((a, b) => b[1] - a[1])]: by count, largest first; the
    sort keeps entries of equal count in the order they had. *)
Fixpoint insertByCount (x : string * nat) (sorted : list (string * nat))
    : list (string * nat) :=
  match sorted with
  | [] => [x]
  | y :: rest => if snd y <=? snd x then x :: sorted else y :: insertByCount x rest
  end.

Definition sortByCount (entries : list (string * nat)) : list (string * nat) :=
  foldr insertByCount [] entries.

(** The progress callback handed to [parseClientUIDirectory]. *)
Definition parseProgress (p : nat * nat * string) : list io :=
  let '(current, total, _) := p in
  if (current mod 50 =? 0) || (current =? total)
  then [Stdout (cr +:+ "  Parsed " +:+ pretty current +:+ "/" +:+ pretty total +:+ " files")]
  else [].

(** The progress callback handed to [embedClientUIChunks]. *)
Definition embedProgress (p : nat * nat) : list io :=
  let '(current, total) := p in
  [Stdout (cr +:+ "  Embedded " +:+ pretty current +:+ "/" +:+ pretty total +:+ " files")].

(** [main] from ["// Ensure db directory exists"] to the end of the stats
    preview. *)
Definition scan {W} (host : Host W) (clientDataPath dbPath : string) : Run W unit :=
  _ ← request (MkdirSync dbPath) void (mkdirSync host dbPath);
  _ ← emit (Log "Scanning Client/Data directory...");
  stats ← request (GetClientUIStats clientDataPath) Stats
            (getClientUIStats host clientDataPath);
  _ ← emit (Log ("  Total files: " +:+ pretty (totalFiles stats)));
  _ ← emit (Log ("  XAML files: " +:+ pretty (xamlFiles stats)));
  _ ← emit (Log ("  .ui files: " +:+ pretty (uiFiles stats)));
  _ ← emit (Log ("  JSON files: " +:+ pretty (jsonFiles stats)));
  _ ← emit (Log EmptyString);
  _ ← emit (Log "Files by category:");
  _ ← emitAll (map (fun entry => Log ("  " +:+ fst entry +:+ ": " +:+ pretty (snd entry)))
                   (sortByCount (byCategory stats)));
  emit (Log EmptyString).

(** ["// Step 1: Parse UI files"], up to the check that something was
    parsed. *)
Definition step1 {W} (host : Host W) (clientDataPath dbPath : string)
    : Run W (Z * list ClientUIChunk) :=
  _ ← emit (Log "Step 1: Parsing client UI files...");
  startParse ← clock host;
  parsed ← requestWithProgress (ParseClientUIDirectory clientDataPath) Parsed
             (parseClientUIDirectory host clientDataPath) parseProgress;
  _ ← emit (Log EmptyString);
  parseEnd ← clock host;
  _ ← emit (Log ("  Parsed " +:+ pretty (length (chunks parsed)) +:+ " UI files"));
  _ ← emit (Log ("  Parse time: " +:+ seconds host (parseEnd - startParse) +:+ "s"));
  _ ← (if 0 <? length (errors parsed) then
         _ ← emit (Log ("  Errors: " +:+ pretty (length (errors parsed))));
         let errorFile := join host dbPath "client_ui_parse_errors.txt" in
         _ ← request (WriteFileSync errorFile (String.concat Main.nl (errors parsed))) void
               (writeFileSync host errorFile (String.concat Main.nl (errors parsed)));
         emit (Log ("  Error log: " +:+ errorFile))
       else mret tt : Run W unit);
  _ ← emit (Log EmptyString);
  if length (chunks parsed) =? 0 then
    _ ← emit (Err "No UI files found to embed. Check the Client/Data path.");
    exit 1
  else mret (startParse, chunks parsed).

(** ["// Step 2: Embed chunks"] *)
Definition step2 {W} (host : Host W) (chunks : list ClientUIChunk) (apiKey : string)
    : Run W (list EmbeddedClientUIChunk) :=
  _ ← emit (Log "Step 2: Embedding UI files with Voyage AI (voyage-3)...");
  startEmbed ← clock host;
  embeddedChunks ←
    try_catch
      (embedded ← embedClientUIChunks host chunks apiKey embedProgress;
       _ ← emit (Log EmptyString);
       mret embedded)
      (fun e =>
         _ ← emit (Err (Main.nl +:+ "Embedding failed: " +:+ messageOf e));
         exit 1);
  embedEnd ← clock host;
  _ ← emit (Log ("  Embed time: " +:+ seconds host (embedEnd - startEmbed) +:+ "s"));
  _ ← emit (Log EmptyString);
  mret embeddedChunks.

(** ["// Step 3: Store in LanceDB"] *)
Definition step3 {W} (host : Host W) (dbPath : string)
    (embeddedChunks : list EmbeddedClientUIChunk) : Run W unit :=
  _ ← emit (Log ("Step 3: Storing in LanceDB (" +:+ TABLE_NAME +:+ " table)..."));
  startStore ← clock host;
  _ ← try_catch
        (createClientUITable host dbPath embeddedChunks (Some TABLE_NAME))
        (fun e =>
           _ ← emit (Err ("Storage failed: " +:+ messageOf e));
           exit 1);
  storeEnd ← clock host;
  _ ← emit (Log ("  Store time: " +:+ seconds host (storeEnd - startStore) +:+ "s"));
  emit (Log EmptyString).

(** ["// Summary"] *)
Definition summary {W} (host : Host W) (dbPath : string) (startParse : Z)
    (embeddedChunks : list EmbeddedClientUIChunk) : Run W unit :=
  totalEnd ← clock host;
  _ ← emit (Log "=== Client UI Ingestion Complete ===");
  _ ← emit (Log ("Total UI files indexed: " +:+ pretty (length embeddedChunks)));
  _ ← emit (Log ("Total time: " +:+ seconds host (totalEnd - startParse) +:+ "s"));
  _ ← emit (Log ("Database location: " +:+ dbPath));
  _ ← emit (Log EmptyString);
  emit (Log "You can now use the search_hytale_client_ui MCP tool to query client UI.").

(** [async function main()], given [process.argv[2]], [process.argv[3]]
    and [process.env.VOYAGE_API_KEY]. *)
Definition main {W} (host : Host W) (argv2 argv3 : option string)
    (VOYAGE_API_KEY : option string) : Run W unit :=
  let clientDataPath := Js.or_else argv2 DEFAULT_CLIENT_DATA in
  let dbPath := Js.or_else argv3 (defaultDbPath host) in
  match Js.if_truthy VOYAGE_API_KEY with
  | None =>
      _ ← emit (Err "Error: VOYAGE_API_KEY environment variable is required");
      exit 1
  | Some apiKey =>
      _ ← emit (Log "=== Hytale Client UI Ingestion ===");
      _ ← emit (Log EmptyString);
      _ ← emit (Log ("Client Data path: " +:+ clientDataPath));
      _ ← emit (Log ("Database path: " +:+ dbPath));
      _ ← emit (Log ("Table name: " +:+ TABLE_NAME));
      _ ← emit (Log EmptyString);
      found ← probe host clientDataPath;
      if negb found then
        _ ← emit (Err ("Error: Client Data directory not found: " +:+ clientDataPath));
        _ ← emit (Err EmptyString);
        _ ← emit (Err "Provide the path to your Hytale Client/Data folder:");
        _ ← emit (Err "  npm run ingest-client <path-to-hytale>/Client/Data");
        exit 1
      else
        _ ← scan host clientDataPath dbPath;
        parsed ← step1 host clientDataPath dbPath;
        embeddedChunks ← step2 host (snd parsed) apiKey;
        _ ← step3 host dbPath embeddedChunks;
        summary host dbPath (fst parsed) embeddedChunks
  end.

(** [main().catch((e) => { console.error("Fatal error:", e);
    process.exit(1) })] *)
Definition run {W} (host : Host W) (argv2 argv3 : option string)
    (VOYAGE_API_KEY : option string) : Run W unit :=
  try_catch (main host argv2 argv3 VOYAGE_API_KEY)
            (fun e => _ ← emit (ErrValue "Fatal error:" e); exit 1).

End Ingest.

(** ** Sums over counter tables *)

Module Tally.

(** The count a key of a counter table holds; a key that holds a string
    holds no count. *)
Definition counted (v : Js.tally) : nat :=
  match v with
  | Js.Count n => n
  | Js.Text _ => 0
  end.

(** The sum of the counts of a counter table. *)
Definition total (m : gmap string Js.tally) : nat :=
  map_fold (fun _ v acc => counted v + acc) 0 m.

(** A counter table as a counting loop leaves it: a key that is a name
    inherited from [Object.prototype] holds a string, every other key
    holds a positive count. *)
Definition sound (m : gmap string Js.tally) : Prop :=
  forall key v,
    m !! key = Some v ->
    match v with
    | Js.Count n => Js.inherits key = false /\ 0 < n
    | Js.Text ones => Js.inherits key = true /\ 0 < ones
    end.

End Tally.

(** ** More stores and providers to run the statements on *)

Module Doubles.

(** An embedding provider whose requests fail. *)
Definition failingProvider : Tools.EmbeddingProvider :=
  {| Tools.embedQuery := fun _ _ =>
       Threw (Js.Error Js.Generic "Voyage API error: 401 Unauthorized") |}.

(** A context with a valid configuration and that provider. *)
Definition contextFailingProvider (store : Tools.VectorStore) : Tools.ToolContext :=
  {| Tools.embedding := Some failingProvider;
     Tools.vectorStore := store;
     Tools.config := Fixtures.configOf "mcp" (Some "pa-0123456789");
     Tools.configError := None |}.

(** Two more documentation records: a reference page in the same category
    and a page without type and category. *)
Definition referenceRow : Tools.DocRow :=
  Tools.mkDocRow "reference:plugin/api" (Some "reference") "Plugin API"
    "content/docs/en/plugin/api.mdx" "plugin/api.mdx"
    "The plugin API." (Some "plugin") (Some "API reference").

Definition bareRow : Tools.DocRow :=
  Tools.mkDocRow "guide:intro" None "Intro" "content/docs/en/intro.md" "intro.md"
    "Welcome." None None.

(** A store whose documentation table holds three records. *)
Definition threeDocsStore : Tools.VectorStore :=
  MemStore.make
    {[ "hytale_docs" := [(Fixtures.guideRow, [1; 0]%Q);
                         (referenceRow, [0; 1]%Q);
                         (bareRow, [1; 1]%Q)] ]}.

(** A store whose documentation table exists and holds no record. *)
Definition emptyDocsStore : Tools.VectorStore := MemStore.make {[ "hytale_docs" := [] ]}.

(** A store whose documentation table holds the record [guideRow] and a
    record of the category [constructor]. *)
Definition constructorRow : Tools.DocRow :=
  Tools.mkDocRow "guide:constructor/intro" (Some "guide") "Constructors"
    "content/docs/en/constructor/intro.mdx" "constructor/intro.mdx"
    "How to write a constructor." (Some "constructor") None.

Definition constructorStore : Tools.VectorStore :=
  MemStore.make {[ "hytale_docs" := [(Fixtures.guideRow, [1; 0]%Q);
                                     (constructorRow, [0; 1]%Q)] ]}.

(** What [docs_stats] reports on that store. *)
Definition threeDocsStats : Tools.DocsStats :=
  {| Tools.totalDocs := 3;
     Tools.byCategory := {[ "plugin" := Js.Count 2; "Other" := Js.Count 1 ]};
     Tools.byType := {[ "guide" := Js.Count 1; "reference" := Js.Count 1;
                        "unknown" := Js.Count 1 ]} |}.

(** The imports of [index.ts] over the store in memory, with a registry
    that keeps the names of the tools in registration order and servers
    that start. *)
Definition importsOf (loaded : Outcome Cfg.Config) (store : Outcome Tools.VectorStore)
    : Main.Imports :=
  {| Main.loadConfig := loaded;
     Main.createEmbeddingProvider := fun _ => Returned Fixtures.constantProvider;
     Main.createVectorStore := fun _ => store;
     Main.ToolRegistry := list string;
     Main.newToolRegistry := Returned [];
     Main.register := fun d r => (Returned tt, r ++ [Tools.toolName d]);
     Main.searchCodeTool := Fixtures.namedTool "search_hytale_code";
     Main.searchClientCodeTool := Fixtures.namedTool "search_hytale_client_code";
     Main.searchGameDataTool := Fixtures.namedTool "search_hytale_gamedata";
     Main.codeStatsTool := Fixtures.namedTool "hytale_code_stats";
     Main.clientCodeStatsTool := Fixtures.namedTool "hytale_client_code_stats";
     Main.gameDataStatsTool := Fixtures.namedTool "hytale_gamedata_stats";
     Main.start := fun _ _ _ _ => Returned tt |}.

(** The same with a configuration for mode [mcp] that has a key. *)
Definition imports (store : Outcome Tools.VectorStore) : Main.Imports :=
  importsOf (Returned (Fixtures.configOf "mcp" (Some "pa-0123456789"))) store.

(** A store that cannot be created. *)
Definition unknownStore : Js.thrown := Js.Error Js.Generic "Unknown vector store: x".

Definition noStore : Outcome Tools.VectorStore := Threw unknownStore.

(** [path] on POSIX names made of plain segments. *)
Definition lastSegment (p : string) : string :=
  List.last (DocsParser.split DocsParser.is_slash p) EmptyString.

Fixpoint fromLastDot (s : string) : option string :=
  match s with
  | EmptyString => None
  | String c rest =>
      match fromLastDot rest with
      | Some ext => Some ext
      | None => if nat_of_ascii c =? 46 then Some s else None
      end
  end.

Definition posix : DocsParser.Path :=
  {| DocsParser.join := fun a b => a +:+ "/" +:+ b;
     DocsParser.relative := fun from to =>
       String.substring (S (String.length from))
                        (String.length to - S (String.length from)) to;
     DocsParser.extname := fun p =>
       match lastSegment p with
       | String _ rest => default EmptyString (fromLastDot rest)
       | EmptyString => EmptyString
       end;
     DocsParser.basename := fun p ext =>
       let segment := lastSegment p in
       let n := String.length segment - String.length ext in
       if Js.truthy_str ext && String.eqb (String.substring n (String.length ext) segment) ext
       then String.substring 0 n segment
       else segment |}.

(** A file system in memory: the listing of every directory that can be
    listed and the content of every file that can be read. *)
Definition fsOf (dirs : gmap string (list DocsParser.Dirent))
    (files : gmap string string) : DocsParser.Fs :=
  {| DocsParser.readdirSync := fun dir =>
       match dirs !! dir with
       | Some entries => Returned entries
       | None => Threw (Js.Error Js.Generic ("ENOENT: no such file or directory, scandir '"
                                            +:+ dir +:+ "'"))
       end;
     DocsParser.readFileSync := fun file =>
       match files !! file with
       | Some content => Returned content
       | None => Threw (Js.Error Js.Generic ("EACCES: permission denied, open '"
                                            +:+ file +:+ "'"))
       end |}.

Definition dir (name : string) : DocsParser.Dirent := DocsParser.mkDirent name true false.
Definition file (name : string) : DocsParser.Dirent := DocsParser.mkDirent name false true.
Definition link (name : string) : DocsParser.Dirent := DocsParser.mkDirent name false false.

(** A documentation directory: two files that count below [plugin], one
    that holds JSON, one at the top, one that cannot be read, a directory
    that cannot be listed, and entries that are no documentation files. *)
Definition docsFs : DocsParser.Fs :=
  fsOf {[ "docs" := [dir "plugin"; file "intro.md"; file "meta.json"; dir "legacy";
                     link "latest"; file "broken.md"];
          "docs/plugin" := [file "creating-block.mdx"; file "FAQ.MD"; file "meta.md"] ]}
       {[ "docs/plugin/creating-block.mdx" := "# Creating a block";
          "docs/plugin/FAQ.MD" := "# Questions";
          "docs/plugin/meta.md" := "  { }";
          "docs/intro.md" := "# Welcome";
          "docs/meta.json" := "{ }" ]}.

Definition docsTree : DocsParser.Tree :=
  DocsParser.Listing
    [(dir "plugin",
      Some (DocsParser.Listing [(file "creating-block.mdx", None); (file "FAQ.MD", None);
                                (file "meta.md", None)]));
     (file "intro.md", None); (file "meta.json", None);
     (dir "legacy", Some DocsParser.Unlisted);
     (link "latest", None); (file "broken.md", None)].

(** A documentation directory with a file at the top and a file below
    [constructor]. *)
Definition constructorFs : DocsParser.Fs :=
  fsOf {[ "docs" := [dir "constructor"; file "intro.md"];
          "docs/constructor" := [file "new.md"] ]}
       {[ "docs/constructor/new.md" := "# New";
          "docs/intro.md" := "# Welcome" ]}.

(** What [getDocsStats] counts on that directory. *)
Definition docsStats : DocsParser.DocsStats :=
  {| DocsParser.totalFiles := 3;
     DocsParser.byCategory := {[ "plugin" := Js.Count 2; "Other" := Js.Count 1 ]};
     DocsParser.byType := {[ "guide" := Js.Count 2; "faq" := Js.Count 1 ]} |}.

(** A world in memory for the ingestion script: a clock, the directories
    that exist, the files written and the tables of the database. *)
Record World : Type := mkWorld {
  time : Z;
  directories : list string;
  written : list (string * string);
  tables : gmap string (list Ingest.ClientUIRow);
}.

(** A host over that world.  The clock advances by a fifth of a second at
    every reading, so every duration is a whole number of tenths; the
    parser finds what [parsed] says; the provider answers every batch as
    [embed] says; a table can be dropped when it exists and created when
    it does not. *)
Definition host (parsed : Outcome Ingest.ParseResult)
    (embed : list string -> Outcome (list (list Q))) : Ingest.Host World :=
  {| Ingest.defaultDbPath := "data/lancedb";
     Ingest.join := fun a b => a +:+ "/" +:+ b;
     Ingest.seconds := fun ms => pretty (ms / 1000)%Z +:+ "." +:+ pretty ((ms / 100) mod 10)%Z;
     Ingest.now := fun w =>
       (time w, mkWorld (time w + 200) (directories w) (written w) (tables w));
     Ingest.existsSync := fun path w =>
       (existsb (String.eqb path) (directories w), w);
     Ingest.mkdirSync := fun path w =>
       (Returned tt, mkWorld (time w) (path :: directories w) (written w) (tables w));
     Ingest.writeFileSync := fun file data w =>
       (Returned tt, mkWorld (time w) (directories w) ((file, data) :: written w) (tables w));
     Ingest.getClientUIStats := fun _ w =>
       (Returned (Ingest.mkClientUIStats 3 1 1 1 [("Menus", 1); ("Hud", 2)]), w);
     Ingest.parseClientUIDirectory := fun _ w =>
       ([(1, 2, "Hud/hotbar.ui"); (2, 2, "Menus/main.xaml")], parsed, w);
     Ingest.embedBatch := fun _ texts _ _ w =>
       ([(length texts, length texts)],
        match embed texts with
        | Returned vectors => Returned (Embedder.mkEmbedResult vectors)
        | Threw e => Threw e
        end, w);
     Ingest.connect := fun _ w => (Returned tt, w);
     Ingest.dropTable := fun _ tableName w =>
       match tables w !! tableName with
       | Some _ =>
           (Returned tt,
            mkWorld (time w) (directories w) (written w) (delete tableName (tables w)))
       | None =>
           (Threw (Js.Error Js.TableNotFound ("Table '" +:+ tableName +:+ "' was not found")),
            w)
       end;
     Ingest.createTable := fun _ tableName data w =>
       match tables w !! tableName with
       | Some _ =>
           (Threw (Js.Error Js.Generic ("Table '" +:+ tableName +:+ "' already exists")), w)
       | None =>
           (Returned tt,
            mkWorld (time w) (directories w) (written w) (<[tableName := data]> (tables w)))
       end |}.

(** Two parsed client UI files. *)
Definition hotbar : Ingest.ClientUIChunk :=
  Ingest.mkClientUIChunk "ui:Hud/hotbar" "ui" "hotbar" "Client/Data/Hud/hotbar.ui"
    "Hud/hotbar.ui" "<Hotbar/>" (Some "Hud") "UI file hotbar".

Definition mainMenu : Ingest.ClientUIChunk :=
  Ingest.mkClientUIChunk "xaml:Menus/main" "xaml" "main" "Client/Data/Menus/main.xaml"
    "Menus/main.xaml" "<Menu/>" None "XAML file main".

Definition twoFiles : Outcome Ingest.ParseResult :=
  Returned (Ingest.mkParseResult [hotbar; mainMenu] []).

(** A world whose database holds an older client UI table. *)
Definition indexedWorld : World :=
  mkWorld 1000 ["Client/Data"] []
    {[ "hytale_client_ui" := [Ingest.toRow (Ingest.mkEmbeddedClientUIChunk hotbar None)] ]}.

Definition unauthorized : list string -> Outcome (list (list Q)) :=
  fun _ => Threw (Js.Error Js.Generic "Voyage API error: 401 Unauthorized").

(** A host that parses the two files and embeds every text as the vector
    of its length. *)
Definition uiHost : Ingest.Host World :=
  host twoFiles (fun texts => Returned (map Fixtures.lengthOf texts)).

End Doubles.

(** * Properties *)

(** ** [db.ts] *)

Section DbSearch.

Local Open Scope Q_scope.

Lemma or_zero_num (q : Q) : Js.or_zero (Js.Num q) == q.
Proof.
  unfold Js.or_zero, Js.truthy_num.
  destruct (Qeq_bool q 0) eqn:E; simpl; [|reflexivity].
  apply Qeq_bool_eq in E. symmetry. exact E.
Qed.

Lemma or_zero_falsy (v : Js.num) : Js.truthy_num v = false -> Js.or_zero v = 0.
Proof. unfold Js.or_zero. intros ->. reflexivity. Qed.

Lemma score_of_row (row : Db.Row) (d : Q) :
  Db._distance row = Js.Num d -> Db.score (Db.toSearchResult row) == 1 - d.
Proof.
  intros H. simpl. rewrite H, or_zero_num. reflexivity.
Qed.

Lemma nearestFirst_cons (a : Db.Row) (rest : list Db.Row) :
  Db.nearestFirst (a :: rest) = true ->
  Db.nearestFirst rest = true /\
  HdRel (fun x y => Db.score y <= Db.score x)
        (Db.toSearchResult a) (map Db.toSearchResult rest).
Proof.
  cbn [Db.nearestFirst]. intros H. apply andb_prop in H as [Hhd Hrest].
  split; [exact Hrest|].
  destruct rest as [|b rest']; cbn [map]; constructor.
  destruct (Db._distance a) as [| | |da] eqn:Ea; try discriminate.
  destruct (Db._distance b) as [| | |db] eqn:Eb; try discriminate.
  apply Qle_bool_iff in Hhd.
  rewrite (score_of_row a da Ea), (score_of_row b db Eb).
  apply Qplus_le_r. apply Qopp_le_compat. exact Hhd.
Qed.

Lemma scoreDescending_map (rows : list Db.Row) :
  Db.nearestFirst rows = true -> Db.scoreDescending (map Db.toSearchResult rows).
Proof.
  unfold Db.scoreDescending.
  induction rows as [|a rest IH]; intros H; simpl.
  - constructor.
  - apply nearestFirst_cons in H as [Hrest Hhd].
    constructor; [apply IH; exact Hrest | exact Hhd].
Qed.

Lemma one_minus_le_one (d : Q) : 1 - d <= 1 <-> 0 <= d.
Proof. split; intros H; lra. Qed.

Lemma zero_le_one_minus (d : Q) : 0 <= 1 - d <-> d <= 1.
Proof. split; intros H; lra. Qed.

Lemma score_bounds (row : Db.Row) (d : Q) :
  Db._distance row = Js.Num d ->
  Db.score (Db.toSearchResult row) == 1 - d
  /\ (0 <= d -> Db.score (Db.toSearchResult row) <= 1)
  /\ (0 <= Db.score (Db.toSearchResult row) /\ Db.score (Db.toSearchResult row) <= 1
      <-> 0 <= d /\ d <= 1).
Proof.
  intros H. pose proof (score_of_row row d H) as E.
  split; [exact E|]. rewrite E. split.
  - apply one_minus_le_one.
  - rewrite one_minus_le_one, zero_le_one_minus. tauto.
Qed.

Lemma nearestFirst_cons_iff (a : Db.Row) (rest : list Db.Row) :
  Db.nearestFirst (a :: rest) = true <->
  (match rest with
   | b :: _ => exists da db, Db._distance a = Js.Num da /\ Db._distance b = Js.Num db /\ da <= db
   | [] => True
   end) /\ Db.nearestFirst rest = true.
Proof.
  cbn [Db.nearestFirst]. rewrite andb_true_iff.
  destruct rest as [|b rest']; [tauto|].
  split; intros [H Hrest]; (split; [|exact Hrest]).
  - destruct (Db._distance a) as [| | |da]; try discriminate.
    destruct (Db._distance b) as [| | |db]; try discriminate.
    exists da, db. repeat split. apply Qle_bool_iff. exact H.
  - destruct H as (da & db & -> & -> & H). apply Qle_bool_iff. exact H.
Qed.

Lemma distanceOf_num (r : Db.Row) (d : Q) :
  Db._distance r = Js.Num d -> Db.distanceOf r == d.
Proof. unfold Db.distanceOf. intros ->. apply or_zero_num. Qed.

Lemma insertByDistance_spec (r : Db.Row) (rows : list Db.Row) :
  Db.hasDistance r -> Forall Db.hasDistance rows -> Db.nearestFirst rows = true ->
  Forall Db.hasDistance (Db.insertByDistance r rows)
  /\ Db.nearestFirst (Db.insertByDistance r rows) = true
  /\ (forall a da, Db._distance a = Js.Num da ->
        (forall d, Db._distance r = Js.Num d -> da <= d) ->
        Db.nearestFirst (a :: rows) = true ->
        Db.nearestFirst (a :: Db.insertByDistance r rows) = true).
Proof.
  intros [d Hd] Hall. induction rows as [|r' rest IH]; intros Hsorted.
  - cbn [Db.insertByDistance]. split; [repeat constructor; exists d; exact Hd|].
    split; [reflexivity|].
    intros a da Ha Hle _. apply nearestFirst_cons_iff. split; [|reflexivity].
    exists da, d. repeat split; try assumption. apply Hle. exact Hd.
  - inversion Hall as [|? ? [d' Hd'] Hall']; subst.
    apply nearestFirst_cons_iff in Hsorted as Hsorted'. destruct Hsorted' as [Hhead Hrest].
    cbn [Db.insertByDistance].
    destruct (Qle_bool (Db.distanceOf r) (Db.distanceOf r')) eqn:E.
    + apply Qle_bool_iff in E.
      rewrite (distanceOf_num r d Hd), (distanceOf_num r' d' Hd') in E.
      split; [constructor; [exists d; exact Hd | exact Hall]|].
      split.
      * apply nearestFirst_cons_iff. split; [|exact Hsorted].
        exists d, d'. repeat split; assumption.
      * intros a da Ha Hle _. apply nearestFirst_cons_iff. split.
        -- exists da, d. repeat split; try assumption. apply Hle. exact Hd.
        -- apply nearestFirst_cons_iff. split; [|exact Hsorted].
           exists d, d'. repeat split; assumption.
    + assert (d' <= d) as Hle'.
      { apply Qlt_le_weak. apply Qnot_le_lt. intros H.
        rewrite <- (distanceOf_num r d Hd), <- (distanceOf_num r' d' Hd') in H.
        apply Qle_bool_iff in H. congruence. }
      destruct (IH Hall' Hrest) as (IHall & IHsorted & IHhead).
      split; [constructor; [exists d'; exact Hd' | exact IHall]|].
      split.
      * apply (IHhead r' d' Hd'); [|exact Hsorted].
        intros d0 Hd0. rewrite Hd in Hd0. injection Hd0 as <-. exact Hle'.
      * intros a da Ha Hle Ha_sorted. apply nearestFirst_cons_iff. split.
        -- apply nearestFirst_cons_iff in Ha_sorted as [Hh _]. exact Hh.
        -- apply (IHhead r' d' Hd'); [|exact Hsorted].
           intros d0 Hd0. rewrite Hd in Hd0. injection Hd0 as <-. exact Hle'.
Qed.

Lemma sortByDistance_spec (rows : list Db.Row) :
  Forall Db.hasDistance rows ->
  Forall Db.hasDistance (Db.sortByDistance rows)
  /\ Db.nearestFirst (Db.sortByDistance rows) = true.
Proof.
  induction rows as [|r rows IH]; intros Hall; [split; [constructor | reflexivity]|].
  inversion Hall as [|? ? Hr Hrows]; subst.
  destruct (IH Hrows) as [IHall IHsorted].
  destruct (insertByDistance_spec r (Db.sortByDistance rows) Hr IHall IHsorted)
    as (H1 & H2 & _).
  split; assumption.
Qed.

Lemma nearestFirst_take (n : nat) (rows : list Db.Row) :
  Db.nearestFirst rows = true -> Db.nearestFirst (take n rows) = true.
Proof.
  revert n. induction rows as [|a rest IH]; intros n H; [destruct n; reflexivity|].
  destruct n as [|n]; [reflexivity|]. cbn [take].
  apply nearestFirst_cons_iff in H as [Hhead Hrest].
  apply nearestFirst_cons_iff. split; [|apply IH; exact Hrest].
  destruct rest as [|b rest']; [destruct n; exact I|].
  destruct n; [exact I | exact Hhead].
Qed.

(** The reference engine keeps the promise of a vector search. *)
Lemma flatEngine_keeps_promise (tables : gmap string (list Db.Row))
    (evalWhere : string -> Db.Row -> bool) (table : list Db.Row)
    (query : list Q) (n : nat) (filter : option string) :
  exists rows,
    Db.vectorSearch (Db.flatEngine tables evalWhere) table query n filter = Returned rows
    /\ (length rows <= n)%nat
    /\ Db.nearestFirst rows = true.
Proof.
  eexists. split; [reflexivity|]. split.
  - rewrite length_take. lia.
  - apply nearestFirst_take, sortByDistance_spec.
    apply Forall_map. apply Forall_forall. intros r _. eexists. reflexivity.
Qed.

(** C3 (as amended): a search with limit [n] over an engine that keeps the
    promise of a vector search (at most [n] rows, nearest first) returns
    at most [n] hits in the order of non-increasing score; the score of a
    hit is [1 - distance]; it is at most 1 when the distance is
    non-negative, and it lies in [0,1] if and only if the distance lies in
    [0,1]. *)
Theorem search_hits_bounded_ordered_scored
    (eng : Db.Engine) (dbPath : string) (queryVector : list Q) (n : nat)
    (filter tableName : option string) (table rows : list Db.Row) :
  Db.openTable eng dbPath (default "hytale_methods"%string tableName) = Returned table ->
  Db.vectorSearch eng table queryVector n (Db.whereClause filter) = Returned rows ->
  (length rows <= n)%nat ->
  Db.nearestFirst rows = true ->
  exists hits,
    Db.search eng dbPath queryVector (Some n) filter tableName = Returned hits
    /\ (length hits <= n)%nat
    /\ Db.scoreDescending hits
    /\ Forall2 (fun row hit => forall d, Db._distance row = Js.Num d ->
                  Db.score hit == 1 - d
                  /\ (0 <= d -> Db.score hit <= 1)
                  /\ (0 <= Db.score hit /\ Db.score hit <= 1 <-> 0 <= d /\ d <= 1))
               rows hits.
Proof.
  intros Hopen Hsearch Hlen Hsorted.
  exists (map Db.toSearchResult rows).
  unfold Db.search. simpl. rewrite Hopen, Hsearch.
  split; [reflexivity|]. split; [rewrite length_map; exact Hlen|].
  split; [apply scoreDescending_map; exact Hsorted|].
  clear. induction rows as [|r rest IH]; simpl; constructor; [|exact IH].
  intros d Hd. apply score_bounds. exact Hd.
Qed.

Lemma search_hits_bounded_ordered_scored_witness :
  exists hits,
    Db.search Fixtures.codeEngine "data/lancedb" [0] (Some 2%nat) None None = Returned hits
    /\ (length hits <= 2)%nat
    /\ Db.scoreDescending hits
    /\ Forall2 (fun row hit => forall d, Db._distance row = Js.Num d ->
                  Db.score hit == 1 - d
                  /\ (0 <= d -> Db.score hit <= 1)
                  /\ (0 <= Db.score hit /\ Db.score hit <= 1 <-> 0 <= d /\ d <= 1))
               (take 2 (Db.sortByDistance
                          (map (Db.withDistance [0]) Fixtures.threeRows)))
               hits.
Proof.
  apply (search_hits_bounded_ordered_scored Fixtures.codeEngine "data/lancedb"
           [0] 2 None None Fixtures.threeRows).
  - vm_compute. reflexivity.
  - vm_compute. reflexivity.
  - vm_compute. lia.
  - vm_compute. reflexivity.
Defined.

(** C3, counterexample: the one method of the table [far] is at distance
    9/4 from the query, a non-negative distance, and its hit has score
    -5/4, which is outside [0,1]. *)
Lemma search_score_outside_unit_interval :
  exists row hit,
    Db.vectorSearch Fixtures.codeEngine Fixtures.farTable [0] 5 None = Returned [row]
    /\ Db._distance row = Js.Num (9 # 4)
    /\ 0 <= 9 # 4
    /\ Db.search Fixtures.codeEngine "data/lancedb" [0] (Some 5%nat) None (Some "far"%string)
       = Returned [hit]
    /\ Db.score hit == - (5 # 4)
    /\ ~ (0 <= Db.score hit /\ Db.score hit <= 1).
Proof.
  eexists. eexists.
  split; [vm_compute; reflexivity|].
  split; [vm_compute; reflexivity|].
  split; [discriminate|].
  split; [vm_compute; reflexivity|].
  split; [vm_compute; reflexivity|].
  intros [H _]. vm_compute in H. apply H. reflexivity.
Qed.

(** C10: in [search], a row for which the engine reports no [_distance]
    ([undefined], [null]), a [NaN] or a distance of 0 gets the score 1:
    the falsy distance is replaced by 0 before [1 - distance] is taken. *)
Theorem search_falsy_distance_scores_one
    (eng : Db.Engine) (dbPath : string) (queryVector : list Q)
    (limit : option nat) (filter tableName : option string)
    (table rows : list Db.Row) :
  Db.openTable eng dbPath (default "hytale_methods"%string tableName) = Returned table ->
  Db.vectorSearch eng table queryVector (default 5%nat limit) (Db.whereClause filter)
    = Returned rows ->
  exists hits,
    Db.search eng dbPath queryVector limit filter tableName = Returned hits
    /\ length hits = length rows
    /\ forall (i : nat) (row : Db.Row),
         rows !! i = Some row ->
         Js.truthy_num (Db._distance row) = false ->
         Db.score <$> hits !! i = Some 1.
Proof.
  intros Hopen Hsearch.
  exists (map Db.toSearchResult rows).
  unfold Db.search. simpl. rewrite Hopen, Hsearch.
  split; [reflexivity|]. split; [apply length_map|].
  intros i row Hi Hfalsy.
  rewrite list_lookup_fmap, Hi. simpl.
  rewrite (or_zero_falsy _ Hfalsy). reflexivity.
Qed.

Lemma search_falsy_distance_scores_one_witness :
  exists hits,
    Db.search Fixtures.plainEngine "data/lancedb" [0] None None None = Returned hits
    /\ length hits = length Fixtures.threeRows
    /\ forall (i : nat) (row : Db.Row),
         Fixtures.threeRows !! i = Some row ->
         Js.truthy_num (Db._distance row) = false ->
         Db.score <$> hits !! i = Some 1.
Proof.
  apply (search_falsy_distance_scores_one Fixtures.plainEngine "data/lancedb"
           [0] None None None Fixtures.threeRows Fixtures.threeRows).
  - vm_compute. reflexivity.
  - vm_compute. reflexivity.
Defined.

End DbSearch.

Section DbStats.

Lemma queryPage_length (table : list Db.Row) (n o : nat) :
  length (Db.queryPage table n o) = n `min` (length table - o).
Proof. unfold Db.queryPage. rewrite length_take, length_drop. reflexivity. Qed.

Lemma div_step (x bs k : nat) : 0 < bs -> x / bs = S k -> bs <= x /\ (x - bs) / bs = k.
Proof.
  intros Hbs H.
  assert (bs <= x) as Hle.
  { destruct (Nat.lt_ge_cases x bs) as [Hlt|Hge]; [|exact Hge].
    rewrite (Nat.div_small _ _ Hlt) in H. discriminate. }
  split; [exact Hle|].
  assert (x = (x - bs) + 1 * bs) as E by lia.
  rewrite E in H. rewrite Nat.div_add in H by lia. lia.
Qed.

(** The loop leaves within [S ((length table - offset) / bs)] iterations,
    whatever fuel is left over, and its page log has the shape
    [wellPaged]. *)
Lemma scanLoop_spec (bs : nat) (table : list Db.Row) :
  0 < bs ->
  forall (k offset : nat) (acc : gset string * gset string) (pages : list (nat * nat)),
    offset <= length table ->
    (length table - offset) / bs = k ->
    exists (s : Db.Scan) (new : list (nat * nat)),
      (forall extra, Db.scanLoop (S k + extra) bs table offset acc pages = Some s)
      /\ Db.scan_pages s = pages ++ new
      /\ Db.wellPaged bs offset new = true
      /\ Forall (fun p => p.2 <= bs) new
      /\ length new = S k
      /\ Db.scan_offset s = length table
      /\ (Db.scan_classNames s, Db.scan_packageNames s)
         = fold_left Db.addRow (drop offset table) acc.
Proof.
  intros Hbs. induction k as [|k IH]; intros offset acc pages Hoff Hk.
  - assert (length table - offset < bs) as Hshort.
    { apply Nat.div_small_iff in Hk; lia. }
    pose proof (queryPage_length table bs offset) as Hlen.
    rewrite Nat.min_r in Hlen by lia.
    assert (Db.queryPage table bs offset = drop offset table) as Hbatch.
    { unfold Db.queryPage. apply take_ge. rewrite length_drop. lia. }
    destruct (Nat.eq_dec (length table - offset) 0) as [Hz|Hnz].
    + exists (Db.mkScan (fst acc) (snd acc) offset (pages ++ [(offset, 0)])),
             [(offset, 0)].
      split.
      { intros extra. cbn [Db.scanLoop Nat.add]. rewrite Hlen, Hz. reflexivity. }
      cbn [Db.scan_pages Db.scan_offset Db.scan_classNames Db.scan_packageNames
           Db.wellPaged length].
      split; [reflexivity|]. split.
      { rewrite Nat.eqb_refl. cbn [andb]. apply Nat.ltb_lt. exact Hbs. }
      split; [repeat constructor; cbn; lia|].
      split; [reflexivity|]. split; [lia|].
      rewrite <- Hbatch.
      rewrite (nil_length_inv (Db.queryPage table bs offset)) by lia.
      destruct acc; reflexivity.
    + exists (Db.mkScan (fst (fold_left Db.addRow (Db.queryPage table bs offset) acc))
                        (snd (fold_left Db.addRow (Db.queryPage table bs offset) acc))
                        (offset + (length table - offset))
                        (pages ++ [(offset, length table - offset)])),
             [(offset, length table - offset)].
      split.
      { intros extra. cbn [Db.scanLoop Nat.add]. rewrite Hlen.
        destruct (Nat.eqb_spec (length table - offset) 0) as [?|_]; [lia|].
        destruct (Nat.ltb_spec (length table - offset) bs) as [_|?]; [|lia].
        reflexivity. }
      cbn [Db.scan_pages Db.scan_offset Db.scan_classNames Db.scan_packageNames
           Db.wellPaged length].
      split; [reflexivity|]. split.
      { rewrite Nat.eqb_refl. cbn [andb]. apply Nat.ltb_lt. exact Hshort. }
      split; [repeat constructor; cbn; lia|].
      split; [reflexivity|]. split; [lia|].
      rewrite <- Hbatch.
      destruct (fold_left Db.addRow (Db.queryPage table bs offset) acc); reflexivity.
  - apply div_step in Hk as [Hge Hk']; [|exact Hbs].
    pose proof (queryPage_length table bs offset) as Hlen.
    rewrite Nat.min_l in Hlen by lia.
    destruct (IH (offset + bs) (fold_left Db.addRow (Db.queryPage table bs offset) acc)
                 (pages ++ [(offset, bs)]))
      as (s & new & Hrun & Hpages & Hshape & Hbound & Hcount & Hfinal & Hsets).
    { lia. }
    { rewrite <- Hk'. f_equal. lia. }
    exists s, ((offset, bs) :: new).
    split.
    { intros extra. cbn [Db.scanLoop Nat.add]. rewrite Hlen.
      destruct (Nat.eqb_spec bs 0) as [?|_]; [lia|].
      destruct (Nat.ltb_spec bs bs) as [?|_]; [lia|].
      apply Hrun. }
    split; [rewrite Hpages, <- app_assoc; reflexivity|].
    split.
    { cbn [Db.wellPaged]. rewrite !Nat.eqb_refl. cbn [andb].
      destruct new as [|p new']; [discriminate|]. exact Hshape. }
    split; [constructor; [cbn; lia | exact Hbound]|].
    split; [cbn; lia|]. split; [exact Hfinal|].
    rewrite Hsets, <- fold_left_app. f_equal.
    unfold Db.queryPage. rewrite <- drop_drop. apply take_drop.
Qed.

(** C9: the full-table scan of [getStats] ends on every table: it asks for
    pages of 5000 rows, each page starts where the rows returned so far
    end, and it stops at the first page that is empty or shorter than
    5000; [length table / 5000 + 1] pages are asked for, every row is read
    once, and fuel beyond that changes nothing. *)
Theorem getStats_scan_terminates (table : list Db.Row) :
  exists s : Db.Scan,
    (forall extra,
        Db.scanLoop (S (length table / 5000) + extra) Db.batchSize table 0 (∅, ∅) []
        = Some s)
    /\ Db.wellPaged 5000 0 (Db.scan_pages s) = true
    /\ Forall (fun p => p.2 <= 5000) (Db.scan_pages s)
    /\ length (Db.scan_pages s) = S (length table / 5000)
    /\ Db.scan_offset s = length table
    /\ (Db.scan_classNames s, Db.scan_packageNames s)
       = fold_left Db.addRow table (∅, ∅)
    /\ forall (eng : Db.Engine) (dbPath : string) (tableName : option string) (extra : nat),
         Db.openTable eng dbPath (default "hytale_methods" tableName) = Returned table ->
         Db.getStats (S (length table / 5000) + extra) eng dbPath tableName
         = Some (Returned {| Db.totalMethods := length table;
                             Db.uniqueClasses := size (Db.scan_classNames s);
                             Db.uniquePackages := size (Db.scan_packageNames s) |}).
Proof.
  destruct (scanLoop_spec 5000 table ltac:(lia) (length table / 5000) 0 (∅, ∅) [])
    as (s & new & Hrun & Hpages & Hshape & Hbound & Hcount & Hfinal & Hsets).
  { lia. }
  { rewrite Nat.sub_0_r. reflexivity. }
  cbn [app] in Hpages. rewrite <- Hpages in Hshape, Hbound, Hcount.
  exists s. repeat split; try assumption.
  intros eng dbPath tableName extra Hopen.
  unfold Db.getStats. cbn zeta. rewrite Hopen.
  change Db.batchSize with 5000 in *. rewrite (Hrun extra). reflexivity.
Qed.

(** A table of three methods is scanned with one short page. *)
Example getStats_three_rows :
  Db.getStats 1 Fixtures.codeEngine "data/lancedb" None
  = Some (Returned {| Db.totalMethods := 3; Db.uniqueClasses := 3;
                      Db.uniquePackages := 2 |}).
Proof. vm_compute. reflexivity. Qed.

(** Two full pages and a short one; one unit of fuel less and the loop is
    cut off before its [break]. *)
Example scanLoop_three_pages :
  Db.scan_pages <$>
    Db.scanLoop 3 Db.batchSize
      (replicate (2 * 5000 + 1) (Fixtures.methodRow "m" "C" "p" [] Js.Undefined))
      0 (∅, ∅) []
  = Some [(0, 5000); (5000, 5000); (2 * 5000, 1)]
  /\ Db.scanLoop 2 Db.batchSize
       (replicate (2 * 5000 + 1) (Fixtures.methodRow "m" "C" "p" [] Js.Undefined))
       0 (∅, ∅) []
     = None.
Proof. split; vm_compute; reflexivity. Qed.

End DbStats.

(** ** The documentation tools *)

Section DocsTools.

Lemma if_truthy_Some (v : option string) (s : string) :
  Js.if_truthy v = Some s -> v = Some s /\ Js.truthy_str s = true.
Proof.
  destruct v as [x|]; simpl; [|discriminate].
  destruct (Js.truthy_str x) eqn:E; [|discriminate].
  intros [= <-]. split; [reflexivity | exact E].
Qed.

Lemma if_truthy_truthy (s : string) :
  Js.truthy_str s = true -> Js.if_truthy (Some s) = Some s.
Proof. simpl. intros ->. reflexivity. Qed.

Lemma forAwait_rowsOf (batches : Tools.Batches) :
  forall (rows : list Tools.DocRow) (acc : gmap string Js.tally * gmap string Js.tally),
    Tools.rowsOf batches = Some rows ->
    Tools.forAwait batches acc = Returned (fold_left Tools.countRow rows acc).
Proof.
  induction batches as [|batch rest IH|e]; intros rows acc H; simpl in *.
  - injection H as <-. reflexivity.
  - destruct (Tools.rowsOf rest) as [rows'|]; [|discriminate].
    injection H as <-. rewrite fold_left_app. apply IH. reflexivity.
  - discriminate.
Qed.

(** The batches of the store in memory carry every row once, in order. *)
Lemma yieldPages_rows (fuel : nat) :
  forall rows : list Tools.DocRow,
    length rows < fuel ->
    Tools.rowsOf (MemStore.yieldPages fuel rows) = Some rows.
Proof.
  assert (0 < MemStore.pageSize) as Hpos by (unfold MemStore.pageSize; lia).
  induction fuel as [|fuel IH]; intros rows Hfuel; [lia|].
  cbn [MemStore.yieldPages].
  pose proof (length_take rows MemStore.pageSize) as Hlen.
  destruct (Nat.eqb_spec (length (take MemStore.pageSize rows)) 0) as [Hz|Hnz].
  - assert (length rows = 0) as Hrows by lia.
    apply nil_length_inv in Hrows. subst rows. reflexivity.
  - cbn [Tools.rowsOf].
    destruct (Nat.ltb_spec (length (take MemStore.pageSize rows)) MemStore.pageSize)
      as [Hshort|Hfull].
    + cbn [Tools.rowsOf]. rewrite app_nil_r, take_ge by lia. reflexivity.
    + rewrite IH by (rewrite length_drop; lia).
      rewrite take_drop. reflexivity.
Qed.

(** The handler when the table is not there. *)
Lemma docsStatsHandler_missing (context : Tools.ToolContext) :
  Tools.tableExists (Tools.vectorStore context)
    (Cfg.docs (Cfg.tables (Tools.config context))) = Returned false ->
  Tools.docsStatsHandler tt context =
    match Tools.pendingConfigError context with
    | Some e => ([], Returned (Tools.Failure e))
    | None =>
        ([EvTableExists (Cfg.docs (Cfg.tables (Tools.config context)))],
         Returned (Tools.Failure Tools.docsTableMissing))
    end.
Proof.
  intros Hexists. unfold Tools.docsStatsHandler.
  destruct (Tools.pendingConfigError context) as [e|]; [reflexivity|].
  unfold call. cbn. rewrite Hexists. reflexivity.
Qed.

(** C5 (as amended): [docs_stats] against a table that does not exist
    returns [success:false].  With no configuration error pending, the
    error is the fixed text that names the ingestion command
    ['npm run ingest-docs'], not an exception message; with a
    configuration error pending, the error is that configuration error
    and the store is not consulted. *)
Theorem docs_stats_missing_table (context : Tools.ToolContext) :
  Tools.tableExists (Tools.vectorStore context)
    (Cfg.docs (Cfg.tables (Tools.config context))) = Returned false ->
  Tools.docsStatsHandler tt context =
    match Tools.pendingConfigError context with
    | Some e => ([], Returned (Tools.Failure e))
    | None =>
        ([EvTableExists (Cfg.docs (Cfg.tables (Tools.config context)))],
         Returned (Tools.Failure Tools.docsTableMissing))
    end
  /\ Js.mentions "npm run ingest-docs" Tools.docsTableMissing = true.
Proof.
  intros Hexists. split; [apply docsStatsHandler_missing; exact Hexists|].
  vm_compute. reflexivity.
Qed.

Lemma docs_stats_missing_table_witness :
  Tools.docsStatsHandler tt (Fixtures.contextOf Fixtures.unseededStore) =
    ([EvTableExists "hytale_docs"], Returned (Tools.Failure Tools.docsTableMissing))
  /\ Js.mentions "npm run ingest-docs" Tools.docsTableMissing = true.
Proof.
  apply (docs_stats_missing_table (Fixtures.contextOf Fixtures.unseededStore)).
  vm_compute. reflexivity.
Defined.

(** C5, counterexample: an MCP server started without an API key keeps the
    configuration error in its context; [docs_stats] against the missing
    table then reports that error, which does not mention the ingestion
    command, and does not look at the store. *)
Lemma docs_stats_missing_table_reports_config_error :
  Tools.tableExists Fixtures.unseededStore "hytale_docs" = Returned false
  /\ Tools.docsStatsHandler tt (Fixtures.contextWithoutKey Fixtures.unseededStore)
     = ([], Returned (Tools.Failure (Main.apiKeyMissingMessage Fixtures.js "voyage")))
  /\ Js.mentions "npm run ingest-docs" (Main.apiKeyMissingMessage Fixtures.js "voyage") = false
  /\ Js.mentions "ingest" (Main.apiKeyMissingMessage Fixtures.js "voyage") = false.
Proof. repeat split; vm_compute; reflexivity. Qed.

(** C7 (as amended): [docs_stats] against a table that does not exist
    returns [success:false].  Against a table that exists and holds no
    record, with no configuration error pending, it returns [success:true]
    with [totalDocs = 0] and empty breakdowns.  Against the table seeded
    with one record of type [guide] and category [plugin], with no
    configuration error pending, it returns [success:true] with
    [totalDocs = 1], [byType = {guide: 1}] and [byCategory = {plugin: 1}].
    With a configuration error pending it returns [success:false] with
    that error, whatever the table holds, and does not consult the
    store. *)
Theorem docs_stats_end_to_end
    (unseeded empty seeded pending : Tools.ToolContext) (row : Tools.DocRow)
    (configError : string) :
  Tools.tableExists (Tools.vectorStore unseeded)
    (Cfg.docs (Cfg.tables (Tools.config unseeded))) = Returned false ->
  Tools.pendingConfigError empty = None ->
  Tools.tableExists (Tools.vectorStore empty)
    (Cfg.docs (Cfg.tables (Tools.config empty))) = Returned true ->
  Tools.getStats (Tools.vectorStore empty)
    (Cfg.docs (Cfg.tables (Tools.config empty))) = Returned (Tools.mkTableStats 0) ->
  Tools.rowsOf (Tools.queryAll (Tools.vectorStore empty)
                  (Cfg.docs (Cfg.tables (Tools.config empty)))) = Some [] ->
  Tools.pendingConfigError seeded = None ->
  Tools.tableExists (Tools.vectorStore seeded)
    (Cfg.docs (Cfg.tables (Tools.config seeded))) = Returned true ->
  Tools.getStats (Tools.vectorStore seeded)
    (Cfg.docs (Cfg.tables (Tools.config seeded))) = Returned (Tools.mkTableStats 1) ->
  Tools.rowsOf (Tools.queryAll (Tools.vectorStore seeded)
                  (Cfg.docs (Cfg.tables (Tools.config seeded)))) = Some [row] ->
  Tools.row_type row = Some "guide" ->
  Tools.row_category row = Some "plugin" ->
  Tools.pendingConfigError pending = Some configError ->
  (exists e, outcome (Tools.docsStatsHandler tt unseeded) = Returned (Tools.Failure e))
  /\ outcome (Tools.docsStatsHandler tt empty)
     = Returned (Tools.Success {| Tools.totalDocs := 0;
                                  Tools.byCategory := ∅;
                                  Tools.byType := ∅ |})
  /\ outcome (Tools.docsStatsHandler tt seeded)
     = Returned (Tools.Success {| Tools.totalDocs := 1;
                                  Tools.byCategory := {[ "plugin" := Js.Count 1 ]};
                                  Tools.byType := {[ "guide" := Js.Count 1 ]} |})
  /\ Tools.docsStatsHandler tt pending = ([], Returned (Tools.Failure configError)).
Proof.
  intros Hmissing Hnone Hthere Hzero Hnothing Hconfig Hexists Hstats Hrows Htype Hcategory
    Hpending.
  split; [|split; [|split]].
  - rewrite (docsStatsHandler_missing unseeded Hmissing).
    destruct (Tools.pendingConfigError unseeded); eexists; reflexivity.
  - unfold Tools.docsStatsHandler. rewrite Hnone.
    unfold call. cbn. rewrite Hthere. cbn. rewrite Hzero. cbn.
    rewrite (forAwait_rowsOf _ _ _ Hnothing). reflexivity.
  - unfold Tools.docsStatsHandler. rewrite Hconfig.
    unfold call. cbn. rewrite Hexists. cbn. rewrite Hstats. cbn.
    rewrite (forAwait_rowsOf _ _ _ Hrows). cbn.
    unfold Tools.categoryOf, Tools.typeOf. rewrite Htype, Hcategory. cbn.
    unfold Js.bump. cbn. rewrite !lookup_empty. reflexivity.
  - unfold Tools.docsStatsHandler. rewrite Hpending. reflexivity.
Qed.

Lemma docs_stats_end_to_end_witness :
  (exists e, outcome (Tools.docsStatsHandler tt (Fixtures.contextOf Fixtures.unseededStore))
             = Returned (Tools.Failure e))
  /\ outcome (Tools.docsStatsHandler tt (Fixtures.contextOf Doubles.emptyDocsStore))
     = Returned (Tools.Success {| Tools.totalDocs := 0;
                                  Tools.byCategory := ∅;
                                  Tools.byType := ∅ |})
  /\ outcome (Tools.docsStatsHandler tt (Fixtures.contextOf Fixtures.seededStore))
     = Returned (Tools.Success {| Tools.totalDocs := 1;
                                  Tools.byCategory := {[ "plugin" := Js.Count 1 ]};
                                  Tools.byType := {[ "guide" := Js.Count 1 ]} |})
  /\ Tools.docsStatsHandler tt (Fixtures.contextWithoutKey Fixtures.seededStore)
     = ([], Returned (Tools.Failure (Main.apiKeyMissingMessage Fixtures.js "voyage"))).
Proof.
  apply (docs_stats_end_to_end (Fixtures.contextOf Fixtures.unseededStore)
           (Fixtures.contextOf Doubles.emptyDocsStore)
           (Fixtures.contextOf Fixtures.seededStore)
           (Fixtures.contextWithoutKey Fixtures.seededStore) Fixtures.guideRow
           (Main.apiKeyMissingMessage Fixtures.js "voyage"));
    vm_compute; reflexivity.
Defined.

(** C7, counterexample: an empty table is not a failure, and a seeded
    table is not always a success.  Against a documentation table that
    exists and holds no record, [docs_stats] returns [success:true] with
    [totalDocs = 0]; against the table seeded with the one record, on an
    MCP server that was started without an API key, it returns
    [success:false] with the configuration error. *)
Lemma docs_stats_empty_table_succeeds_and_seeded_can_fail :
  Tools.tableExists Doubles.emptyDocsStore "hytale_docs" = Returned true
  /\ Tools.docsStatsHandler tt (Fixtures.contextOf Doubles.emptyDocsStore)
     = ([EvTableExists "hytale_docs"; EvGetStats "hytale_docs"; EvQueryAll "hytale_docs"],
        Returned (Tools.Success {| Tools.totalDocs := 0;
                                   Tools.byCategory := ∅;
                                   Tools.byType := ∅ |}))
  /\ Tools.rowsOf (Tools.queryAll Fixtures.seededStore "hytale_docs")
     = Some [Fixtures.guideRow]
  /\ Tools.docsStatsHandler tt (Fixtures.contextWithoutKey Fixtures.seededStore)
     = ([], Returned (Tools.Failure (Main.apiKeyMissingMessage Fixtures.js "voyage"))).
Proof. repeat split; vm_compute; reflexivity. Qed.

End DocsTools.

(** ** Configuration errors: [main] and the search tool *)

Section ConfigErrors.

Context (js : Js.Lang).

Lemma resolveConfigError_truthy (env : Main.EnvFile) (config : Cfg.Config) (e : string) :
  Main.resolveConfigError js env config = Some e -> Js.truthy_str e = true.
Proof.
  unfold Main.resolveConfigError.
  destruct (Js.if_truthy (Main.checkEnvFile env)) as [envFileError|] eqn:Eenv.
  - intros [= <-]. apply if_truthy_Some in Eenv as [_ H]. exact H.
  - destruct (Js.if_truthy (Cfg.apiKey (Cfg.embedding config))) as [apiKey|].
    + intros H. apply if_truthy_Some in H as [_ H]. exact H.
    + intros [= <-]. reflexivity.
Qed.

(** A missing key and a key of the wrong format both leave a
    configuration error. *)
Lemma resolveConfigError_missing_key (env : Main.EnvFile) (config : Cfg.Config) :
  Js.truthy (Cfg.apiKey (Cfg.embedding config)) = false ->
  is_Some (Main.resolveConfigError js env config).
Proof.
  intros Hkey. unfold Main.resolveConfigError.
  destruct (Js.if_truthy (Main.checkEnvFile env)); [eexists; reflexivity|].
  destruct (Cfg.apiKey (Cfg.embedding config)) as [k|]; cbn in *;
    [rewrite Hkey|]; eexists; reflexivity.
Qed.

Lemma resolveConfigError_malformed_key (env : Main.EnvFile) (config : Cfg.Config)
    (key : string) :
  Cfg.provider (Cfg.embedding config) = "voyage" ->
  Cfg.apiKey (Cfg.embedding config) = Some key ->
  Js.truthy_str key = true ->
  String.prefix "pa-" key = false ->
  is_Some (Main.resolveConfigError js env config).
Proof.
  intros Hprovider Hkey Htruthy Hprefix. unfold Main.resolveConfigError.
  destruct (Js.if_truthy (Main.checkEnvFile env)); [eexists; reflexivity|].
  rewrite Hkey, (if_truthy_truthy key Htruthy), Hprovider.
  unfold Main.validateApiKeyFormat. cbn [String.eqb Ascii.eqb Bool.eqb andb].
  replace (("voyage" =? "voyage")%string) with true by (symmetry; apply String.eqb_refl).
  rewrite Hprefix. cbn [negb]. eexists. reflexivity.
Qed.

Lemma searchDocsHandler_config_error (input : Schema.SearchTypedInput)
    (context : Tools.ToolContext) (e : string) :
  Tools.configError context = Some e ->
  Js.truthy_str e = true ->
  Tools.searchDocsHandler input context = ([], Returned (Tools.Failure e)).
Proof.
  intros Hctx He. unfold Tools.searchDocsHandler, Tools.pendingConfigError.
  rewrite Hctx, (if_truthy_truthy e He). reflexivity.
Qed.

(** C6: when the checks of [main] leave a configuration error [e], a
    server in any mode but [mcp] reports it and exits with status 1; in
    mode [mcp] the start-up goes on (store, connection, registry, MCP
    server) without an embedding provider and serves with [e] kept in the
    context, unless one of those steps throws, which is fatal; a search
    through a context that carries [e] returns [{success:false, error: e}]
    and calls neither the provider nor the store. *)
Theorem config_error_exits_or_is_deferred
    (imp : Main.Imports) (env : Main.EnvFile) (config : Cfg.Config) (e : string) :
  Main.resolveConfigError js env config = Some e ->
  (Cfg.mode (Cfg.server config) <> "mcp" ->
   Main.main js imp env config = Main.Exit 1 (Main.Line ("Error: " +:+ e)))
  /\ (Cfg.mode (Cfg.server config) = "mcp" ->
      Main.main js imp env config =
        match Main.createVectorStore imp (Cfg.vectorStore config) with
        | Threw err => Main.fatal err
        | Returned vectorStore =>
            match Tools.connect vectorStore with
            | Threw err => Main.fatal err
            | Returned _ =>
                match Main.newToolRegistry imp with
                | Threw err => Main.fatal err
                | Returned empty =>
                    match Main.registerAll imp
                            [Main.searchCodeTool imp; Main.searchClientCodeTool imp;
                             Main.searchGameDataTool imp; Main.codeStatsTool imp;
                             Main.clientCodeStatsTool imp; Main.gameDataStatsTool imp]
                            empty with
                    | Threw err => Main.fatal err
                    | Returned registry =>
                        match Main.start imp Main.MCP registry
                                {| Tools.embedding := None;
                                   Tools.vectorStore := vectorStore;
                                   Tools.config := config;
                                   Tools.configError := Some e |} config with
                        | Threw err => Main.fatal err
                        | Returned _ =>
                            Main.Serving [Main.MCP] registry
                              {| Tools.embedding := None;
                                 Tools.vectorStore := vectorStore;
                                 Tools.config := config;
                                 Tools.configError := Some e |}
                        end
                    end
                end
            end
        end)
  /\ (forall (context : Tools.ToolContext) (input : Schema.SearchTypedInput),
        Tools.configError context = Some e ->
        Tools.searchDocsHandler input context = ([], Returned (Tools.Failure e))).
Proof.
  intros Hresolve.
  pose proof (resolveConfigError_truthy env config e Hresolve) as He.
  split; [|split].
  - intros Hmode. unfold Main.main. rewrite Hresolve. cbn [Js.truthy default].
    rewrite He. apply String.eqb_neq in Hmode. rewrite Hmode. reflexivity.
  - intros Hmode. unfold Main.main. rewrite Hresolve. cbn [Js.truthy default].
    rewrite He, Hmode. cbn [String.eqb negb andb].
    replace (("mcp" =? "mcp")%string) with true by (symmetry; apply String.eqb_refl).
    cbn [negb andb].
    unfold Main.startServers, Main.embeddingFor, Main.serversFor, Main.tools.
    cbn [Js.truthy].
    rewrite He, Hmode. cbn [negb andb].
    replace (("mcp" =? "mcp")%string) with true by (symmetry; apply String.eqb_refl).
    destruct (Main.createVectorStore imp (Cfg.vectorStore config)); [|reflexivity].
    destruct (Tools.connect a); [|reflexivity].
    destruct (Main.newToolRegistry imp); [|reflexivity].
    destruct (Main.registerAll imp _ a1); [|reflexivity].
    cbn [Main.startAll].
    destruct (Main.start imp Main.MCP _ _ config); reflexivity.
  - intros context input Hctx.
    apply searchDocsHandler_config_error; assumption.
Qed.

End ConfigErrors.

Section ConfigErrorExamples.

Lemma config_error_exits_or_is_deferred_witness :
  (Cfg.mode (Cfg.server (Fixtures.configOf "mcp" None)) <> "mcp" ->
   Main.main Fixtures.js Fixtures.imports Main.NoFile (Fixtures.configOf "mcp" None)
   = Main.Exit 1 (Main.Line ("Error: " +:+ Main.apiKeyMissingMessage Fixtures.js "voyage")))
  /\ (Cfg.mode (Cfg.server (Fixtures.configOf "mcp" None)) = "mcp" ->
      Main.main Fixtures.js Fixtures.imports Main.NoFile (Fixtures.configOf "mcp" None) =
        match Main.createVectorStore Fixtures.imports
                (Cfg.vectorStore (Fixtures.configOf "mcp" None)) with
        | Threw err => Main.fatal err
        | Returned vectorStore =>
            match Tools.connect vectorStore with
            | Threw err => Main.fatal err
            | Returned _ =>
                match Main.newToolRegistry Fixtures.imports with
                | Threw err => Main.fatal err
                | Returned empty =>
                    match Main.registerAll Fixtures.imports
                            [Main.searchCodeTool Fixtures.imports;
                             Main.searchClientCodeTool Fixtures.imports;
                             Main.searchGameDataTool Fixtures.imports;
                             Main.codeStatsTool Fixtures.imports;
                             Main.clientCodeStatsTool Fixtures.imports;
                             Main.gameDataStatsTool Fixtures.imports]
                            empty with
                    | Threw err => Main.fatal err
                    | Returned registry =>
                        match Main.start Fixtures.imports Main.MCP registry
                                {| Tools.embedding := None;
                                   Tools.vectorStore := vectorStore;
                                   Tools.config := Fixtures.configOf "mcp" None;
                                   Tools.configError :=
                                     Some (Main.apiKeyMissingMessage Fixtures.js "voyage") |}
                                (Fixtures.configOf "mcp" None) with
                        | Threw err => Main.fatal err
                        | Returned _ =>
                            Main.Serving [Main.MCP] registry
                              {| Tools.embedding := None;
                                 Tools.vectorStore := vectorStore;
                                 Tools.config := Fixtures.configOf "mcp" None;
                                 Tools.configError :=
                                   Some (Main.apiKeyMissingMessage Fixtures.js "voyage") |}
                        end
                    end
                end
            end
        end)
  /\ (forall (context : Tools.ToolContext) (input : Schema.SearchTypedInput),
        Tools.configError context = Some (Main.apiKeyMissingMessage Fixtures.js "voyage") ->
        Tools.searchDocsHandler input context
        = ([], Returned (Tools.Failure (Main.apiKeyMissingMessage Fixtures.js "voyage")))).
Proof.
  apply (config_error_exits_or_is_deferred Fixtures.js Fixtures.imports Main.NoFile
           (Fixtures.configOf "mcp" None) (Main.apiKeyMissingMessage Fixtures.js "voyage")).
  vm_compute. reflexivity.
Defined.

(** With the stand-in imports, a server in mode [mcp] without an API key
    ends up serving, and a server in mode [rest] exits. *)
Example main_without_key_mcp_serves :
  exists registry context,
    Main.main Fixtures.js Fixtures.imports Main.NoFile (Fixtures.configOf "mcp" None)
    = Main.Serving [Main.MCP] registry context
    /\ Tools.configError context = Some (Main.apiKeyMissingMessage Fixtures.js "voyage")
    /\ length (Registry.list_ registry) = 6.
Proof. eexists. eexists. split; [vm_compute; reflexivity|]. split; reflexivity. Qed.

Example main_without_key_rest_exits :
  Main.main Fixtures.js Fixtures.imports Main.NoFile (Fixtures.configOf "rest" None)
  = Main.Exit 1 (Main.Line ("Error: " +:+ Main.apiKeyMissingMessage Fixtures.js "voyage")).
Proof. vm_compute. reflexivity. Qed.

End ConfigErrorExamples.

(** ** The [limit] of a search: validated by the schema, clamped by the
       handler *)

Section SearchLimit.

Local Open Scope Q_scope.

Lemma clampLimit_NaN (limit : option Js.number) :
  Tools.clampLimit limit = Js.NotANumber <-> limit = Some Js.NotANumber.
Proof.
  unfold Tools.clampLimit. split.
  - destruct limit as [[q| | |]|]; cbn; try discriminate. reflexivity.
  - intros ->. reflexivity.
Qed.

Lemma clampLimit_bounds (limit : option Js.number) :
  limit <> Some Js.NotANumber ->
  exists c, Tools.clampLimit limit = Js.Finite c /\ 1 <= c /\ c <= 20.
Proof.
  intros Hnumber. unfold Tools.clampLimit.
  destruct limit as [[q| | |]|]; cbn [default from_option id Js.math_max Js.math_min].
  - eexists. split; [reflexivity|]. split.
    + apply Q.min_glb; [apply Q.le_max_l | discriminate].
    + apply Q.le_min_r.
  - exists 20. repeat split; discriminate.
  - exists (Qmin 1 20). repeat split; discriminate.
  - contradiction Hnumber. reflexivity.
  - exists (Qmin (Qmax 1 5) 20). repeat split; discriminate.
Qed.

Lemma Qmax_left (p q : Q) : q <= p -> Qmax p q = p.
Proof.
  intros H. unfold Qmax, GenericMinMax.gmax.
  destruct (Qcompare_spec p q) as [E|E|E]; try reflexivity.
  exfalso. apply (Qlt_not_le _ _ E). exact H.
Qed.

Lemma Qmax_right (p q : Q) : p < q -> Qmax p q = q.
Proof.
  intros H. unfold Qmax, GenericMinMax.gmax.
  destruct (Qcompare_spec p q) as [E|E|E]; try reflexivity; exfalso.
  - rewrite E in H. apply (Qlt_irrefl _ H).
  - apply (Qlt_irrefl p). apply Qlt_trans with q; assumption.
Qed.

Lemma Qmin_left (p q : Q) : p <= q -> Qmin p q = p.
Proof.
  intros H. unfold Qmin, GenericMinMax.gmin.
  destruct (Qcompare_spec p q) as [E|E|E]; try reflexivity.
  exfalso. apply (Qlt_not_le _ _ E). exact H.
Qed.

Lemma Qmin_right (p q : Q) : q < p -> Qmin p q = q.
Proof.
  intros H. unfold Qmin, GenericMinMax.gmin.
  destruct (Qcompare_spec p q) as [E|E|E]; try reflexivity; exfalso.
  - rewrite E in H. apply (Qlt_irrefl _ H).
  - apply (Qlt_irrefl p). apply Qlt_trans with q; assumption.
Qed.

Lemma clampLimit_below (q : Q) :
  q < 1 -> Tools.clampLimit (Some (Js.Finite q)) = Js.Finite 1.
Proof.
  intros H. unfold Tools.clampLimit. cbn [default from_option id Js.math_max Js.math_min].
  rewrite (Qmax_left 1 q) by (apply Qlt_le_weak; exact H).
  reflexivity.
Qed.

Lemma clampLimit_above (q : Q) :
  20 < q -> Tools.clampLimit (Some (Js.Finite q)) = Js.Finite 20.
Proof.
  intros H. unfold Tools.clampLimit. cbn [default from_option id Js.math_max Js.math_min].
  rewrite (Qmax_right 1 q) by (apply Qlt_trans with 20; [reflexivity | exact H]).
  rewrite (Qmin_right q 20) by exact H. reflexivity.
Qed.

Lemma clampLimit_within (q : Q) :
  1 <= q -> q <= 20 ->
  exists c, Tools.clampLimit (Some (Js.Finite q)) = Js.Finite c /\ c == q.
Proof.
  intros Hlo Hhi. unfold Tools.clampLimit. cbn [default from_option id Js.math_max Js.math_min].
  eexists. split; [reflexivity|].
  rewrite (Q.max_r 1 q) by exact Hlo.
  apply Q.min_l. exact Hhi.
Qed.

Lemma Qred_inject_Z (z : Z) : Qred (inject_Z z) = inject_Z z.
Proof.
  unfold Qred, inject_Z.
  pose proof (Z.ggcd_gcd z 1) as Hg.
  pose proof (Z.ggcd_correct_divisors z 1) as Hd.
  destruct (Z.ggcd z 1) as [g [a b]]. cbn [fst snd] in *.
  rewrite Z.gcd_1_r in Hg. subst g. destruct Hd as [Ha Hb].
  rewrite Z.mul_1_l in Ha, Hb. subst a b. reflexivity.
Qed.

Lemma limitSchema_accepts (z : Z) :
  (1 <= z <= 20)%Z ->
  Schema.limitSchema (Some (Schema.JNumber (inject_Z z))) = Schema.ParseOk (Some (inject_Z z)).
Proof.
  intros [Hlo Hhi].
  unfold Schema.limitSchema, Schema.z_default, Schema.z_optional, Schema.z_number.
  cbn [map concat Schema.run_check].
  unfold Schema.is_integer. rewrite Qred_inject_Z.
  change (Qden (inject_Z z)) with 1%positive. cbn [Pos.eqb].
  assert (Qle_bool (inject_Z 1) (inject_Z z) = true) as ->.
  { apply Qle_bool_iff. rewrite <- Zle_Qle. exact Hlo. }
  assert (Qle_bool (inject_Z z) (inject_Z 20) = true) as ->.
  { apply Qle_bool_iff. rewrite <- Zle_Qle. exact Hhi. }
  reflexivity.
Qed.

Lemma limitSchema_rejects (q : Q) :
  q < 1 \/ 20 < q ->
  exists issues,
    issues <> []
    /\ Schema.limitSchema (Some (Schema.JNumber q)) = Schema.ParseError issues.
Proof.
  intros Hout.
  unfold Schema.limitSchema, Schema.z_default, Schema.z_optional, Schema.z_number.
  cbn [map concat Schema.run_check].
  assert (Qle_bool (inject_Z 1) q = false \/ Qle_bool q (inject_Z 20) = false) as Hfail.
  { destruct Hout as [H|H]; [left|right];
      apply not_true_is_false; intros Hb; apply Qle_bool_iff in Hb;
      apply (Qlt_not_le _ _ H); exact Hb. }
  destruct (Schema.is_integer q);
    destruct (Qle_bool (inject_Z 1) q);
    destruct (Qle_bool q (inject_Z 20));
    try (destruct Hfail; discriminate);
    cbn [app]; eexists; (split; [|reflexivity]); discriminate.
Qed.

(** C2 (as amended): the [limit] key of the search schemas defaults to 5
    when omitted, accepts an integer in [1,20] as it is, and rejects a
    number below 1 or above 20 with a validation issue.  The handler of
    [search_docs] does not validate: it calls the vector search with
    [Math.min(Math.max(1, limit ?? 5), 20)] of the limit it is handed.
    That is [NaN] when the limit is [NaN], and only then; for every other
    limit it is a number in [1,20]: 5 when there is none, 1 below 1
    (minus infinity included), 20 above 20 (plus infinity included), the
    limit itself in between. *)
Theorem search_limit_validated_then_clamped
    (input : Schema.SearchTypedInput) (context : Tools.ToolContext)
    (provider : Tools.EmbeddingProvider) (queryVector : list Q) :
  Tools.pendingConfigError context = None ->
  Tools.embedding context = Some provider ->
  Tools.embedQuery provider (Schema.st_query input) "text" = Returned queryVector ->
  trace (Tools.searchDocsHandler input context)
    = [EvEmbedQuery (Schema.st_query input) "text";
       EvSearch (Cfg.docs (Cfg.tables (Tools.config context))) queryVector
                (Tools.clampLimit (Schema.st_limit input))
                (Tools.typeFilter (Schema.st_type input))]
  /\ (Tools.clampLimit (Schema.st_limit input) = Js.NotANumber
      <-> Schema.st_limit input = Some Js.NotANumber)
  /\ (Schema.st_limit input = Some Js.NotANumber
      \/ exists c, Tools.clampLimit (Schema.st_limit input) = Js.Finite c
                   /\ 1 <= c /\ c <= 20)
  /\ Tools.clampLimit None = Js.Finite 5
  /\ (forall q, q < 1 -> Tools.clampLimit (Some (Js.Finite q)) = Js.Finite 1)
  /\ (forall q, 20 < q -> Tools.clampLimit (Some (Js.Finite q)) = Js.Finite 20)
  /\ (forall q, 1 <= q -> q <= 20 ->
        exists c, Tools.clampLimit (Some (Js.Finite q)) = Js.Finite c /\ c == q)
  /\ Tools.clampLimit (Some Js.MinusInfinity) = Js.Finite 1
  /\ Tools.clampLimit (Some Js.PlusInfinity) = Js.Finite 20
  /\ Schema.limitSchema None = Schema.ParseOk (Some 5)
  /\ (forall z : Z, (1 <= z <= 20)%Z ->
        Schema.limitSchema (Some (Schema.JNumber (inject_Z z)))
        = Schema.ParseOk (Some (inject_Z z)))
  /\ (forall q, q < 1 \/ 20 < q ->
        exists issues,
          issues <> []
          /\ Schema.limitSchema (Some (Schema.JNumber q)) = Schema.ParseError issues).
Proof.
  intros Hconfig Hprovider Hembed.
  split.
  { unfold Tools.searchDocsHandler. rewrite Hconfig, Hprovider.
    unfold call. cbn. rewrite Hembed. cbn.
    destruct (Tools.search _ _ _ _); reflexivity. }
  split; [apply clampLimit_NaN|].
  split.
  { destruct (Schema.st_limit input) as [[q| | |]|] eqn:E;
      try (right; apply clampLimit_bounds; discriminate).
    left. reflexivity. }
  split; [reflexivity|].
  split; [apply clampLimit_below|].
  split; [apply clampLimit_above|].
  split; [apply clampLimit_within|].
  split; [reflexivity|].
  split; [reflexivity|].
  split; [reflexivity|].
  split; [apply limitSchema_accepts | apply limitSchema_rejects].
Qed.

Lemma search_limit_validated_then_clamped_witness :
  trace (Tools.searchDocsHandler
           (Schema.mkSearchTypedInput "block creation" (Some "guide")
                                      (Some (Js.Finite 25)))
           (Fixtures.contextOf Fixtures.seededStore))
    = [EvEmbedQuery "block creation" "text";
       EvSearch "hytale_docs" [1; 0] (Tools.clampLimit (Some (Js.Finite 25)))
                (Tools.typeFilter (Some "guide"%string))]
  /\ (Tools.clampLimit (Some (Js.Finite 25)) = Js.NotANumber
      <-> Some (Js.Finite 25) = Some Js.NotANumber)
  /\ (Some (Js.Finite 25) = Some Js.NotANumber
      \/ exists c, Tools.clampLimit (Some (Js.Finite 25)) = Js.Finite c
                   /\ 1 <= c /\ c <= 20)
  /\ Tools.clampLimit None = Js.Finite 5
  /\ (forall q, q < 1 -> Tools.clampLimit (Some (Js.Finite q)) = Js.Finite 1)
  /\ (forall q, 20 < q -> Tools.clampLimit (Some (Js.Finite q)) = Js.Finite 20)
  /\ (forall q, 1 <= q -> q <= 20 ->
        exists c, Tools.clampLimit (Some (Js.Finite q)) = Js.Finite c /\ c == q)
  /\ Tools.clampLimit (Some Js.MinusInfinity) = Js.Finite 1
  /\ Tools.clampLimit (Some Js.PlusInfinity) = Js.Finite 20
  /\ Schema.limitSchema None = Schema.ParseOk (Some 5)
  /\ (forall z : Z, (1 <= z <= 20)%Z ->
        Schema.limitSchema (Some (Schema.JNumber (inject_Z z)))
        = Schema.ParseOk (Some (inject_Z z)))
  /\ (forall q, q < 1 \/ 20 < q ->
        exists issues,
          issues <> []
          /\ Schema.limitSchema (Some (Schema.JNumber q)) = Schema.ParseError issues).
Proof.
  apply (search_limit_validated_then_clamped
           (Schema.mkSearchTypedInput "block creation" (Some "guide"%string)
                                      (Some (Js.Finite 25)))
           (Fixtures.contextOf Fixtures.seededStore)
           Fixtures.constantProvider [1; 0]);
    vm_compute; reflexivity.
Defined.

(** The handler of [search_docs] run on a limit that is [NaN]: the vector
    search is called with [NaN]. *)
Example search_limit_NaN_is_passed_on :
  trace (Tools.searchDocsHandler
           (Schema.mkSearchTypedInput "block creation" (Some "guide") (Some Js.NotANumber))
           (Fixtures.contextOf Fixtures.seededStore))
  = [EvEmbedQuery "block creation" "text";
     EvSearch "hytale_docs" [1; 0] Js.NotANumber (Some ("type", "guide"))%string].
Proof. vm_compute. reflexivity. Qed.

(** C2, counterexample: the limit 25 is outside [1,20]; the input schemas
    of the four search tools do not clamp it to 20, they reject the input
    with an issue on [limit], so there is no validated input to search
    with.  The limit 0 is rejected likewise; the limit 20 is accepted. *)
Lemma search_schema_rejects_limit_outside_range :
  Schema.searchDocsSchema (Fixtures.searchInput 25)
  = Schema.ParseError
      [Schema.mkIssue ["limit"%string] "Number must be less than or equal to 20"]
  /\ Schema.searchCodeSchema (Fixtures.searchInput 25)
     = Schema.ParseError
         [Schema.mkIssue ["limit"%string] "Number must be less than or equal to 20"]
  /\ Schema.searchClientCodeSchema (Fixtures.searchInput 25)
     = Schema.ParseError
         [Schema.mkIssue ["limit"%string] "Number must be less than or equal to 20"]
  /\ Schema.searchGameDataSchema (Fixtures.searchInput 25)
     = Schema.ParseError
         [Schema.mkIssue ["limit"%string] "Number must be less than or equal to 20"]
  /\ Schema.searchDocsSchema (Fixtures.searchInput 0)
     = Schema.ParseError
         [Schema.mkIssue ["limit"%string] "Number must be greater than or equal to 1"]
  /\ Schema.searchDocsSchema (Fixtures.searchInput 20)
     = Schema.ParseOk (Schema.mkSearchTypedInput "block creation" (Some "all"%string)
                                                 (Some (Js.Finite 20))).
Proof. repeat split; vm_compute; reflexivity. Qed.

End SearchLimit.

(** ** The registry *)

Section RegistryFacts.

Lemma get_app (r : Registry.t) (d : Tools.AnyTool) (name : string) :
  Registry.get r name = None ->
  Registry.get (r ++ [d]) name
  = if String.eqb (Tools.toolName d) name then Some d else None.
Proof.
  unfold Registry.get. induction r as [|x r IH]; intros H; [reflexivity|].
  cbn [app find] in *.
  destruct (String.eqb (Tools.toolName x) name); [discriminate|].
  apply IH. exact H.
Qed.

(** C8: once a definition is registered, registering another definition
    of the same name fails with [DuplicateToolError], and the registry
    after the failed call is the registry before it: it still maps the
    name to the first definition. *)
Theorem register_duplicate_rejected (r : Registry.t) (first second : Tools.AnyTool) :
  Registry.get r (Tools.toolName first) = None ->
  Tools.toolName second = Tools.toolName first ->
  Registry.register first r = (Returned tt, r ++ [first])
  /\ (exists msg,
        Registry.register second (r ++ [first])
        = (Threw (Js.Error Js.DuplicateToolError msg), r ++ [first]))
  /\ Registry.get (r ++ [first]) (Tools.toolName first) = Some first
  /\ Registry.list_ (r ++ [first]) = Registry.list_ r ++ [first].
Proof.
  intros Hfresh Hsame.
  assert (Registry.get (r ++ [first]) (Tools.toolName first) = Some first) as Hget.
  { rewrite (get_app r first _ Hfresh), String.eqb_refl. reflexivity. }
  split; [unfold Registry.register; rewrite Hfresh; reflexivity|].
  split; [|split; [exact Hget | reflexivity]].
  unfold Registry.register. rewrite Hsame, Hget. eexists. reflexivity.
Qed.

Lemma register_duplicate_rejected_witness :
  Registry.register (Tools.mkAnyTool Tools.searchDocsTool) Registry.empty
  = (Returned tt, Registry.empty ++ [Tools.mkAnyTool Tools.searchDocsTool])
  /\ (exists msg,
        Registry.register (Fixtures.namedTool "search_hytale_docs")
          (Registry.empty ++ [Tools.mkAnyTool Tools.searchDocsTool])
        = (Threw (Js.Error Js.DuplicateToolError msg),
           Registry.empty ++ [Tools.mkAnyTool Tools.searchDocsTool]))
  /\ Registry.get (Registry.empty ++ [Tools.mkAnyTool Tools.searchDocsTool])
       (Tools.toolName (Tools.mkAnyTool Tools.searchDocsTool))
     = Some (Tools.mkAnyTool Tools.searchDocsTool)
  /\ Registry.list_ (Registry.empty ++ [Tools.mkAnyTool Tools.searchDocsTool])
     = Registry.list_ Registry.empty ++ [Tools.mkAnyTool Tools.searchDocsTool].
Proof.
  apply (register_duplicate_rejected Registry.empty
           (Tools.mkAnyTool Tools.searchDocsTool)
           (Fixtures.namedTool "search_hytale_docs")).
  - reflexivity.
  - reflexivity.
Defined.

(** C1: for a registered name, [invoke] does not throw, whatever the raw
    input: an input the schema rejects comes back as
    [{success:false, error}] with the issues of the fields, before any
    call is made; an exception of the handler comes back as
    [{success:false, error: message}]. *)
Theorem invoke_never_throws
    (r : Registry.t) (name : string) (tool : Tools.AnyTool)
    (rawInput : option Schema.json) (context : Tools.ToolContext) :
  Registry.get r name = Some tool ->
  (exists result, outcome (Registry.invoke r name rawInput context) = Returned result)
  /\ (forall issues,
        Tools.inputSchema (Tools.def tool) rawInput = Schema.ParseError issues ->
        Registry.invoke r name rawInput context
        = ([], Returned (Tools.Failure (Registry.formatIssues issues))))
  /\ (forall input t e,
        Tools.inputSchema (Tools.def tool) rawInput = Schema.ParseOk input ->
        Tools.handler (Tools.def tool) input context = (t, Threw e) ->
        Registry.invoke r name rawInput context
        = (t, Returned (Tools.Failure (Js.message_of e)))).
Proof.
  intros Hget. unfold Registry.invoke. rewrite Hget.
  split; [|split].
  - destruct (Tools.inputSchema (Tools.def tool) rawInput) as [input|issues].
    + destruct (Tools.handler (Tools.def tool) input context) as [t [res|e]];
        eexists; reflexivity.
    + eexists. reflexivity.
  - intros issues ->. reflexivity.
  - intros input t e -> Hthrow. cbn. rewrite Hthrow. cbn.
    rewrite app_nil_r. reflexivity.
Qed.

Lemma invoke_never_throws_witness :
  (exists result,
      outcome (Registry.invoke Fixtures.docsRegistry "search_hytale_docs"
                 (Fixtures.searchInput 25) (Fixtures.contextOf Fixtures.seededStore))
      = Returned result)
  /\ (forall issues,
        Tools.inputSchema (Tools.def (Tools.mkAnyTool Tools.searchDocsTool))
          (Fixtures.searchInput 25) = Schema.ParseError issues ->
        Registry.invoke Fixtures.docsRegistry "search_hytale_docs"
          (Fixtures.searchInput 25) (Fixtures.contextOf Fixtures.seededStore)
        = ([], Returned (Tools.Failure (Registry.formatIssues issues))))
  /\ (forall input t e,
        Tools.inputSchema (Tools.def (Tools.mkAnyTool Tools.searchDocsTool))
          (Fixtures.searchInput 25) = Schema.ParseOk input ->
        Tools.handler (Tools.def (Tools.mkAnyTool Tools.searchDocsTool))
          input (Fixtures.contextOf Fixtures.seededStore) = (t, Threw e) ->
        Registry.invoke Fixtures.docsRegistry "search_hytale_docs"
          (Fixtures.searchInput 25) (Fixtures.contextOf Fixtures.seededStore)
        = (t, Returned (Tools.Failure (Js.message_of e)))).
Proof.
  apply (invoke_never_throws Fixtures.docsRegistry "search_hytale_docs"
           (Tools.mkAnyTool Tools.searchDocsTool)).
  reflexivity.
Defined.

(** A malformed input and a throwing provider, run through [invoke]. *)
Example invoke_malformed_input :
  Registry.invoke Fixtures.docsRegistry "search_hytale_docs"
    (Some (Schema.JObject [("limit", Schema.JString "many")]))
    (Fixtures.contextOf Fixtures.seededStore)
  = ([], Returned (Tools.Failure
                     "query: Required; limit: Expected number, received string")).
Proof. vm_compute. reflexivity. Qed.

(** A limit of 25 does not reach the handler: the schema rejects it and no
    search is made; a limit of 20 does. *)
Example invoke_limit_outside_range :
  Registry.invoke Fixtures.docsRegistry "search_hytale_docs"
    (Fixtures.searchInput 25) (Fixtures.contextOf Fixtures.seededStore)
  = ([], Returned (Tools.Failure "limit: Number must be less than or equal to 20"))
  /\ trace (Registry.invoke Fixtures.docsRegistry "search_hytale_docs"
              (Fixtures.searchInput 20) (Fixtures.contextOf Fixtures.seededStore))
     = [EvEmbedQuery "block creation" "text";
        EvSearch "hytale_docs" [1%Q; 0%Q] (Js.Finite 20) None].
Proof. split; vm_compute; reflexivity. Qed.

Example invoke_handler_throws :
  Registry.invoke Fixtures.docsRegistry "search_hytale_docs"
    (Fixtures.searchInput 3) (Fixtures.contextOf Fixtures.unseededStore)
  = ([EvEmbedQuery "block creation" "text";
      EvSearch "hytale_docs" [1%Q; 0%Q] (Js.Finite 3) None],
     Returned (Tools.Failure "Table 'hytale_docs' was not found")).
Proof. vm_compute. reflexivity. Qed.

End RegistryFacts.

(** ** The embedding pipeline *)

Section EmbedderFacts.

(** The endpoint, and what it means for a vector to be the embedding of a
    text under the given purpose and mode. *)
Variable api : Embedder.Api.
Variable R : string -> list Q -> Prop.
Variables purpose mode : string.

(** A request answers with one vector per text, in the order of the
    texts. *)
Hypothesis api_aligned :
  forall batch, exists vs, api batch purpose mode = Returned vs /\ Forall2 R batch vs.

(** The embedding of a text does not depend on the request it is part of. *)
Hypothesis R_functional : forall x v v', R x v -> R x v' -> v = v'.

Lemma embedLoop_aligned (opts : Embedder.VoyageOptions) (texts : list string) :
  0 < Embedder.batchSize opts ->
  forall (fuel i : nat) (acc : list (list Q)),
    length texts - i < fuel ->
    Forall2 R (take i texts) acc ->
    exists t vs,
      Embedder.embedLoop fuel api opts texts purpose mode i acc = Some (t, Returned vs)
      /\ Forall2 R texts vs.
Proof.
  intros Hbs. induction fuel as [|fuel IH]; intros i acc Hfuel Hacc; [lia|].
  cbn [Embedder.embedLoop].
  destruct (Nat.leb_spec (length texts) i) as [Hdone|Hmore].
  - eexists. eexists. split; [reflexivity|].
    rewrite take_ge in Hacc by exact Hdone. exact Hacc.
  - destruct (api_aligned (take (Embedder.batchSize opts) (drop i texts)))
      as (vs & Hcall & Hvs).
    destruct (IH (i + Embedder.batchSize opts) (acc ++ vs)) as (t & out & Hrun & Hout).
    { lia. }
    { rewrite <- take_take_drop. apply Forall2_app; assumption. }
    unfold call. rewrite Hcall.
    destruct (0 <? i); cbn; rewrite Hrun; eexists; eexists;
      (split; [reflexivity | exact Hout]).
Qed.

Lemma aligned_unique (texts : list string) :
  forall vs vs', Forall2 R texts vs -> Forall2 R texts vs' -> vs = vs'.
Proof.
  induction texts as [|x texts IH]; intros vs vs' H H';
    inversion H; inversion H'; subst; [reflexivity|].
  f_equal; [eapply R_functional; eassumption | apply IH; assumption].
Qed.

Lemma embedBatch_aligned (opts : Embedder.VoyageOptions) (texts : list string) :
  0 < Embedder.batchSize opts ->
  exists t r,
    Embedder.embedBatch api opts texts purpose mode = Some (t, Returned r)
    /\ Forall2 R texts (Embedder.vectors r).
Proof.
  intros Hbs.
  destruct (embedLoop_aligned opts texts Hbs (S (length texts)) 0 [])
    as (t & vs & Hrun & Hvs).
  { lia. }
  { constructor. }
  unfold Embedder.embedBatch. rewrite Hrun. cbn.
  eexists. exists (Embedder.mkEmbedResult vs). split; [reflexivity | exact Hvs].
Qed.

(** C4: with an endpoint that answers every request with the embeddings
    of its texts in order, [embedBatch] returns, for every positive batch
    size, one vector per text with the vector at index [i] the embedding
    of the text at index [i]; and the vectors are the same for every
    positive batch size, 1 and 128 among them. *)
Theorem embedBatch_positionally_aligned
    (opts : Embedder.VoyageOptions) (texts : list string) :
  0 < Embedder.batchSize opts ->
  exists t r,
    Embedder.embedBatch api opts texts purpose mode = Some (t, Returned r)
    /\ Forall2 R texts (Embedder.vectors r)
    /\ (forall i text, texts !! i = Some text ->
          exists v, Embedder.vectors r !! i = Some v /\ R text v)
    /\ (forall opts', 0 < Embedder.batchSize opts' ->
          exists t', Embedder.embedBatch api opts' texts purpose mode
                     = Some (t', Returned r))
    /\ (forall opts1 opts128,
          Embedder.batchSize opts1 = 1 -> Embedder.batchSize opts128 = 128 ->
          exists t1 t128,
            Embedder.embedBatch api opts1 texts purpose mode = Some (t1, Returned r)
            /\ Embedder.embedBatch api opts128 texts purpose mode
               = Some (t128, Returned r)).
Proof.
  intros Hbs.
  destruct (embedBatch_aligned opts texts Hbs) as (t & r & Hrun & Hr).
  assert (forall opts', 0 < Embedder.batchSize opts' ->
            exists t', Embedder.embedBatch api opts' texts purpose mode
                       = Some (t', Returned r)) as Hany.
  { intros opts' Hbs'.
    destruct (embedBatch_aligned opts' texts Hbs') as (t' & r' & Hrun' & Hr').
    exists t'. rewrite Hrun'. do 3 f_equal.
    destruct r as [vs], r' as [vs']. cbn in *. f_equal.
    apply (aligned_unique texts); assumption. }
  exists t, r. split; [exact Hrun|]. split; [exact Hr|].
  split; [|split; [exact Hany|]].
  - intros i text Hi. eapply Forall2_lookup_l in Hr as (v & Hv & HR); [|exact Hi].
    exists v. split; assumption.
  - intros opts1 opts128 H1 H128.
    destruct (Hany opts1) as [t1 E1]; [lia|].
    destruct (Hany opts128) as [t128 E128]; [lia|].
    exists t1, t128. split; assumption.
Qed.

End EmbedderFacts.

Lemma embedBatch_positionally_aligned_witness :
  exists t r,
    Embedder.embedBatch Fixtures.lengthApi (Fixtures.voyage 2) Fixtures.threeTexts
      "code" "document" = Some (t, Returned r)
    /\ Forall2 (fun text v => v = Fixtures.lengthOf text) Fixtures.threeTexts
               (Embedder.vectors r)
    /\ (forall i text, Fixtures.threeTexts !! i = Some text ->
          exists v, Embedder.vectors r !! i = Some v /\ v = Fixtures.lengthOf text)
    /\ (forall opts', 0 < Embedder.batchSize opts' ->
          exists t', Embedder.embedBatch Fixtures.lengthApi opts' Fixtures.threeTexts
                       "code" "document" = Some (t', Returned r))
    /\ (forall opts1 opts128,
          Embedder.batchSize opts1 = 1 -> Embedder.batchSize opts128 = 128 ->
          exists t1 t128,
            Embedder.embedBatch Fixtures.lengthApi opts1 Fixtures.threeTexts
              "code" "document" = Some (t1, Returned r)
            /\ Embedder.embedBatch Fixtures.lengthApi opts128 Fixtures.threeTexts
                 "code" "document" = Some (t128, Returned r)).
Proof.
  apply (embedBatch_positionally_aligned Fixtures.lengthApi
           (fun text v => v = Fixtures.lengthOf text) "code" "document").
  - intros batch. exists (map Fixtures.lengthOf batch). split; [reflexivity|].
    induction batch; constructor; [reflexivity | assumption].
  - intros x v v' -> ->. reflexivity.
  - simpl. lia.
Defined.

(** The three texts, embedded one, two and 128 at a time. *)
Example embedBatch_three_texts :
  (snd <$> Embedder.embedBatch Fixtures.lengthApi (Fixtures.voyage 1)
             Fixtures.threeTexts "code" "document")
  = Some (Returned (Embedder.mkEmbedResult [[5%Q]; [2%Q]; [3%Q]]))
  /\ (snd <$> Embedder.embedBatch Fixtures.lengthApi (Fixtures.voyage 128)
                Fixtures.threeTexts "code" "document")
     = Some (Returned (Embedder.mkEmbedResult [[5%Q]; [2%Q]; [3%Q]]))
  /\ (fst <$> Embedder.embedBatch Fixtures.lengthApi (Fixtures.voyage 2)
                Fixtures.threeTexts "code" "document")
     = Some [EvEmbedCall ["alpha"; "be"] "code" "document"; EvProgress 2 3;
             EvSleep 100;
             EvEmbedCall ["gam"] "code" "document"; EvProgress 3 3]
  /\ Embedder.embedBatch Fixtures.lengthApi (Fixtures.voyage 0)
       Fixtures.threeTexts "code" "document" = None.
Proof. repeat split; vm_compute; reflexivity. Qed.

Lemma Forall2_map_graph {A B} (f : A -> B) (l : list A) :
  Forall2 (fun x y => y = f x) l (map f l).
Proof. induction l; constructor; [reflexivity | assumption]. Qed.

(** [embedChunks] attaches to every chunk the embedding of its text. *)
Lemma embedChunks_aligned (api : Embedder.Api) (f : string -> list Q)
    (chunks : list Embedder.MethodChunk) (apiKey : string) :
  (forall batch, api batch "code" "document" = Returned (map f batch)) ->
  exists t,
    Embedder.embedChunks api chunks apiKey
    = Some (t, Returned
                 (map (fun c => Embedder.mkEmbeddedChunk c
                                  (Some (f (Embedder.buildMethodEmbeddingText c))))
                      chunks)).
Proof.
  intros Hapi.
  destruct (embedBatch_aligned api (fun text v => v = f text) "code" "document"
              (fun batch => ex_intro _ (map f batch)
                              (conj (Hapi batch) (Forall2_map_graph f batch)))
              (Embedder.mkVoyageOptions "voyage" apiKey 128 100)
              (map Embedder.buildMethodEmbeddingText chunks))
    as (t & r & Hrun & Hr).
  { cbn. lia. }
  unfold Embedder.embedChunks. cbn zeta. rewrite Hrun. cbn.
  eexists. f_equal. apply f_equal2; [reflexivity|]. f_equal.
  apply list_eq. intros i.
  rewrite list_lookup_imap, list_lookup_fmap.
  destruct (chunks !! i) as [c|] eqn:Ec; [|reflexivity]. cbn. f_equal. f_equal.
  eapply Forall2_lookup_l in Hr as (v & Hv & ->);
    [|rewrite list_lookup_fmap, Ec; reflexivity].
  exact Hv.
Qed.

(** * Further properties of the code *)

(** ** The documentation tools, continued *)

Section DocsToolsMore.

(** X1: [docs_stats] never throws: whatever the store does (an exception
    of [tableExists], of [getStats] or in the middle of [queryAll]) and
    whatever the context holds, the handler returns a [ToolResult]. *)
Theorem docs_stats_never_throws (input : unit) (context : Tools.ToolContext) :
  exists result, outcome (Tools.docsStatsHandler input context) = Returned result.
Proof.
  unfold Tools.docsStatsHandler.
  destruct (Tools.pendingConfigError context) as [e|]; [eexists; reflexivity|].
  unfold call. cbn.
  destruct (Tools.tableExists _ _) as [[|]|e]; cbn; try (eexists; reflexivity).
  destruct (Tools.getStats _ _) as [stats|e]; cbn; try (eexists; reflexivity).
  destruct (Tools.forAwait _ _) as [counts|e]; cbn; eexists; reflexivity.
Qed.

Lemma forAwait_returned (batches : Tools.Batches) :
  forall (acc counts : gmap string Js.tally * gmap string Js.tally),
    Tools.forAwait batches acc = Returned counts ->
    exists rows,
      Tools.rowsOf batches = Some rows /\ counts = fold_left Tools.countRow rows acc.
Proof.
  induction batches as [|batch rest IH|e]; intros acc counts H; cbn in *.
  - injection H as <-. exists []. split; reflexivity.
  - destruct (IH _ _ H) as (rows & Hrows & ->).
    exists (batch ++ rows). rewrite Hrows, fold_left_app. split; reflexivity.
  - discriminate.
Qed.

Lemma total_empty : Tally.total ∅ = 0.
Proof. unfold Tally.total. apply map_fold_empty. Qed.

Lemma total_insert_fresh (m : gmap string Js.tally) (k : string) (v : Js.tally) :
  m !! k = None -> Tally.total (<[k := v]> m) = Tally.counted v + Tally.total m.
Proof.
  intros H. unfold Tally.total.
  rewrite map_fold_insert_L; [reflexivity | intros; lia | exact H].
Qed.

Lemma total_insert (m : gmap string Js.tally) (k : string) (v v' : Js.tally) :
  m !! k = Some v ->
  Tally.total (<[k := v']> m) + Tally.counted v = Tally.counted v' + Tally.total m.
Proof.
  intros E.
  rewrite <- (insert_delete_eq m k v').
  rewrite total_insert_fresh by apply lookup_delete_eq.
  rewrite <- (insert_delete_id m k v E) at 2.
  rewrite total_insert_fresh by apply lookup_delete_eq. lia.
Qed.

Lemma sound_empty : Tally.sound ∅.
Proof. intros k v H. rewrite lookup_empty in H. discriminate. Qed.

Lemma sound_insert (m : gmap string Js.tally) (k : string) (v : Js.tally) :
  Tally.sound m ->
  match v with
  | Js.Count n => Js.inherits k = false /\ 0 < n
  | Js.Text ones => Js.inherits k = true /\ 0 < ones
  end ->
  Tally.sound (<[k := v]> m).
Proof.
  intros Hm Hv k' v' H.
  destruct (decide (k = k')) as [<-|Hne].
  - rewrite lookup_insert_eq in H. injection H as <-. exact Hv.
  - rewrite lookup_insert_ne in H by exact Hne. apply (Hm k' v' H).
Qed.

(** One more count under [key]: the table stays sound, and its total
    grows by one unless [key] is an inherited name. *)
Lemma bump_sound (m : gmap string Js.tally) (key : string) :
  Tally.sound m -> Tally.sound (Js.bump m key).
Proof.
  intros Hm. unfold Js.bump.
  destruct (String.eqb key "__proto__"); [exact Hm|].
  destruct (m !! key) as [[n|ones]|] eqn:E.
  - apply sound_insert; [exact Hm|]. destruct (Hm key _ E) as [H _]. split; [exact H | lia].
  - apply sound_insert; [exact Hm|]. destruct (Hm key _ E) as [H _]. split; [exact H | lia].
  - destruct (Js.inherits key) eqn:Ei; apply sound_insert; try exact Hm; split;
      try exact Ei; lia.
Qed.

Lemma bump_total (m : gmap string Js.tally) (key : string) :
  Tally.sound m ->
  Tally.total (Js.bump m key) = Tally.total m + (if Js.inherits key then 0 else 1).
Proof.
  intros Hm. unfold Js.bump.
  destruct (String.eqb_spec key "__proto__") as [->|_]; [cbn; lia|].
  destruct (m !! key) as [[n|ones]|] eqn:E.
  - destruct (Hm key _ E) as [-> _].
    pose proof (total_insert m key _ (Js.Count (n + 1)) E) as H. cbn in H. lia.
  - destruct (Hm key _ E) as [-> _].
    pose proof (total_insert m key _ (Js.Text (ones + 1)) E) as H. cbn in H. lia.
  - destruct (Js.inherits key); rewrite total_insert_fresh by exact E; cbn; lia.
Qed.

Lemma bump_other (m : gmap string Js.tally) (key k : string) :
  key <> k -> Js.bump m key !! k = m !! k.
Proof.
  intros Hne. unfold Js.bump.
  destruct (String.eqb key "__proto__"); [reflexivity|].
  destruct (m !! key) as [[n|ones]|]; [| |destruct (Js.inherits key)];
    apply lookup_insert_ne; exact Hne.
Qed.

Lemma or_else_truthy (v : option string) (d : string) :
  Js.truthy_str d = true -> Js.truthy_str (Js.or_else v d) = true.
Proof.
  intros Hd. destruct v as [s|]; cbn; [|exact Hd].
  destruct (Js.truthy_str s) eqn:E; [exact E | exact Hd].
Qed.

Lemma truthy_not_empty (s : string) : Js.truthy_str s = true -> s <> EmptyString.
Proof. intros H ->. discriminate. Qed.

(** What the counting loop keeps: both tables stay sound, each adds up to
    the number of rows counted under a name that is not inherited, and
    neither has the empty string as a key. *)
Lemma countRow_invariant (rows : list Tools.DocRow) :
  forall acc : gmap string Js.tally * gmap string Js.tally,
    Tally.sound (fst acc) -> Tally.sound (snd acc) ->
    Tally.sound (fst (fold_left Tools.countRow rows acc))
    /\ Tally.sound (snd (fold_left Tools.countRow rows acc))
    /\ Tally.total (fst (fold_left Tools.countRow rows acc))
       = Tally.total (fst acc)
         + length (List.filter (fun row => negb (Js.inherits (Tools.categoryOf row))) rows)
    /\ Tally.total (snd (fold_left Tools.countRow rows acc))
       = Tally.total (snd acc)
         + length (List.filter (fun row => negb (Js.inherits (Tools.typeOf row))) rows)
    /\ (fst acc !! EmptyString = None ->
        fst (fold_left Tools.countRow rows acc) !! EmptyString = None)
    /\ (snd acc !! EmptyString = None ->
        snd (fold_left Tools.countRow rows acc) !! EmptyString = None).
Proof.
  induction rows as [|row rows IH]; intros [byCategory byType] Hc Ht;
    cbn [fold_left length List.filter].
  - cbn [fst snd] in *. repeat split; auto; cbn; lia.
  - destruct (IH (Tools.countRow (byCategory, byType) row)) as (H1 & H2 & H3 & H4 & H5 & H6).
    { apply bump_sound. exact Hc. }
    { apply bump_sound. exact Ht. }
    cbn [Tools.countRow fst snd] in *.
    rewrite bump_total in H3 by exact Hc. rewrite bump_total in H4 by exact Ht.
    fold (Tools.categoryOf row) in *. fold (Tools.typeOf row) in *.
    split; [exact H1|]. split; [exact H2|].
    split; [destruct (Js.inherits (Tools.categoryOf row)); cbn [negb length]; lia|].
    split; [destruct (Js.inherits (Tools.typeOf row)); cbn [negb length]; lia|].
    split; intros Hkey.
    + apply H5. rewrite bump_other; [exact Hkey|].
      apply truthy_not_empty, or_else_truthy. reflexivity.
    + apply H6. rewrite bump_other; [exact Hkey|].
      apply truthy_not_empty, or_else_truthy. reflexivity.
Qed.

(** X2: when [docs_stats] succeeds, [totalDocs] is the row count the store
    reports and the two breakdowns are what the counting loop makes of the
    rows [queryAll] yielded.  A row without category is counted under
    [Other], a row without type under [unknown], so nothing is filed under
    the empty string.  A name that is not inherited from
    [Object.prototype] holds a positive count, and those counts add up to
    the number of rows filed under such names; a name that is inherited
    ([constructor], [toString], ...) holds a string and no count.  So each
    breakdown adds up to the number of rows when no row is filed under an
    inherited name, and to less otherwise. *)
Theorem docs_stats_counts_add_up
    (context : Tools.ToolContext) (t : list event) (stats : Tools.DocsStats) :
  Tools.docsStatsHandler tt context = (t, Returned (Tools.Success stats)) ->
  exists (rows : list Tools.DocRow) (tableStats : Tools.TableStats),
    Tools.rowsOf (Tools.queryAll (Tools.vectorStore context)
                    (Cfg.docs (Cfg.tables (Tools.config context)))) = Some rows
    /\ Tools.getStats (Tools.vectorStore context)
         (Cfg.docs (Cfg.tables (Tools.config context))) = Returned tableStats
    /\ Tools.totalDocs stats = Tools.rowCount tableStats
    /\ Tally.total (Tools.byCategory stats)
       = length (List.filter (fun row => negb (Js.inherits (Tools.categoryOf row))) rows)
    /\ Tally.total (Tools.byType stats)
       = length (List.filter (fun row => negb (Js.inherits (Tools.typeOf row))) rows)
    /\ Tally.sound (Tools.byCategory stats)
    /\ Tally.sound (Tools.byType stats)
    /\ Tools.byCategory stats !! EmptyString = None
    /\ Tools.byType stats !! EmptyString = None
    /\ (Tools.byCategory stats, Tools.byType stats)
       = fold_left Tools.countRow rows (∅, ∅).
Proof.
  unfold Tools.docsStatsHandler.
  destruct (Tools.pendingConfigError context) as [e|]; [discriminate|].
  unfold call. cbn.
  destruct (Tools.tableExists _ _) as [[|]|e]; cbn; try discriminate.
  destruct (Tools.getStats _ _) as [tableStats|e]; cbn; try discriminate.
  destruct (Tools.forAwait _ _) as [counts|e] eqn:Hloop; cbn; try discriminate.
  intros [= <- <-]. cbn [Tools.totalDocs Tools.byCategory Tools.byType].
  destruct (forAwait_returned _ _ _ Hloop) as (rows & Hrows & ->).
  exists rows, tableStats.
  destruct (countRow_invariant rows (∅, ∅) sound_empty sound_empty)
    as (H1 & H2 & H3 & H4 & H5 & H6).
  cbn [fst snd] in *. rewrite total_empty in *.
  split; [exact Hrows|]. split; [reflexivity|]. split; [reflexivity|].
  split; [exact H3|]. split; [exact H4|].
  split; [exact H1|]. split; [exact H2|].
  split; [apply H5, lookup_empty|]. split; [apply H6, lookup_empty|].
  destruct (fold_left Tools.countRow rows (∅, ∅)); reflexivity.
Qed.

Lemma docs_stats_counts_add_up_witness :
  exists (rows : list Tools.DocRow) (tableStats : Tools.TableStats),
    Tools.rowsOf (Tools.queryAll
                    (Tools.vectorStore (Fixtures.contextOf Doubles.threeDocsStore))
                    (Cfg.docs (Cfg.tables
                       (Tools.config (Fixtures.contextOf Doubles.threeDocsStore)))))
    = Some rows
    /\ Tools.getStats (Tools.vectorStore (Fixtures.contextOf Doubles.threeDocsStore))
         (Cfg.docs (Cfg.tables
            (Tools.config (Fixtures.contextOf Doubles.threeDocsStore))))
       = Returned tableStats
    /\ Tools.totalDocs Doubles.threeDocsStats = Tools.rowCount tableStats
    /\ Tally.total (Tools.byCategory Doubles.threeDocsStats)
       = length (List.filter (fun row => negb (Js.inherits (Tools.categoryOf row))) rows)
    /\ Tally.total (Tools.byType Doubles.threeDocsStats)
       = length (List.filter (fun row => negb (Js.inherits (Tools.typeOf row))) rows)
    /\ Tally.sound (Tools.byCategory Doubles.threeDocsStats)
    /\ Tally.sound (Tools.byType Doubles.threeDocsStats)
    /\ Tools.byCategory Doubles.threeDocsStats !! EmptyString = None
    /\ Tools.byType Doubles.threeDocsStats !! EmptyString = None
    /\ (Tools.byCategory Doubles.threeDocsStats, Tools.byType Doubles.threeDocsStats)
       = fold_left Tools.countRow rows (∅, ∅).
Proof.
  apply (docs_stats_counts_add_up (Fixtures.contextOf Doubles.threeDocsStore)
           [EvTableExists "hytale_docs"; EvGetStats "hytale_docs";
            EvQueryAll "hytale_docs"]
           Doubles.threeDocsStats).
  vm_compute. reflexivity.
Defined.

(** A table with a record whose category is [constructor]: the record is
    counted by type, and under its category the breakdown holds a string,
    not a count. *)
Example docs_stats_inherited_category :
  outcome (Tools.docsStatsHandler tt (Fixtures.contextOf Doubles.constructorStore))
  = Returned (Tools.Success
                {| Tools.totalDocs := 2;
                   Tools.byCategory := {[ "constructor" := Js.Text 1;
                                          "plugin" := Js.Count 1 ]};
                   Tools.byType := {[ "guide" := Js.Count 2 ]} |}).
Proof. vm_compute. reflexivity. Qed.

End DocsToolsMore.

(** ** Validated inputs and the search handler *)

Section ValidatedSearch.

Local Open Scope Q_scope.

Lemma field_ok {A} (fields : list (string * Schema.json)) (key : string)
    (s : Schema.Schema A) (a : A) :
  Schema.field fields key s = Schema.ParseOk a ->
  s (Schema.prop fields key) = Schema.ParseOk a.
Proof.
  unfold Schema.field. destruct (s (Schema.prop fields key)); [auto | discriminate].
Qed.

Lemma z_object3_ok {A B C R} (mk : A -> B -> C -> R)
    (ka : string) (sa : Schema.Schema A) (kb : string) (sb : Schema.Schema B)
    (kc : string) (sc : Schema.Schema C) (v : option Schema.json) (r : R) :
  Schema.z_object3 mk ka sa kb sb kc sc v = Schema.ParseOk r ->
  exists fields a b c,
    v = Some (Schema.JObject fields)
    /\ sa (Schema.prop fields ka) = Schema.ParseOk a
    /\ sb (Schema.prop fields kb) = Schema.ParseOk b
    /\ sc (Schema.prop fields kc) = Schema.ParseOk c
    /\ r = mk a b c.
Proof.
  unfold Schema.z_object3.
  destruct v as [[| | | | |fields]|]; try discriminate.
  destruct (Schema.field fields ka sa) as [a|] eqn:Ea;
    destruct (Schema.field fields kb sb) as [b|] eqn:Eb;
    destruct (Schema.field fields kc sc) as [c|] eqn:Ec; try discriminate.
  intros [= <-]. exists fields, a, b, c.
  repeat split; auto using field_ok.
Qed.

Lemma z_number_ok (checks : list Schema.numcheck) (v : option Schema.json) (q : Q) :
  Schema.z_number checks v = Schema.ParseOk q ->
  v = Some (Schema.JNumber q)
  /\ Forall (fun c => Schema.run_check q c = []) checks.
Proof.
  unfold Schema.z_number.
  destruct v as [[| |q'| | |]|]; try discriminate.
  destruct (concat (map (Schema.run_check q') checks)) eqn:E; [|discriminate].
  intros [= <-]. split; [reflexivity|].
  induction checks as [|c checks IH]; constructor; cbn in E;
    apply app_eq_nil in E as [E1 E2]; auto.
Qed.

Lemma limitSchema_ok (v : option Schema.json) (l : option Q) :
  Schema.limitSchema v = Schema.ParseOk l ->
  exists q, l = Some q /\ Schema.is_integer q = true /\ 1 <= q /\ q <= 20
            /\ (v = None -> q = 5).
Proof.
  unfold Schema.limitSchema, Schema.z_default, Schema.z_optional.
  intros H.
  assert (forall w, match Schema.z_number [Schema.IsInt; Schema.Min 1; Schema.Max 20] w with
                    | Schema.ParseOk a => Schema.ParseOk (Some a)
                    | Schema.ParseError i => Schema.ParseError i
                    end = Schema.ParseOk l ->
                    exists q, w = Some (Schema.JNumber q) /\ l = Some q
                              /\ Schema.is_integer q = true /\ 1 <= q /\ q <= 20) as Hnum.
  { intros w Hw.
    destruct (Schema.z_number _ w) as [q|] eqn:E; [|discriminate].
    injection Hw as <-. apply z_number_ok in E as [-> Hchecks].
    exists q. split; [reflexivity|]. split; [reflexivity|].
    inversion Hchecks as [|? ? Hint Hrest]; subst.
    inversion Hrest as [|? ? Hmin Hrest']; subst.
    inversion Hrest' as [|? ? Hmax _]; subst.
    cbn [Schema.run_check] in Hint, Hmin, Hmax.
    destruct (Schema.is_integer q); [|discriminate].
    destruct (Qle_bool (inject_Z 1) q) eqn:Elo; [|discriminate].
    destruct (Qle_bool q (inject_Z 20)) eqn:Ehi; [|discriminate].
    apply Qle_bool_iff in Elo, Ehi. repeat split; assumption. }
  destruct v as [j|].
  - destruct (Hnum _ H) as (q & _ & -> & Hint & Hlo & Hhi).
    exists q. repeat split; auto. discriminate.
  - destruct (Hnum (Some (Schema.JNumber 5)) H) as (q & [= <-] & -> & Hint & Hlo & Hhi).
    exists 5. repeat split; auto.
Qed.

Lemma query_ok (v : option Schema.json) (s : string) :
  Schema.z_string_min 1 Schema.z_string v = Schema.ParseOk s ->
  v = Some (Schema.JString s) /\ Js.truthy_str s = true.
Proof.
  unfold Schema.z_string_min, Schema.z_string.
  destruct v as [[| | |s'| |]|]; try discriminate.
  destruct (Nat.ltb_spec (String.length s') 1); [discriminate|].
  intros [= <-]. split; [reflexivity|]. destruct s'; [cbn in *; lia | reflexivity].
Qed.

Lemma type_ok (values : list string) (v : option Schema.json) (t : option string) :
  Schema.z_default (Schema.JString "all") (Schema.z_optional (Schema.z_enum values)) v
  = Schema.ParseOk t ->
  exists x, t = Some x /\ In x values /\ (v = None -> x = "all"%string).
Proof.
  unfold Schema.z_default, Schema.z_optional, Schema.z_enum. intros H.
  assert (forall s, match (if existsb (String.eqb s) values
                           then Schema.ParseOk s
                           else Schema.ParseError
                                  [Schema.mkIssue []
                                     ("Invalid enum value. Expected "
                                      +:+ String.concat " | "
                                            (map (fun x => "'" +:+ x +:+ "'") values)
                                      +:+ ", received '" +:+ s +:+ "'")]) with
                    | Schema.ParseOk a => Schema.ParseOk (Some a)
                    | Schema.ParseError i => Schema.ParseError i
                    end = Schema.ParseOk t -> t = Some s /\ In s values) as Henum.
  { intros s Hs. destruct (existsb (String.eqb s) values) eqn:E; [|discriminate].
    injection Hs as <-. split; [reflexivity|].
    apply existsb_exists in E as (x & Hx & Heq).
    apply String.eqb_eq in Heq. subst. exact Hx. }
  destruct v as [[| | |s| |]|]; try discriminate.
  - destruct (Henum s H) as [-> Hin]. exists s. repeat split; auto. discriminate.
  - destruct (Henum "all"%string H) as [-> Hin]. exists "all"%string. repeat split; auto.
Qed.

(** X3: what the input schema of [search_docs] lets through: an object
    whose [query] is a non-empty string, whose [type] is one of
    [DOCS_TYPES] ([all] when omitted) and whose [limit] is an integer
    between 1 and 20 (5 when omitted).  So a validated input never has a
    missing [type] or [limit], and never a value outside these sets. *)
Theorem searchDocsSchema_sound (raw : option Schema.json) (input : Schema.SearchTypedInput) :
  Schema.searchDocsSchema raw = Schema.ParseOk input ->
  exists fields t q,
    raw = Some (Schema.JObject fields)
    /\ Schema.prop fields "query" = Some (Schema.JString (Schema.st_query input))
    /\ Js.truthy_str (Schema.st_query input) = true
    /\ Schema.st_type input = Some t
    /\ In t Schema.DOCS_TYPES
    /\ (Schema.prop fields "type" = None -> t = "all"%string)
    /\ Schema.st_limit input = Some (Js.Finite q)
    /\ Schema.is_integer q = true
    /\ 1 <= q /\ q <= 20
    /\ (Schema.prop fields "limit" = None -> q = 5).
Proof.
  intros H. apply z_object3_ok in H as (fields & a & b & c & -> & Ha & Hb & Hc & ->).
  apply query_ok in Ha as [Ha Hquery].
  apply type_ok in Hb as (t & -> & Hin & Hdefault).
  apply limitSchema_ok in Hc as (q & -> & Hint & Hlo & Hhi & Hfive).
  exists fields, t, q. cbn. repeat split; auto.
Qed.

Lemma searchDocsSchema_sound_witness :
  exists fields t q,
    Fixtures.searchInput 7 = Some (Schema.JObject fields)
    /\ Schema.prop fields "query" = Some (Schema.JString "block creation")
    /\ Js.truthy_str "block creation" = true
    /\ Some "all"%string = Some t
    /\ In t Schema.DOCS_TYPES
    /\ (Schema.prop fields "type" = None -> t = "all"%string)
    /\ Some (Js.Finite 7) = Some (Js.Finite q)
    /\ Schema.is_integer q = true
    /\ 1 <= q /\ q <= 20
    /\ (Schema.prop fields "limit" = None -> q = 5).
Proof.
  apply (searchDocsSchema_sound (Fixtures.searchInput 7)
           (Schema.mkSearchTypedInput "block creation" (Some "all"%string)
                                      (Some (Js.Finite 7)))).
  vm_compute. reflexivity.
Defined.

(** X4: a validated input is searched as it was asked: the limit the
    store is called with equals the validated limit (the clamp of the
    handler changes nothing), and the filter is absent for the type [all]
    and is [{type: t}] for every other type. *)
Theorem validated_search_uses_requested_limit
    (raw : option Schema.json) (input : Schema.SearchTypedInput)
    (context : Tools.ToolContext) (provider : Tools.EmbeddingProvider)
    (queryVector : list Q) :
  Schema.searchDocsSchema raw = Schema.ParseOk input ->
  Tools.pendingConfigError context = None ->
  Tools.embedding context = Some provider ->
  Tools.embedQuery provider (Schema.st_query input) "text" = Returned queryVector ->
  exists t q limit,
    Schema.st_type input = Some t
    /\ Schema.st_limit input = Some (Js.Finite q)
    /\ limit == q
    /\ trace (Tools.searchDocsHandler input context)
       = [EvEmbedQuery (Schema.st_query input) "text";
          EvSearch (Cfg.docs (Cfg.tables (Tools.config context))) queryVector
            (Js.Finite limit)
            (if String.eqb t "all" then None else Some ("type"%string, t))].
Proof.
  intros Hparse Hconfig Hprovider Hembed.
  destruct (searchDocsSchema_sound raw input Hparse)
    as (fields & t & q & _ & _ & _ & Htype & Hin & _ & Hlimit & _ & Hlo & Hhi & _).
  destruct (clampLimit_within q Hlo Hhi) as (limit & Hclamp & Hsame).
  exists t, q, limit.
  split; [exact Htype|]. split; [exact Hlimit|].
  split; [exact Hsame|].
  unfold Tools.searchDocsHandler. rewrite Hconfig, Hprovider.
  unfold call. cbn. rewrite Hembed. cbn. rewrite Htype, Hlimit, Hclamp.
  assert (Tools.typeFilter (Some t)
          = if String.eqb t "all" then None else Some ("type"%string, t)) as ->.
  { unfold Tools.typeFilter.
    assert (Js.truthy_str t = true) as ->.
    { cbn in Hin. destruct Hin as [<-|[<-|[<-|[<-|[<-|[]]]]]]; reflexivity. }
    destruct (String.eqb t "all"); reflexivity. }
  destruct (Tools.search _ _ _ _); reflexivity.
Qed.

Lemma validated_search_uses_requested_limit_witness :
  exists t q limit,
    Some "guide"%string = Some t
    /\ Some (Js.Finite 7) = Some (Js.Finite q)
    /\ limit == q
    /\ trace (Tools.searchDocsHandler
                (Schema.mkSearchTypedInput "block creation" (Some "guide"%string)
                                           (Some (Js.Finite 7)))
                (Fixtures.contextOf Fixtures.seededStore))
       = [EvEmbedQuery "block creation" "text";
          EvSearch "hytale_docs" [1; 0] (Js.Finite limit)
            (if String.eqb t "all" then None else Some ("type"%string, t))].
Proof.
  apply (validated_search_uses_requested_limit
           (Some (Schema.JObject [("query"%string, Schema.JString "block creation");
                                  ("type"%string, Schema.JString "guide");
                                  ("limit"%string, Schema.JNumber 7)]))
           (Schema.mkSearchTypedInput "block creation" (Some "guide"%string)
                                      (Some (Js.Finite 7)))
           (Fixtures.contextOf Fixtures.seededStore)
           Fixtures.constantProvider [1; 0]);
    vm_compute; reflexivity.
Defined.

(** X5: [search_docs] has no [try]: with a valid configuration, an
    exception of the embedding provider, or of the store's search once the
    query is embedded, leaves the handler as that exception; it is not
    turned into a [ToolResult].  When it is the provider that throws, the
    store is not searched. *)
Theorem search_docs_exceptions_escape
    (input : Schema.SearchTypedInput) (context : Tools.ToolContext)
    (provider : Tools.EmbeddingProvider) (e : Js.thrown) :
  Tools.pendingConfigError context = None ->
  Tools.embedding context = Some provider ->
  Tools.embedQuery provider (Schema.st_query input) "text" = Threw e
  \/ (exists queryVector,
        Tools.embedQuery provider (Schema.st_query input) "text" = Returned queryVector
        /\ Tools.search (Tools.vectorStore context)
             (Cfg.docs (Cfg.tables (Tools.config context))) queryVector
             (Tools.mkSearchOptions (Tools.clampLimit (Schema.st_limit input))
                                    (Tools.typeFilter (Schema.st_type input))) = Threw e) ->
  outcome (Tools.searchDocsHandler input context) = Threw e
  /\ hd_error (trace (Tools.searchDocsHandler input context))
     = Some (EvEmbedQuery (Schema.st_query input) "text")
  /\ length (trace (Tools.searchDocsHandler input context))
     = match Tools.embedQuery provider (Schema.st_query input) "text" with
       | Threw _ => 1%nat
       | Returned _ => 2%nat
       end.
Proof.
  intros Hconfig Hprovider Hthrow.
  unfold Tools.searchDocsHandler. rewrite Hconfig, Hprovider. unfold call.
  destruct Hthrow as [->|(queryVector & -> & Hsearch)].
  - cbn. auto.
  - cbn. rewrite Hsearch. cbn. auto.
Qed.

Lemma search_docs_exceptions_escape_witness :
  outcome (Tools.searchDocsHandler
             (Schema.mkSearchTypedInput "block creation" None None)
             (Doubles.contextFailingProvider Fixtures.seededStore))
  = Threw (Js.Error Js.Generic "Voyage API error: 401 Unauthorized")
  /\ hd_error (trace (Tools.searchDocsHandler
                        (Schema.mkSearchTypedInput "block creation" None None)
                        (Doubles.contextFailingProvider Fixtures.seededStore)))
     = Some (EvEmbedQuery
               (Schema.st_query (Schema.mkSearchTypedInput "block creation" None None))
               "text")
  /\ length (trace (Tools.searchDocsHandler
                      (Schema.mkSearchTypedInput "block creation" None None)
                      (Doubles.contextFailingProvider Fixtures.seededStore)))
     = match Tools.embedQuery Doubles.failingProvider
               (Schema.st_query (Schema.mkSearchTypedInput "block creation" None None))
               "text" with
       | Threw _ => 1%nat
       | Returned _ => 2%nat
       end.
Proof.
  apply (search_docs_exceptions_escape
           (Schema.mkSearchTypedInput "block creation" None None)
           (Doubles.contextFailingProvider Fixtures.seededStore)
           Doubles.failingProvider
           (Js.Error Js.Generic "Voyage API error: 401 Unauthorized")).
  - reflexivity.
  - reflexivity.
  - left. reflexivity.
Defined.

End ValidatedSearch.

(** ** [db.ts]: what [getStats] counts *)

Section DbStatsMore.

Lemma fold_addRow (rows : list Db.Row) :
  forall acc : gset string * gset string,
    fold_left Db.addRow rows acc
    = (list_to_set (List.filter Js.truthy_str (map Db.row_className rows)) ∪ fst acc,
       list_to_set (List.filter Js.truthy_str (map Db.row_packageName rows)) ∪ snd acc).
Proof.
  induction rows as [|row rows IH]; intros [classNames packageNames].
  - cbn. rewrite !(left_id_L ∅ (∪)). reflexivity.
  - cbn [fold_left map List.filter]. rewrite IH. cbn [Db.addRow fst snd].
    destruct (Js.truthy_str (Db.row_className row));
      destruct (Js.truthy_str (Db.row_packageName row));
      cbn [list_to_set]; f_equal;
      apply set_eq; intros y; rewrite !elem_of_union; tauto.
Qed.

Lemma size_list_to_set_le (l : list string) :
  size (list_to_set l : gset string) <= length l.
Proof.
  induction l as [|x l IH]; cbn [list_to_set length].
  - rewrite size_empty. lia.
  - rewrite size_union_alt, size_singleton.
    assert (list_to_set l ∖ {[x]} ⊆ (list_to_set l : gset string)) as Hsub.
    { intros y Hy. apply elem_of_difference in Hy as [Hy _]. exact Hy. }
    apply subseteq_size in Hsub. lia.
Qed.

Lemma length_filter_le {A} (p : A -> bool) (l : list A) :
  length (List.filter p l) <= length l.
Proof. induction l as [|x l IH]; cbn; [lia|]. destruct (p x); cbn; lia. Qed.

(** X6: on a table that opens, [getStats] returns the number of rows as
    [totalMethods], the number of distinct non-empty class names as
    [uniqueClasses] and the number of distinct non-empty package names as
    [uniquePackages]; rows with an empty name are not counted, and neither
    count exceeds [totalMethods]. *)
Theorem getStats_counts_distinct_names
    (eng : Db.Engine) (dbPath : string) (tableName : option string)
    (table : list Db.Row) :
  Db.openTable eng dbPath (default "hytale_methods" tableName) = Returned table ->
  exists stats,
    (forall extra,
        Db.getStats (S (length table / 5000) + extra) eng dbPath tableName
        = Some (Returned stats))
    /\ Db.totalMethods stats = length table
    /\ Db.uniqueClasses stats
       = size (list_to_set (List.filter Js.truthy_str (map Db.row_className table))
               : gset string)
    /\ Db.uniquePackages stats
       = size (list_to_set (List.filter Js.truthy_str (map Db.row_packageName table))
               : gset string)
    /\ Db.uniqueClasses stats <= Db.totalMethods stats
    /\ Db.uniquePackages stats <= Db.totalMethods stats.
Proof.
  intros Hopen.
  destruct (scanLoop_spec 5000 table ltac:(lia) (length table / 5000) 0 (∅, ∅) [])
    as (s & new & Hrun & _ & _ & _ & _ & _ & Hsets).
  { lia. }
  { rewrite Nat.sub_0_r. reflexivity. }
  change (drop 0 table) with table in Hsets. rewrite fold_addRow in Hsets. cbn [fst snd] in Hsets.
  rewrite !(right_id_L ∅ (∪)) in Hsets. injection Hsets as Hclasses Hpackages.
  eexists. split.
  { intros extra. unfold Db.getStats. cbn zeta. rewrite Hopen.
    change Db.batchSize with 5000. rewrite (Hrun extra). reflexivity. }
  unfold Db.countRows.
  cbn [Db.totalMethods Db.uniqueClasses Db.uniquePackages].
  rewrite Hclasses, Hpackages.
  split; [reflexivity|]. split; [reflexivity|]. split; [reflexivity|].
  split.
  - etransitivity; [apply size_list_to_set_le|].
    etransitivity; [apply length_filter_le|]. rewrite length_map. lia.
  - etransitivity; [apply size_list_to_set_le|].
    etransitivity; [apply length_filter_le|]. rewrite length_map. lia.
Qed.

Lemma getStats_counts_distinct_names_witness :
  exists stats,
    (forall extra,
        Db.getStats (S (length Fixtures.threeRows / 5000) + extra)
          Fixtures.codeEngine "data/lancedb" None = Some (Returned stats))
    /\ Db.totalMethods stats = length Fixtures.threeRows
    /\ Db.uniqueClasses stats
       = size (list_to_set (List.filter Js.truthy_str
                              (map Db.row_className Fixtures.threeRows)) : gset string)
    /\ Db.uniquePackages stats
       = size (list_to_set (List.filter Js.truthy_str
                              (map Db.row_packageName Fixtures.threeRows)) : gset string)
    /\ Db.uniqueClasses stats <= Db.totalMethods stats
    /\ Db.uniquePackages stats <= Db.totalMethods stats.
Proof.
  apply (getStats_counts_distinct_names Fixtures.codeEngine "data/lancedb" None
           Fixtures.threeRows).
  vm_compute. reflexivity.
Defined.

End DbStatsMore.

(** ** [index.ts]: the checks of [main] *)

Section MainChecks.

Lemma all_key_chars_In (s : string) (c : ascii) :
  Main.all_key_chars s = true -> In c (list_ascii_of_string s) -> Main.is_key_char c = true.
Proof.
  induction s as [|x s IH]; cbn; [tauto|].
  intros H [<-|Hin]; apply andb_prop in H as [Hx Hs]; auto.
Qed.

Lemma substring_In (n m : nat) (s : string) (c : ascii) :
  In c (list_ascii_of_string (String.substring n m s)) -> In c (list_ascii_of_string s).
Proof.
  revert n m. induction s as [|x s IH]; intros n m.
  - destruct n, m; cbn; tauto.
  - destruct n as [|n]; [destruct m as [|m]|]; cbn.
    + tauto.
    + intros [<-|H]; [left; reflexivity | right; eapply (IH 0 m); exact H].
    + intros H. right. eapply IH. exact H.
Qed.

Lemma prefix_In (p s : string) (c : ascii) :
  String.prefix p s = true -> In c (list_ascii_of_string p) -> In c (list_ascii_of_string s).
Proof.
  revert s. induction p as [|x p IH]; intros s; [cbn; tauto|].
  destruct s as [|y s]; cbn; [discriminate|].
  destruct (ascii_dec x y) as [<-|]; [|discriminate].
  intros Hp [<-|Hin]; [left; reflexivity | right; apply IH; assumption].
Qed.

Lemma substring_all (s : string) : String.substring 0 (String.length s) s = s.
Proof. induction s as [|x s IH]; cbn; [reflexivity | f_equal; exact IH]. Qed.

Lemma prefix_split (p s : string) :
  String.prefix p s = true ->
  s = p +:+ String.substring (String.length p) (String.length s - String.length p) s.
Proof.
  revert s. induction p as [|x p IH]; intros s H.
  - cbn [String.length String.append]. rewrite Nat.sub_0_r, substring_all. reflexivity.
  - destruct s as [|y s]; cbn in H; [discriminate|].
    destruct (ascii_dec x y) as [<-|]; [|discriminate].
    cbn [String.length Nat.sub String.substring].
    change (String x p +:+ ?t) with (String x (p +:+ t)).
    f_equal. apply IH. exact H.
Qed.

Lemma In_append (a b : string) (c : ascii) :
  In c (list_ascii_of_string (a +:+ b)) ->
  In c (list_ascii_of_string a) \/ In c (list_ascii_of_string b).
Proof.
  induction a as [|x a IH]; [cbn; tauto|].
  change (String x a +:+ b) with (String x (a +:+ b)). cbn.
  intros [<-|H]; [tauto|]. destruct (IH H); tauto.
Qed.

(** A line that the check flags is made of key characters and of the
    characters of its prefix. *)
Lemma looksLikeKey_chars (pre line : string) (c : ascii) :
  String.length pre = 3 ->
  Main.looksLikeKey pre line = true ->
  In c (list_ascii_of_string line) ->
  Main.is_key_char c = true \/ In c (list_ascii_of_string pre).
Proof.
  unfold Main.looksLikeKey. intros Hlen H Hin.
  apply andb_prop in H as [Hpre H]. apply andb_prop in H as [_ Hrest].
  apply prefix_split in Hpre. rewrite Hlen in Hpre.
  rewrite Hpre in Hin. apply In_append in Hin as [Hin|Hin]; [right; exact Hin|].
  left. eapply all_key_chars_In; eassumption.
Qed.

Lemma scanEnvLines_clean (lines : list string) :
  Forall (fun line => Main.looksLikeKey "pa-" line = false
                      /\ Main.looksLikeKey "sk-" line = false) lines ->
  Main.scanEnvLines lines = None.
Proof.
  induction 1 as [|line lines [Hpa Hsk] _ IH]; cbn; [reflexivity|].
  rewrite Hpa, Hsk. exact IH.
Qed.

(** The lines [checkEnvFile] looks at. *)
Lemma checkEnvFile_lines (content : string) :
  Main.checkEnvFile (Main.Content content)
  = Main.scanEnvLines
      (List.filter (fun l => Js.truthy_str l && negb (String.prefix "#" l))
                   (map Main.trim (Main.splitLines EmptyString content))).
Proof. reflexivity. Qed.

(** X7: [checkEnvFile] flags a [.env] file only for a line that, trimmed,
    is a bare key: a line that, once the white space around it is removed
    (a byte order mark and a no-break space are white space), holds any
    character other than letters, digits, [_] and [-] (an [=], a space
    inside, a quote, a character outside ASCII) is never the reason, so a
    file in which every line that counts is an assignment [NAME=value]
    passes; a missing or unreadable file passes too. *)
Theorem checkEnvFile_passes_assignments (content : string) :
  Forall (fun line =>
            exists c, In c (list_ascii_of_string line) /\ Main.is_key_char c = false)
         (List.filter (fun l => Js.truthy_str l && negb (String.prefix "#" l))
                      (map Main.trim (Main.splitLines EmptyString content))) ->
  Main.checkEnvFile (Main.Content content) = None
  /\ Main.checkEnvFile Main.NoFile = None
  /\ Main.checkEnvFile Main.Unreadable = None.
Proof.
  intros Hlines. split; [|split; reflexivity].
  rewrite checkEnvFile_lines. apply scanEnvLines_clean.
  eapply Forall_impl; [exact Hlines|]. cbn.
  intros line (c & Hin & Hc).
  split; apply not_true_is_false; intros Hkey.
  - destruct (looksLikeKey_chars "pa-" line c eq_refl Hkey Hin) as [H|H];
      [congruence|].
    cbn in H; destruct H as [<-|[<-|[<-|[]]]]; discriminate.
  - destruct (looksLikeKey_chars "sk-" line c eq_refl Hkey Hin) as [H|H];
      [congruence|].
    cbn in H; destruct H as [<-|[<-|[<-|[]]]]; discriminate.
Qed.

End MainChecks.

Section MainChecksMore.

Lemma checkEnvFile_passes_assignments_witness :
  Main.checkEnvFile
    (Main.Content ("# Voyage key" +:+ Main.nl +:+ "VOYAGE_API_KEY=pa-0123456789" +:+ Main.nl))
  = None
  /\ Main.checkEnvFile Main.NoFile = None
  /\ Main.checkEnvFile Main.Unreadable = None.
Proof.
  apply (checkEnvFile_passes_assignments
           ("# Voyage key" +:+ Main.nl +:+ "VOYAGE_API_KEY=pa-0123456789" +:+ Main.nl)).
  vm_compute. constructor; [|constructor].
  exists "="%char. split; [|reflexivity]. vm_compute. tauto.
Defined.

(** The same key on a line of its own is flagged, and the message quotes
    the line without the white space around it. *)
Example checkEnvFile_flags_bare_key :
  Main.checkEnvFile
    (Main.Content ("# Voyage key" +:+ Main.nl +:+ "  pa-0123456789  " +:+ Main.nl))
  = Some (Main.voyageKeyMessage "pa-0123456789").
Proof. vm_compute. reflexivity. Qed.

(** A file that begins with a byte order mark, the key behind it followed
    by a no-break space and a carriage return: [trim] removes all three,
    and the key is flagged. *)
Example checkEnvFile_flags_key_behind_byte_order_mark :
  Main.checkEnvFile
    (Main.Content (Js.bytes [239; 187; 191] +:+ "pa-0123456789"
                   +:+ Js.bytes [194; 160; 13] +:+ Main.nl))
  = Some (Main.voyageKeyMessage "pa-0123456789").
Proof. vm_compute. reflexivity. Qed.

Lemma scanEnvLines_truthy (lines : list string) (msg : string) :
  Main.scanEnvLines lines = Some msg -> Js.truthy_str msg = true.
Proof.
  induction lines as [|line lines IH]; cbn; [discriminate|].
  destruct (Main.looksLikeKey "pa-" line); [intros [= <-]; reflexivity|].
  destruct (Main.looksLikeKey "sk-" line); [intros [= <-]; reflexivity|].
  exact IH.
Qed.

Lemma checkEnvFile_truthy (env : Main.EnvFile) :
  Js.if_truthy (Main.checkEnvFile env) = Main.checkEnvFile env.
Proof.
  destruct env as [| |content]; try reflexivity.
  destruct (Main.checkEnvFile (Main.Content content)) as [msg|] eqn:E; [|reflexivity].
  cbn. rewrite checkEnvFile_lines in E. rewrite (scanEnvLines_truthy _ _ E). reflexivity.
Qed.

Lemma validateApiKeyFormat_truthy (provider key : string) :
  Js.if_truthy (Main.validateApiKeyFormat provider key)
  = Main.validateApiKeyFormat provider key.
Proof.
  unfold Main.validateApiKeyFormat.
  destruct (String.eqb provider "voyage").
  - destruct (String.prefix "pa-" key); reflexivity.
  - destruct (String.eqb provider "openai"); [|reflexivity].
    destruct (String.prefix "sk-" key); reflexivity.
Qed.

Lemma validateApiKeyFormat_None (provider key : string) :
  Main.validateApiKeyFormat provider key = None <->
  (provider = "voyage" -> String.prefix "pa-" key = true)
  /\ (provider = "openai" -> String.prefix "sk-" key = true).
Proof.
  unfold Main.validateApiKeyFormat.
  destruct (String.eqb_spec provider "voyage") as [->|Hv].
  - destruct (String.prefix "pa-" key); cbn [negb].
    + split; [|reflexivity]. intros _. split; [reflexivity | discriminate].
    + split; [discriminate|]. intros [H _]. discriminate (H eq_refl).
  - destruct (String.eqb_spec provider "openai") as [->|Ho].
    + destruct (String.prefix "sk-" key); cbn [negb].
      * split; [|reflexivity]. intros _. split; [discriminate | reflexivity].
      * split; [discriminate|]. intros [_ H]. discriminate (H eq_refl).
    + split; [|reflexivity]. intros _. split; intros; contradiction.
Qed.

(** X8: the checks of [main] leave no configuration error exactly when
    the [.env] file is not flagged, the API key is a non-empty string, and
    the key starts with [pa-] for the provider [voyage] and with [sk-] for
    the provider [openai] (any non-empty key passes for another
    provider). *)
Theorem resolveConfigError_none_iff
    (js : Js.Lang) (env : Main.EnvFile) (config : Cfg.Config) :
  Main.resolveConfigError js env config = None <->
  Main.checkEnvFile env = None
  /\ exists key,
       Cfg.apiKey (Cfg.embedding config) = Some key
       /\ Js.truthy_str key = true
       /\ (Cfg.provider (Cfg.embedding config) = "voyage" -> String.prefix "pa-" key = true)
       /\ (Cfg.provider (Cfg.embedding config) = "openai" -> String.prefix "sk-" key = true).
Proof.
  unfold Main.resolveConfigError. rewrite checkEnvFile_truthy.
  destruct (Main.checkEnvFile env) as [msg|].
  { split; [discriminate|]. intros [H _]. discriminate. }
  destruct (Js.if_truthy (Cfg.apiKey (Cfg.embedding config))) as [key|] eqn:Ekey.
  - apply if_truthy_Some in Ekey as [Ekey Htruthy].
    rewrite validateApiKeyFormat_truthy, validateApiKeyFormat_None.
    split.
    + intros [Hv Ho]. split; [reflexivity|]. exists key. auto.
    + intros [_ (key' & Hkey' & _ & Hv & Ho)].
      rewrite Ekey in Hkey'. injection Hkey' as <-. auto.
  - split; [discriminate|]. intros [_ (key & Hkey & Htruthy & _)].
    rewrite Hkey in Ekey. cbn in Ekey. rewrite Htruthy in Ekey. discriminate.
Qed.

(** The provider [main] goes on with. *)
Lemma embeddingFor_pending (imp : Main.Imports) (config : Cfg.Config) (e : string) :
  Js.truthy_str e = true ->
  Main.embeddingFor imp config (Some e) = Returned None.
Proof. intros He. unfold Main.embeddingFor. cbn [Js.truthy]. rewrite He. reflexivity. Qed.

Lemma embeddingFor_valid (js : Js.Lang) (imp : Main.Imports) (env : Main.EnvFile)
    (config : Cfg.Config) :
  Main.resolveConfigError js env config = None ->
  Main.embeddingFor imp config None
  = match Main.createEmbeddingProvider imp (Cfg.embedding config) with
    | Returned p => Returned (Some p)
    | Threw e => Threw e
    end.
Proof.
  intros Hresolve.
  apply resolveConfigError_none_iff in Hresolve as [_ (key & Hkey & Htruthy & _)].
  unfold Main.embeddingFor. rewrite Hkey. cbn [Js.truthy]. rewrite Htruthy. reflexivity.
Qed.

(** What [main] does once the store is there: it ends fatally, it serves,
    or it has nothing to start. *)
Lemma startServers_cases (imp : Main.Imports) (config : Cfg.Config)
    (configError : option string) :
  (exists error,
     Main.startServers imp config configError = Main.fatal error
     /\ (Main.embeddingFor imp config configError = Threw error
         \/ Main.createVectorStore imp (Cfg.vectorStore config) = Threw error
         \/ (exists vectorStore,
               Main.createVectorStore imp (Cfg.vectorStore config) = Returned vectorStore
               /\ Tools.connect vectorStore = Threw error)
         \/ Main.newToolRegistry imp = Threw error
         \/ (exists empty,
               Main.newToolRegistry imp = Returned empty
               /\ Main.registerAll imp (Main.tools imp) empty = Threw error)
         \/ (exists embedding vectorStore empty registry,
               Main.embeddingFor imp config configError = Returned embedding
               /\ Main.createVectorStore imp (Cfg.vectorStore config) = Returned vectorStore
               /\ Main.newToolRegistry imp = Returned empty
               /\ Main.registerAll imp (Main.tools imp) empty = Returned registry
               /\ Main.startAll imp (Main.serversFor (Cfg.server config)) registry
                    {| Tools.embedding := embedding;
                       Tools.vectorStore := vectorStore;
                       Tools.config := config;
                       Tools.configError := configError |} config = Threw error)))
  \/ (exists embedding vectorStore registry,
        Main.embeddingFor imp config configError = Returned embedding
        /\ (Main.startServers imp config configError
            = Main.Serving (Main.serversFor (Cfg.server config)) registry
                {| Tools.embedding := embedding;
                   Tools.vectorStore := vectorStore;
                   Tools.config := config;
                   Tools.configError := configError |}
            \/ (Main.serversFor (Cfg.server config) = []
                /\ Main.startServers imp config configError
                   = Main.NothingStarted registry
                       {| Tools.embedding := embedding;
                          Tools.vectorStore := vectorStore;
                          Tools.config := config;
                          Tools.configError := configError |}))).
Proof.
  unfold Main.startServers.
  destruct (Main.embeddingFor imp config configError) as [embedding|error] eqn:Eprovider;
    [|left; exists error; auto].
  destruct (Main.createVectorStore imp _) as [vs|error] eqn:Estore;
    [|left; exists error; auto].
  destruct (Tools.connect vs) as [|error] eqn:Econnect;
    [|left; exists error; eauto 10].
  destruct (Main.newToolRegistry imp) as [empty|error] eqn:Enew;
    [|left; exists error; auto 10].
  destruct (Main.registerAll imp _ empty) as [registry|error] eqn:Eregister;
    [|left; exists error; eauto 10].
  destruct (Main.serversFor (Cfg.server config)) as [|server servers] eqn:Eservers.
  - right. exists embedding, vs, registry. auto.
  - destruct (Main.startAll imp _ registry _ config) as [|error] eqn:Estart.
    + right. exists embedding, vs, registry. auto.
    + left. exists error. split; [reflexivity|].
      do 5 right. exists embedding, vs, empty, registry. auto.
Qed.

(** X9: whenever [main] is left serving, or returns with nothing to start
    because the mode is none of the four, the context it made carries the
    configuration it loaded and the configuration error its checks left,
    it has an embedding provider exactly when no configuration error is
    pending, and a pending error means the mode is [mcp].  So with such a
    context [search_docs] answers with the configuration error or
    searches; it has no third case. *)
Theorem main_context_invariant
    (js : Js.Lang) (imp : Main.Imports) (env : Main.EnvFile) (config : Cfg.Config)
    (servers : list Main.ServerKind) (registry : Main.ToolRegistry imp)
    (context : Tools.ToolContext) :
  Main.main js imp env config = Main.Serving servers registry context
  \/ (servers = [] /\ Main.main js imp env config = Main.NothingStarted registry context) ->
  Tools.config context = config
  /\ servers = Main.serversFor (Cfg.server config)
  /\ Tools.configError context = Main.resolveConfigError js env config
  /\ (Tools.pendingConfigError context = None <-> is_Some (Tools.embedding context))
  /\ (Tools.pendingConfigError context <> None -> Cfg.mode (Cfg.server config) = "mcp").
Proof.
  unfold Main.main.
  destruct (Main.resolveConfigError js env config) as [e|] eqn:Eresolve.
  - pose proof (resolveConfigError_truthy js env config e Eresolve) as He.
    cbn [Js.truthy]. rewrite He. cbn [andb].
    destruct (String.eqb_spec (Cfg.mode (Cfg.server config)) "mcp") as [Hmode|Hmode];
      cbn [negb]; [|intros [H|[_ H]]; discriminate].
    destruct (startServers_cases imp config (Some e))
      as [(error & -> & _)|(embedding & vs & r & Hprovider & Hrun)];
      [intros [H|[_ H]]; discriminate|].
    rewrite embeddingFor_pending in Hprovider by exact He. injection Hprovider as <-.
    assert (Main.serversFor (Cfg.server config) <> []) as Hservers.
    { unfold Main.serversFor. rewrite Hmode. discriminate. }
    destruct Hrun as [->|[Hnone _]]; [|contradiction].
    intros [[= <- <- <-]|[_ H]]; [|discriminate].
    unfold Tools.pendingConfigError. cbn. rewrite He.
    repeat split; auto; try discriminate.
    intros [x Hx]. discriminate.
  - cbn [Js.truthy andb].
    destruct (startServers_cases imp config None)
      as [(error & -> & _)|(embedding & vs & r & Hprovider & Hrun)];
      [intros [H|[_ H]]; discriminate|].
    rewrite (embeddingFor_valid js imp env config Eresolve) in Hprovider.
    destruct (Main.createEmbeddingProvider imp _) as [p|]; [|discriminate].
    injection Hprovider as <-.
    destruct Hrun as [->|[Hnone ->]].
    + intros [[= <- <- <-]|[_ H]]; [|discriminate].
      unfold Tools.pendingConfigError. cbn.
      repeat split; auto; try (eexists; reflexivity). congruence.
    + intros [H|[-> [= <- <-]]]; [discriminate|].
      unfold Tools.pendingConfigError. cbn.
      repeat split; auto; try (eexists; reflexivity). congruence.
Qed.

Lemma main_context_invariant_witness :
  Tools.config (Fixtures.contextOf Fixtures.seededStore)
  = Fixtures.configOf "mcp" (Some "pa-0123456789")
  /\ [Main.MCP] = Main.serversFor (Cfg.server (Fixtures.configOf "mcp" (Some "pa-0123456789")))
  /\ Tools.configError (Fixtures.contextOf Fixtures.seededStore)
     = Main.resolveConfigError Fixtures.js Main.NoFile
         (Fixtures.configOf "mcp" (Some "pa-0123456789"))
  /\ (Tools.pendingConfigError (Fixtures.contextOf Fixtures.seededStore) = None
      <-> is_Some (Tools.embedding (Fixtures.contextOf Fixtures.seededStore)))
  /\ (Tools.pendingConfigError (Fixtures.contextOf Fixtures.seededStore) <> None ->
      Cfg.mode (Cfg.server (Fixtures.configOf "mcp" (Some "pa-0123456789"))) = "mcp").
Proof.
  apply (main_context_invariant Fixtures.js (Doubles.imports (Returned Fixtures.seededStore))
           Main.NoFile
           (Fixtures.configOf "mcp" (Some "pa-0123456789")) [Main.MCP]
           ["search_hytale_code"; "search_hytale_client_code"; "search_hytale_gamedata";
            "hytale_code_stats"; "hytale_client_code_stats"; "hytale_gamedata_stats"]).
  left. vm_compute. reflexivity.
Defined.

(** X10: how [main] can end the process.  When the process is ended by
    [process.exit], the status is 1 and [console.error] was called, either
    with the line [Error: ] followed by the configuration error (in a mode
    other than [mcp]), or with the label [Fatal error:] and the value that
    was thrown, which the runtime prints inspected.  The value was thrown
    by [loadConfig], or, once the configuration checks let [main] go on,
    by the creation of the embedding provider or of the vector store, by
    [connect], by the constructor of the registry, by a [register], or by
    the start of a server.  ([main] can also return without ending the
    process: serving, or with nothing started when the mode is none of the
    four.) *)
Theorem main_exits_with_status_one
    (js : Js.Lang) (imp : Main.Imports) (env : Main.EnvFile)
    (code : nat) (stderr : Main.Printed) :
  Main.run js imp env = Main.Exit code stderr ->
  code = 1
  /\ ((exists config e,
         Main.loadConfig imp = Returned config
         /\ Main.resolveConfigError js env config = Some e
         /\ Cfg.mode (Cfg.server config) <> "mcp"
         /\ stderr = Main.Line ("Error: " +:+ e))
      \/ (exists error,
            stderr = Main.Inspected "Fatal error:" error
            /\ (Main.loadConfig imp = Threw error
                \/ exists config,
                     Main.loadConfig imp = Returned config
                     /\ (Main.resolveConfigError js env config = None
                         \/ Cfg.mode (Cfg.server config) = "mcp")
                     /\ ((Main.resolveConfigError js env config = None
                          /\ Main.createEmbeddingProvider imp (Cfg.embedding config)
                             = Threw error)
                         \/ Main.createVectorStore imp (Cfg.vectorStore config)
                            = Threw error
                         \/ (exists vectorStore,
                               Main.createVectorStore imp (Cfg.vectorStore config)
                               = Returned vectorStore
                               /\ Tools.connect vectorStore = Threw error)
                         \/ Main.newToolRegistry imp = Threw error
                         \/ (exists empty,
                               Main.newToolRegistry imp = Returned empty
                               /\ Main.registerAll imp (Main.tools imp) empty
                                  = Threw error)
                         \/ (exists embedding vectorStore empty registry,
                               Main.embeddingFor imp config
                                 (Main.resolveConfigError js env config)
                               = Returned embedding
                               /\ Main.createVectorStore imp (Cfg.vectorStore config)
                                  = Returned vectorStore
                               /\ Main.newToolRegistry imp = Returned empty
                               /\ Main.registerAll imp (Main.tools imp) empty
                                  = Returned registry
                               /\ Main.startAll imp (Main.serversFor (Cfg.server config))
                                    registry
                                    {| Tools.embedding := embedding;
                                       Tools.vectorStore := vectorStore;
                                       Tools.config := config;
                                       Tools.configError :=
                                         Main.resolveConfigError js env config |}
                                    config = Threw error))))).
Proof.
  unfold Main.run.
  destruct (Main.loadConfig imp) as [config|error] eqn:Eload.
  2:{ intros [= <- <-]. split; [reflexivity|]. right. exists error. auto. }
  unfold Main.main.
  destruct (Main.resolveConfigError js env config) as [e|] eqn:Eresolve.
  - pose proof (resolveConfigError_truthy js env config e Eresolve) as He.
    cbn [Js.truthy default]. rewrite He. cbn [andb].
    destruct (String.eqb_spec (Cfg.mode (Cfg.server config)) "mcp") as [Hmode|Hmode];
      cbn [negb].
    + destruct (startServers_cases imp config (Some e))
        as [(error & -> & Hcause)|(embedding & vs & r & _ & [->|[_ ->]])];
        try discriminate.
      intros [= <- <-]. split; [reflexivity|]. right. exists error.
      split; [reflexivity|]. right. exists config. rewrite Eresolve.
      split; [reflexivity|]. split; [right; exact Hmode|].
      destruct Hcause as [H|[H|[H|[H|[H|H]]]]];
        [rewrite embeddingFor_pending in H by exact He; discriminate
        |auto 10|auto 10|auto 10|auto 10|do 5 right; exact H].
    + intros [= <- <-]. split; [reflexivity|]. left. exists config, e. auto.
  - cbn [Js.truthy andb].
    destruct (startServers_cases imp config None)
      as [(error & -> & Hcause)|(embedding & vs & r & _ & [->|[_ ->]])];
      try discriminate.
    intros [= <- <-]. split; [reflexivity|]. right. exists error.
    split; [reflexivity|]. right. exists config. rewrite Eresolve.
    split; [reflexivity|]. split; [left; reflexivity|].
    destruct Hcause as [H|[H|[H|[H|[H|H]]]]];
      [|auto 10|auto 10|auto 10|auto 10|do 5 right; exact H].
    left. split; [reflexivity|].
    rewrite (embeddingFor_valid js imp env config Eresolve) in H.
    destruct (Main.createEmbeddingProvider imp _); [discriminate|].
    injection H as <-. reflexivity.
Qed.

End MainChecksMore.

Section MainExamples.

Lemma main_exits_with_status_one_witness :
  1 = 1
  /\ ((exists config e,
         Main.loadConfig (Doubles.imports Doubles.noStore) = Returned config
         /\ Main.resolveConfigError Fixtures.js Main.NoFile config = Some e
         /\ Cfg.mode (Cfg.server config) <> "mcp"
         /\ Main.Inspected "Fatal error:" Doubles.unknownStore
            = Main.Line ("Error: " +:+ e))
      \/ (exists error,
            Main.Inspected "Fatal error:" Doubles.unknownStore
            = Main.Inspected "Fatal error:" error
            /\ (Main.loadConfig (Doubles.imports Doubles.noStore) = Threw error
                \/ exists config,
                     Main.loadConfig (Doubles.imports Doubles.noStore) = Returned config
                     /\ (Main.resolveConfigError Fixtures.js Main.NoFile config = None
                         \/ Cfg.mode (Cfg.server config) = "mcp")
                     /\ ((Main.resolveConfigError Fixtures.js Main.NoFile config = None
                          /\ Main.createEmbeddingProvider (Doubles.imports Doubles.noStore)
                               (Cfg.embedding config)
                             = Threw error)
                         \/ Main.createVectorStore (Doubles.imports Doubles.noStore)
                              (Cfg.vectorStore config)
                            = Threw error
                         \/ (exists vectorStore,
                               Main.createVectorStore (Doubles.imports Doubles.noStore)
                                 (Cfg.vectorStore config)
                               = Returned vectorStore
                               /\ Tools.connect vectorStore = Threw error)
                         \/ Main.newToolRegistry (Doubles.imports Doubles.noStore)
                            = Threw error
                         \/ (exists empty,
                               Main.newToolRegistry (Doubles.imports Doubles.noStore)
                               = Returned empty
                               /\ Main.registerAll (Doubles.imports Doubles.noStore)
                                    (Main.tools (Doubles.imports Doubles.noStore)) empty
                                  = Threw error)
                         \/ (exists embedding vectorStore empty registry,
                               Main.embeddingFor (Doubles.imports Doubles.noStore) config
                                 (Main.resolveConfigError Fixtures.js Main.NoFile config)
                               = Returned embedding
                               /\ Main.createVectorStore (Doubles.imports Doubles.noStore)
                                    (Cfg.vectorStore config)
                                  = Returned vectorStore
                               /\ Main.newToolRegistry (Doubles.imports Doubles.noStore)
                                  = Returned empty
                               /\ Main.registerAll (Doubles.imports Doubles.noStore)
                                    (Main.tools (Doubles.imports Doubles.noStore)) empty
                                  = Returned registry
                               /\ Main.startAll (Doubles.imports Doubles.noStore)
                                    (Main.serversFor (Cfg.server config))
                                    registry
                                    {| Tools.embedding := embedding;
                                       Tools.vectorStore := vectorStore;
                                       Tools.config := config;
                                       Tools.configError :=
                                         Main.resolveConfigError Fixtures.js Main.NoFile
                                           config |}
                                    config = Threw error))))).
Proof.
  apply (main_exits_with_status_one Fixtures.js (Doubles.imports Doubles.noStore)
           Main.NoFile 1 (Main.Inspected "Fatal error:" Doubles.unknownStore)).
  vm_compute. reflexivity.
Defined.

(** A server in mode [rest] without an API key: the configuration error
    is printed as a line. *)
Example run_without_key_exits :
  Main.run Fixtures.js
    (Doubles.importsOf (Returned (Fixtures.configOf "rest" None))
                       (Returned Fixtures.seededStore))
    Main.NoFile
  = Main.Exit 1 (Main.Line ("Error: " +:+ Main.apiKeyMissingMessage Fixtures.js "voyage")).
Proof. vm_compute. reflexivity. Qed.

(** A mode that is none of the four: the store is connected, the tools
    are registered, and [main] returns with no server started. *)
Example main_unknown_mode_starts_nothing :
  exists context,
    Main.main Fixtures.js (Doubles.imports (Returned Fixtures.seededStore)) Main.NoFile
      (Fixtures.configOf "stdio" (Some "pa-0123456789"))
    = Main.NothingStarted
        ["search_hytale_code"; "search_hytale_client_code"; "search_hytale_gamedata";
         "hytale_code_stats"; "hytale_client_code_stats"; "hytale_gamedata_stats"]
        context.
Proof. eexists. vm_compute. reflexivity. Qed.

End MainExamples.

(** ** [docs-parser.ts] *)

Section DocsParserFacts.

Lemma split_no_separator (sep : ascii -> bool) (s : string) :
  (forall c, In c (list_ascii_of_string s) -> sep c = false) ->
  DocsParser.split sep s = [s].
Proof.
  induction s as [|x s IH]; intros Hs; cbn [DocsParser.split]; [reflexivity|].
  rewrite (Hs x) by (left; reflexivity).
  rewrite IH by (intros c Hc; apply Hs; right; exact Hc). reflexivity.
Qed.

Lemma split_first_piece (sep : ascii -> bool) (s : string) (c0 : ascii) (rest : string) :
  (forall c, In c (list_ascii_of_string s) -> sep c = false) ->
  sep c0 = true ->
  DocsParser.split sep (s +:+ String c0 rest) = s :: DocsParser.split sep rest.
Proof.
  intros Hs Hc0. induction s as [|x s IH].
  - change (EmptyString +:+ String c0 rest) with (String c0 rest).
    cbn [DocsParser.split]. rewrite Hc0. reflexivity.
  - change (String x s +:+ String c0 rest) with (String x (s +:+ String c0 rest)).
    cbn [DocsParser.split]. rewrite (Hs x) by (left; reflexivity).
    rewrite IH by (intros c Hc; apply Hs; right; exact Hc). reflexivity.
Qed.

(** Splitting undoes joining, for pieces that hold no separator. *)
Lemma split_concat (sep : ascii -> bool) (c0 : ascii) (pieces : list string) :
  sep c0 = true ->
  Forall (fun piece => forall c, In c (list_ascii_of_string piece) -> sep c = false)
         pieces ->
  pieces <> [] ->
  DocsParser.split sep (String.concat (String c0 EmptyString) pieces) = pieces.
Proof.
  intros Hc0 Hpieces. induction Hpieces as [|piece pieces Hpiece Hrest IH]; [congruence|].
  intros _. destruct pieces as [|piece' pieces].
  - cbn [String.concat]. apply split_no_separator. exact Hpiece.
  - change (String.concat (String c0 EmptyString) (piece :: piece' :: pieces))
      with (piece +:+ String c0 EmptyString
            +:+ String.concat (String c0 EmptyString) (piece' :: pieces)).
    change (String c0 EmptyString +:+ ?r) with (String c0 r).
    rewrite split_first_piece by assumption.
    rewrite IH by discriminate. reflexivity.
Qed.

(** X11: for a path made of segments joined by [/] (or by [\]), the
    category is the first segment when there are at least two, that is,
    the top directory of the file, and it is undefined for a file at the
    top. *)
Theorem extractCategory_first_directory (sep : ascii) (segments : list string) :
  DocsParser.is_slash sep = true ->
  Forall (fun segment =>
            forall c, In c (list_ascii_of_string segment) -> DocsParser.is_slash c = false)
         segments ->
  DocsParser.extractCategory (String.concat (String sep EmptyString) segments)
  = match segments with
    | directory :: _ :: _ => Some directory
    | _ => None
    end.
Proof.
  intros Hsep Hsegments. unfold DocsParser.extractCategory.
  destruct segments as [|directory [|file segments]].
  - reflexivity.
  - rewrite (split_concat DocsParser.is_slash sep [directory]) by (auto; discriminate).
    reflexivity.
  - rewrite (split_concat DocsParser.is_slash sep (directory :: file :: segments))
      by (auto; discriminate).
    reflexivity.
Qed.

Lemma extractCategory_first_directory_witness :
  DocsParser.extractCategory
    (String.concat (String "/" EmptyString) ["plugin"; "blocks"; "creating-block.mdx"])
  = match ["plugin"; "blocks"; "creating-block.mdx"] with
    | directory :: _ :: _ => Some directory
    | _ => None
    end.
Proof.
  apply (extractCategory_first_directory "/" ["plugin"; "blocks"; "creating-block.mdx"]).
  - reflexivity.
  - repeat constructor; intros c Hc; cbn in Hc;
      repeat (destruct Hc as [<-|Hc]; [reflexivity|]); destruct Hc.
Defined.

Lemma all_ascii_upper (s : string) :
  Js.all_ascii s = true -> Js.all_ascii (Js.ascii_upper s) = true.
Proof.
  induction s as [|c s IH]; cbn [Js.all_ascii Js.ascii_upper]; [reflexivity|].
  intros H. apply andb_prop in H as [Hc Hs]. rewrite (IH Hs), andb_true_r.
  revert Hc. destruct c as [[] [] [] [] [] [] [] []]; vm_compute; congruence.
Qed.

Lemma lower_upper_char (c : ascii) :
  Js.ascii_lower_char (Js.ascii_upper_char c) = Js.ascii_lower_char c.
Proof. destruct c as [[] [] [] [] [] [] [] []]; reflexivity. Qed.

Lemma lower_upper (s : string) : Js.ascii_lower (Js.ascii_upper s) = Js.ascii_lower s.
Proof.
  induction s as [|c s IH]; cbn; [reflexivity|]. rewrite lower_upper_char, IH. reflexivity.
Qed.

(** In a language that maps ASCII text as the law says, the lower case of
    the upper case of an ASCII text is its lower case. *)
Lemma toLowerCase_toUpperCase (js : Js.Lang) (s : string) :
  Js.asciiLaw js -> Js.all_ascii s = true ->
  Js.toLowerCase js (Js.toUpperCase js s) = Js.toLowerCase js s.
Proof.
  intros Hlaw Hs.
  destruct (Hlaw s Hs) as [-> ->].
  destruct (Hlaw (Js.ascii_upper s) (all_ascii_upper s Hs)) as [_ ->].
  apply lower_upper.
Qed.

Lemma getDocsType_four (js : Js.Lang) (relativePath content : string) :
  In (DocsParser.getDocsType js relativePath content)
     ["guide"; "reference"; "faq"; "example"].
Proof.
  unfold DocsParser.getDocsType.
  repeat match goal with |- context [if ?b then _ else _] => destruct b end;
    cbn; tauto.
Qed.

(** X12: every file gets one of the four documentation types, each of
    which the search schema accepts as a [type] and the search tool turns
    into a filter (none of them is [all]), whatever the case mappings of
    the language do; and for a path written in ASCII the type does not
    depend on the letter case of the path.  (Outside ASCII it can: the
    upper case of a dotless i is [I].) *)
Theorem getDocsType_classifies (js : Js.Lang) (relativePath content : string) :
  In (DocsParser.getDocsType js relativePath content)
     ["guide"; "reference"; "faq"; "example"]
  /\ In (DocsParser.getDocsType js relativePath content) Schema.DOCS_TYPES
  /\ Tools.typeFilter (Some (DocsParser.getDocsType js relativePath content))
     = Some ("type", DocsParser.getDocsType js relativePath content)
  /\ (Js.asciiLaw js -> Js.all_ascii relativePath = true ->
      DocsParser.getDocsType js (Js.toUpperCase js relativePath) content
      = DocsParser.getDocsType js relativePath content).
Proof.
  split; [|split; [|split]].
  - apply getDocsType_four.
  - unfold DocsParser.getDocsType.
    repeat match goal with |- context [if ?b then _ else _] => destruct b end;
      cbn; tauto.
  - unfold DocsParser.getDocsType.
    repeat match goal with |- context [if ?b then _ else _] => destruct b end;
      reflexivity.
  - intros Hlaw Hascii. unfold DocsParser.getDocsType.
    rewrite toLowerCase_toUpperCase by assumption. reflexivity.
Qed.

Lemma asciiLaw_fixture : Js.asciiLaw Fixtures.js.
Proof. intros s _. split; reflexivity. Qed.

Lemma getDocsType_classifies_witness :
  DocsParser.getDocsType Fixtures.js (Js.toUpperCase Fixtures.js "plugin/api/blocks.md")
    "# Blocks"
  = DocsParser.getDocsType Fixtures.js "plugin/api/blocks.md" "# Blocks".
Proof.
  apply (getDocsType_classifies Fixtures.js "plugin/api/blocks.md" "# Blocks").
  - exact asciiLaw_fixture.
  - reflexivity.
Defined.

(** The types of four paths, the last one by the six code fences of its
    content. *)
Example getDocsType_examples :
  DocsParser.getDocsType Fixtures.js "plugin/FAQ.md" "# Questions" = "faq"
  /\ DocsParser.getDocsType Fixtures.js "plugin/api/blocks.md" "# Blocks" = "reference"
  /\ DocsParser.getDocsType Fixtures.js "plugin/samples.md" "# Samples" = "example"
  /\ DocsParser.getDocsType Fixtures.js "plugin/intro.md" "```a``` ```b``` ```c```"
     = "example"
  /\ DocsParser.getDocsType Fixtures.js "plugin/intro.md" "```a``` ```b```" = "guide".
Proof. vm_compute. repeat split. Qed.

Lemma four_not_inherited (type : string) :
  In type ["guide"; "reference"; "faq"; "example"] -> Js.inherits type = false.
Proof. cbn. intros [<-|[<-|[<-|[<-|[]]]]]; reflexivity. Qed.

(** One step of the counting loop of [getDocsStats]. *)
Lemma countFile_step (js : Js.Lang) (fs : DocsParser.Fs) (path : DocsParser.Path)
    (docsPath : string) (stats : DocsParser.DocsStats) (file : string) :
  if DocsParser.counts fs file
  then exists content,
         DocsParser.countFile js fs path docsPath stats file
         = {| DocsParser.totalFiles := DocsParser.totalFiles stats + 1;
              DocsParser.byCategory :=
                Js.bump (DocsParser.byCategory stats)
                        (DocsParser.categoryOf path docsPath file);
              DocsParser.byType :=
                Js.bump (DocsParser.byType stats)
                        (DocsParser.getDocsType js
                           (DocsParser.relative path docsPath file) content) |}
  else DocsParser.countFile js fs path docsPath stats file = stats.
Proof.
  unfold DocsParser.counts, DocsParser.countFile, DocsParser.categoryOf.
  destruct (DocsParser.readFileSync fs file) as [content|]; [|reflexivity].
  destruct (String.prefix "{" (Main.trim content)); [reflexivity|].
  exists content. reflexivity.
Qed.

(** What the counting loop of [getDocsStats] keeps. *)
Lemma countFile_invariant (js : Js.Lang) (fs : DocsParser.Fs) (path : DocsParser.Path)
    (docsPath : string) (files : list string) :
  forall stats : DocsParser.DocsStats,
    Tally.sound (DocsParser.byCategory stats) ->
    Tally.sound (DocsParser.byType stats) ->
    (forall type v, DocsParser.byType stats !! type = Some v ->
                    In type ["guide"; "reference"; "faq"; "example"]) ->
    DocsParser.byCategory stats !! EmptyString = None ->
    DocsParser.totalFiles (fold_left (DocsParser.countFile js fs path docsPath) files stats)
    = DocsParser.totalFiles stats + length (List.filter (DocsParser.counts fs) files)
    /\ Tally.total (DocsParser.byCategory
                      (fold_left (DocsParser.countFile js fs path docsPath) files stats))
       = Tally.total (DocsParser.byCategory stats)
         + length (List.filter
                     (fun file => DocsParser.counts fs file
                                  && negb (Js.inherits
                                             (DocsParser.categoryOf path docsPath file)))
                     files)
    /\ Tally.total (DocsParser.byType
                      (fold_left (DocsParser.countFile js fs path docsPath) files stats))
       = Tally.total (DocsParser.byType stats)
         + length (List.filter (DocsParser.counts fs) files)
    /\ Tally.sound (DocsParser.byCategory
                      (fold_left (DocsParser.countFile js fs path docsPath) files stats))
    /\ Tally.sound (DocsParser.byType
                      (fold_left (DocsParser.countFile js fs path docsPath) files stats))
    /\ (forall type v,
          DocsParser.byType
            (fold_left (DocsParser.countFile js fs path docsPath) files stats) !! type
          = Some v ->
          In type ["guide"; "reference"; "faq"; "example"])
    /\ DocsParser.byCategory
         (fold_left (DocsParser.countFile js fs path docsPath) files stats) !! EmptyString
       = None.
Proof.
  induction files as [|file files IH]; intros stats Hc Ht Hfour Hempty.
  - cbn. repeat split; auto; lia.
  - cbn [fold_left List.filter].
    pose proof (countFile_step js fs path docsPath stats file) as Hstep.
    destruct (DocsParser.counts fs file) eqn:Ecounts.
    + destruct Hstep as [content Hstep]. rewrite Hstep.
      pose proof (getDocsType_four js (DocsParser.relative path docsPath file) content)
        as Hkind.
      destruct (IH {| DocsParser.totalFiles := DocsParser.totalFiles stats + 1;
                      DocsParser.byCategory :=
                        Js.bump (DocsParser.byCategory stats)
                                (DocsParser.categoryOf path docsPath file);
                      DocsParser.byType :=
                        Js.bump (DocsParser.byType stats)
                                (DocsParser.getDocsType js
                                   (DocsParser.relative path docsPath file) content) |})
        as (H1 & H2 & H3 & H4 & H5 & H6 & H7);
        cbn [DocsParser.totalFiles DocsParser.byCategory DocsParser.byType].
      * apply bump_sound. exact Hc.
      * apply bump_sound. exact Ht.
      * intros type v Hlookup.
        destruct (decide (DocsParser.getDocsType js
                            (DocsParser.relative path docsPath file) content = type))
          as [<-|Hne]; [exact Hkind|].
        rewrite bump_other in Hlookup by exact Hne. apply (Hfour type v Hlookup).
      * rewrite bump_other; [exact Hempty|].
        apply truthy_not_empty, or_else_truthy. reflexivity.
      * cbn [DocsParser.totalFiles DocsParser.byCategory DocsParser.byType] in H1, H2, H3.
        rewrite bump_total in H2 by exact Hc. rewrite bump_total in H3 by exact Ht.
        rewrite (four_not_inherited _ Hkind) in H3.
        split; [cbn [length]; lia|].
        split; [cbn [andb]; destruct (Js.inherits (DocsParser.categoryOf path docsPath file));
                cbn [negb length]; lia|].
        split; [cbn [length]; lia|].
        auto.
    + rewrite Hstep. cbn [andb]. apply IH; assumption.
Qed.

(** X13: what [getDocsStats] returns adds up.  [totalFiles] is the number
    of collected files that can be read and do not start with a brace once
    trimmed.  The types counted are among the four documentation types,
    each with a positive count, and the counts by type add up to
    [totalFiles].  A file at the top is counted under [Other], so no file
    is counted under the empty category.  A category that is not a name
    inherited from [Object.prototype] holds a positive count, and those
    counts add up to the number of counted files of such categories; a
    directory named like an inherited member ([constructor], [toString],
    ...) holds a string and no count, so the counts by category add up to
    [totalFiles] exactly when no counted file is below such a
    directory. *)
Theorem getDocsStats_counts_add_up
    (js : Js.Lang) (fuel : nat) (fs : DocsParser.Fs) (path : DocsParser.Path)
    (docsPath : string) (stats : DocsParser.DocsStats) :
  DocsParser.getDocsStats js fuel fs path docsPath = Some stats ->
  exists files,
    DocsParser.collectDocsFiles js fuel fs path docsPath = Some files
    /\ DocsParser.totalFiles stats = length (List.filter (DocsParser.counts fs) files)
    /\ Tally.total (DocsParser.byCategory stats)
       = length (List.filter
                   (fun file => DocsParser.counts fs file
                                && negb (Js.inherits
                                           (DocsParser.categoryOf path docsPath file)))
                   files)
    /\ Tally.total (DocsParser.byType stats) = DocsParser.totalFiles stats
    /\ Tally.sound (DocsParser.byCategory stats)
    /\ DocsParser.byCategory stats !! EmptyString = None
    /\ (forall type v,
          DocsParser.byType stats !! type = Some v ->
          In type ["guide"; "reference"; "faq"; "example"]
          /\ exists n, v = Js.Count n /\ 0 < n).
Proof.
  unfold DocsParser.getDocsStats.
  destruct (DocsParser.collectDocsFiles js fuel fs path docsPath) as [files|];
    [|discriminate].
  intros [= <-]. exists files. split; [reflexivity|].
  destruct (countFile_invariant js fs path docsPath files (DocsParser.mkDocsStats 0 ∅ ∅))
    as (H1 & H2 & H3 & H4 & H5 & H6 & H7);
    cbn [DocsParser.totalFiles DocsParser.byCategory DocsParser.byType].
  { apply sound_empty. }
  { apply sound_empty. }
  { intros type v H. rewrite lookup_empty in H. discriminate. }
  { apply lookup_empty. }
  cbn [DocsParser.totalFiles DocsParser.byCategory DocsParser.byType] in H1, H2, H3.
  rewrite total_empty in H2, H3.
  split; [exact H1|]. split; [exact H2|]. split; [lia|]. split; [exact H4|].
  split; [exact H7|].
  intros type v Hlookup. pose proof (H6 type v Hlookup) as Hkind.
  split; [exact Hkind|].
  pose proof (H5 type v Hlookup) as Hv. destruct v as [n|ones].
  - exists n. split; [reflexivity | apply Hv].
  - destruct Hv as [Hv _]. rewrite (four_not_inherited _ Hkind) in Hv. discriminate.
Qed.

Lemma getDocsStats_counts_add_up_witness :
  exists files,
    DocsParser.collectDocsFiles Fixtures.js 3 Doubles.docsFs Doubles.posix "docs"
    = Some files
    /\ DocsParser.totalFiles Doubles.docsStats
       = length (List.filter (DocsParser.counts Doubles.docsFs) files)
    /\ Tally.total (DocsParser.byCategory Doubles.docsStats)
       = length (List.filter
                   (fun file => DocsParser.counts Doubles.docsFs file
                                && negb (Js.inherits
                                           (DocsParser.categoryOf Doubles.posix "docs" file)))
                   files)
    /\ Tally.total (DocsParser.byType Doubles.docsStats)
       = DocsParser.totalFiles Doubles.docsStats
    /\ Tally.sound (DocsParser.byCategory Doubles.docsStats)
    /\ DocsParser.byCategory Doubles.docsStats !! EmptyString = None
    /\ (forall type v,
          DocsParser.byType Doubles.docsStats !! type = Some v ->
          In type ["guide"; "reference"; "faq"; "example"]
          /\ exists n, v = Js.Count n /\ 0 < n).
Proof.
  apply (getDocsStats_counts_add_up Fixtures.js 3 Doubles.docsFs Doubles.posix "docs"
           Doubles.docsStats).
  vm_compute. reflexivity.
Defined.

(** A documentation directory with a file below [constructor]: the file
    is counted, and under its category the breakdown holds a string. *)
Example getDocsStats_inherited_category :
  DocsParser.getDocsStats Fixtures.js 3 Doubles.constructorFs Doubles.posix "docs"
  = Some {| DocsParser.totalFiles := 2;
            DocsParser.byCategory := {[ "constructor" := Js.Text 1;
                                        "Other" := Js.Count 1 ]};
            DocsParser.byType := {[ "guide" := Js.Count 2 ]} |}.
Proof. vm_compute. reflexivity. Qed.

Lemma Tree_induction (P : DocsParser.Tree -> Prop) :
  P DocsParser.Unlisted ->
  (forall entries,
      Forall (fun entry : DocsParser.Dirent * option DocsParser.Tree =>
                match snd entry with
                | Some sub => P sub
                | None => True
                end) entries ->
      P (DocsParser.Listing entries)) ->
  forall t, P t.
Proof.
  intros Hunlisted Hlisting. fix IH 1. intros [|entries]; [exact Hunlisted|].
  apply Hlisting.
  induction entries as [|[entry [sub|]] entries IHentries]; constructor; cbn; auto.
Qed.

Lemma walk_on_tree (js : Js.Lang) (fs : DocsParser.Fs) (path : DocsParser.Path)
    (t : DocsParser.Tree) :
  forall dir,
    DocsParser.shows fs path dir t ->
    forall extra files,
      DocsParser.walk js (DocsParser.depth t + extra) fs path dir files
      = Some (files ++ DocsParser.docsFiles js path dir t).
Proof.
  induction t as [|entries IH] using Tree_induction; intros dir Hshows extra files.
  - destruct Hshows as [e He]. cbn [DocsParser.depth Nat.add DocsParser.walk].
    rewrite He. cbn [DocsParser.docsFiles]. rewrite app_nil_r. reflexivity.
  - destruct Hshows as [Hread Hbelow].
    cbn [DocsParser.depth Nat.add DocsParser.walk DocsParser.docsFiles]. rewrite Hread.
    set (below := fun entry : DocsParser.Dirent * option DocsParser.Tree =>
                    match snd entry with
                    | Some sub =>
                        if DocsParser.isDirectory (fst entry) then DocsParser.depth sub else 0
                    | None => 0
                    end).
    assert (foldr Nat.max 0 (map below entries)
            <= foldr Nat.max 0 (map below entries) + extra) as Hfuel by lia.
    revert Hfuel. generalize (foldr Nat.max 0 (map below entries) + extra).
    intros fuel Hfuel. clear Hread. revert files.
    induction entries as [|[entry sub] entries IHentries]; intros files.
    + cbn. rewrite app_nil_r. reflexivity.
    + inversion IH as [|? ? Hsub IH']; subst.
      cbn [map foldr fst snd] in Hbelow, Hfuel |- *.
      destruct Hbelow as [Hentry Hbelow].
      cbn [flat_map fst snd].
      destruct (DocsParser.isDirectory entry) eqn:Edir.
      * specialize (Hentry eq_refl). destruct sub as [sub|]; [|destruct Hentry].
        cbn [snd] in Hsub. unfold below at 1 in Hfuel. cbn [fst snd] in Hfuel.
        rewrite Edir in Hfuel.
        replace fuel with (DocsParser.depth sub + (fuel - DocsParser.depth sub)) at 1 by lia.
        rewrite (Hsub _ Hentry).
        rewrite (IHentries IH' Hbelow) by lia.
        rewrite app_assoc. reflexivity.
      * assert (foldr Nat.max 0 (map below entries) <= fuel) as Hfuel'.
        { etransitivity; [|exact Hfuel]. apply Nat.le_max_r. }
        destruct (DocsParser.isFile entry); cbn [andb].
        -- destruct (DocsParser.isDocsFile js path (DocsParser.name entry)).
           ++ rewrite (IHentries IH' Hbelow Hfuel'). rewrite <- app_assoc. reflexivity.
           ++ rewrite (IHentries IH' Hbelow Hfuel'). reflexivity.
        -- rewrite (IHentries IH' Hbelow Hfuel'). reflexivity.
Qed.

(** X14: on a directory that [fs] shows as a finite tree,
    [collectDocsFiles] ends after as many levels as the tree is deep and
    returns the documentation files of the tree ([.md] and [.mdx], in any
    letter case) in listing order, each directory in full before the entry
    that follows it; a directory that cannot be listed contributes nothing
    and stops nothing; more fuel changes nothing. *)
Theorem collectDocsFiles_lists_tree
    (js : Js.Lang) (fs : DocsParser.Fs) (path : DocsParser.Path) (dir : string)
    (t : DocsParser.Tree) :
  DocsParser.shows fs path dir t ->
  forall extra,
    DocsParser.collectDocsFiles js (DocsParser.depth t + extra) fs path dir
    = Some (DocsParser.docsFiles js path dir t).
Proof.
  intros Hshows extra. unfold DocsParser.collectDocsFiles.
  rewrite (walk_on_tree js fs path t dir Hshows). reflexivity.
Qed.

Lemma collectDocsFiles_lists_tree_witness :
  DocsParser.collectDocsFiles Fixtures.js (DocsParser.depth Doubles.docsTree + 1)
    Doubles.docsFs Doubles.posix "docs"
  = Some (DocsParser.docsFiles Fixtures.js Doubles.posix "docs" Doubles.docsTree).
Proof.
  apply (collectDocsFiles_lists_tree Fixtures.js Doubles.docsFs Doubles.posix "docs"
           Doubles.docsTree).
  vm_compute. repeat split; try discriminate; eauto.
Defined.

(** The files collected on the directory of the example, in order. *)
Example collectDocsFiles_example :
  DocsParser.collectDocsFiles Fixtures.js 2 Doubles.docsFs Doubles.posix "docs"
  = Some ["docs/plugin/creating-block.mdx"; "docs/plugin/FAQ.MD"; "docs/plugin/meta.md";
          "docs/intro.md"; "docs/broken.md"].
Proof. vm_compute. reflexivity. Qed.

Lemma concat_cons_char (sep : string) (c : ascii) (piece : string) (pieces : list string) :
  String.concat sep (String c piece :: pieces)
  = String c (String.concat sep (piece :: pieces)).
Proof. destruct pieces; reflexivity. Qed.

Lemma split_nonempty (sep : ascii -> bool) (s : string) : DocsParser.split sep s <> [].
Proof.
  destruct s as [|c s]; cbn; [discriminate|].
  destruct (sep c); [discriminate|]. destruct (DocsParser.split sep s); discriminate.
Qed.

Lemma split_all_ascii (sep : ascii -> bool) (s : string) :
  Js.all_ascii s = true ->
  Forall (fun piece => Js.all_ascii piece = true) (DocsParser.split sep s).
Proof.
  induction s as [|c s IH]; intros Hs; cbn [DocsParser.split].
  - constructor; [reflexivity | constructor].
  - cbn [Js.all_ascii] in Hs. apply andb_prop in Hs as [Hc Hs]. specialize (IH Hs).
    destruct (sep c); [constructor; [reflexivity | exact IH]|].
    destruct (DocsParser.split sep s) as [|piece pieces].
    + constructor; [cbn [Js.all_ascii]; rewrite Hc; reflexivity | constructor].
    + inversion IH as [|? ? Hpiece Hpieces]; subst.
      constructor; [cbn [Js.all_ascii]; rewrite Hc, Hpiece; reflexivity | exact Hpieces].
Qed.

(** On a word in ASCII, [capitalize] puts the first letter in upper
    case. *)
Lemma capitalize_ascii (js : Js.Lang) (word : string) :
  Js.asciiLaw js -> Js.all_ascii word = true ->
  DocsParser.capitalize js word = DocsParser.capitalizeAscii word.
Proof.
  intros Hlaw Hword. destruct word as [|c rest]; [reflexivity|].
  cbn [Js.all_ascii] in Hword. apply andb_prop in Hword as [Hc _].
  unfold DocsParser.capitalize, DocsParser.capitalizeAscii.
  assert (Js.charLength c = 1) as ->.
  { unfold Js.charLength. unfold Js.is_ascii in Hc.
    apply Nat.ltb_lt in Hc.
    destruct (Nat.ltb_spec (nat_of_ascii c) 192); [reflexivity | lia]. }
  cbn [Nat.eqb String.substring String.length Nat.sub].
  assert (String.substring 0 0 rest = EmptyString) as -> by (destruct rest; reflexivity).
  rewrite Nat.sub_0_r, substring_all.
  destruct (Hlaw (String c EmptyString)) as [-> _]; [cbn [Js.all_ascii]; rewrite Hc; reflexivity|].
  reflexivity.
Qed.

Lemma map_capitalize_ascii (js : Js.Lang) (pieces : list string) :
  Js.asciiLaw js ->
  Forall (fun piece => Js.all_ascii piece = true) pieces ->
  map (DocsParser.capitalize js) pieces = map DocsParser.capitalizeAscii pieces.
Proof.
  intros Hlaw. induction 1 as [|piece pieces Hpiece _ IH]; [reflexivity|].
  cbn [map]. rewrite (capitalize_ascii js piece Hlaw Hpiece), IH. reflexivity.
Qed.

Lemma titleCase_split (s : string) :
  String.concat " " (map DocsParser.capitalizeAscii
                         (DocsParser.split (fun c => nat_of_ascii c =? 45) s))
  = DocsParser.titleCase true s
  /\ match DocsParser.split (fun c => nat_of_ascii c =? 45) s with
     | piece :: pieces =>
         String.concat " " (piece :: map DocsParser.capitalizeAscii pieces)
         = DocsParser.titleCase false s
     | [] => False
     end.
Proof.
  induction s as [|c s [IHtrue IHfalse]]; [split; reflexivity|].
  cbn [DocsParser.split DocsParser.titleCase].
  pose proof (split_nonempty (fun c => nat_of_ascii c =? 45) s) as Hne.
  destruct (DocsParser.split (fun c => nat_of_ascii c =? 45) s) as [|piece pieces];
    [congruence|].
  destruct (nat_of_ascii c =? 45).
  - cbn [map DocsParser.capitalizeAscii] in IHtrue |- *.
    change (String.concat " " (EmptyString :: ?l))
      with (String " " (String.concat " " l)).
    rewrite IHtrue. split; reflexivity.
  - cbn [map DocsParser.capitalizeAscii]. rewrite !concat_cons_char, IHfalse.
    split; reflexivity.
Qed.

Lemma titleCase_length (start : bool) (s : string) :
  String.length (DocsParser.titleCase start s) = String.length s.
Proof.
  revert start. induction s as [|c s IH]; intros start; cbn; [reflexivity|].
  destruct (nat_of_ascii c =? 45); cbn; rewrite IH; reflexivity.
Qed.

(** X15: without a [title] or [name] in the front matter, the title is
    made from the base name of the file.  For a base name written in
    ASCII it is the base name read character by character: every dash is
    replaced by a space, the first letter and every letter after a dash is
    put in upper case, and nothing else changes; so the title is as long
    as the base name.  (Outside ASCII the upper case of a character need
    not be one character: a word that begins with a sharp s grows.) *)
Theorem extractTitle_from_basename
    (js : Js.Lang) (path : DocsParser.Path) (frontmatter : gmap string string)
    (filePath : string) :
  Js.asciiLaw js ->
  Js.all_ascii (DocsParser.basename path filePath (DocsParser.extname path filePath))
  = true ->
  Js.truthy (frontmatter !! "title") = false ->
  Js.truthy (frontmatter !! "name") = false ->
  DocsParser.extractTitle js path frontmatter filePath
  = DocsParser.titleCase true
      (DocsParser.basename path filePath (DocsParser.extname path filePath))
  /\ String.length (DocsParser.extractTitle js path frontmatter filePath)
     = String.length (DocsParser.basename path filePath (DocsParser.extname path filePath)).
Proof.
  intros Hlaw Hascii Htitle Hname.
  assert (forall v, Js.truthy v = false -> Js.if_truthy v = None) as Hnone.
  { intros [s|]; cbn; [|reflexivity]. intros ->. reflexivity. }
  unfold DocsParser.extractTitle. rewrite (Hnone _ Htitle), (Hnone _ Hname).
  cbn zeta.
  rewrite (map_capitalize_ascii js _ Hlaw (split_all_ascii _ _ Hascii)).
  rewrite (proj1 (titleCase_split _)).
  split; [reflexivity | apply titleCase_length].
Qed.

Lemma extractTitle_from_basename_witness :
  DocsParser.extractTitle Fixtures.js Doubles.posix
    {[ "description" := "How to create a block" ]} "docs/plugin/creating-a-block.mdx"
  = DocsParser.titleCase true
      (DocsParser.basename Doubles.posix "docs/plugin/creating-a-block.mdx"
         (DocsParser.extname Doubles.posix "docs/plugin/creating-a-block.mdx"))
  /\ String.length
       (DocsParser.extractTitle Fixtures.js Doubles.posix
          {[ "description" := "How to create a block" ]}
          "docs/plugin/creating-a-block.mdx")
     = String.length
         (DocsParser.basename Doubles.posix "docs/plugin/creating-a-block.mdx"
            (DocsParser.extname Doubles.posix "docs/plugin/creating-a-block.mdx")).
Proof.
  apply (extractTitle_from_basename Fixtures.js Doubles.posix
           {[ "description" := "How to create a block" ]}
           "docs/plugin/creating-a-block.mdx");
    [exact asciiLaw_fixture | reflexivity..].
Defined.

(** The title of the example, and a title taken from the front matter. *)
Example extractTitle_examples :
  DocsParser.extractTitle Fixtures.js Doubles.posix ∅ "docs/plugin/creating-a-block.mdx"
  = "Creating A Block"
  /\ DocsParser.extractTitle Fixtures.js Doubles.posix {[ "title" := "Blocks" ]}
       "docs/plugin/creating-a-block.mdx" = "Blocks"
  /\ DocsParser.extractTitle Fixtures.js Doubles.posix
       {[ "title" := EmptyString; "name" := "blocks" ]}
       "docs/plugin/creating-a-block.mdx" = "blocks".
Proof. vm_compute. repeat split. Qed.

(** A word that begins with a character of four bytes is left as it is,
    whatever the case mappings do: its first code unit is half of the
    character. *)
Example capitalize_astral (js : Js.Lang) :
  DocsParser.capitalize js (Js.bytes [240; 159; 152; 128] +:+ "smile")
  = Js.bytes [240; 159; 152; 128] +:+ "smile".
Proof. reflexivity. Qed.

End DocsParserFacts.

(** ** [ingest-client.ts] *)

Section IngestFacts.

Context {W : Type} (host : Ingest.Host W).

Lemma actions_app (a b : list Ingest.io) :
  Ingest.actions (a ++ b) = Ingest.actions a ++ Ingest.actions b.
Proof. unfold Ingest.actions. apply List.filter_app. Qed.

Lemma actions_logs {A} (f : A -> string) (l : list A) :
  Ingest.actions (map (fun x => Ingest.Log (f x)) l) = [].
Proof. induction l as [|x l IH]; [reflexivity | exact IH]. Qed.

Lemma actions_parseProgress (progress : list (nat * nat * string)) :
  Ingest.actions (flat_map Ingest.parseProgress progress) = [].
Proof.
  induction progress as [|[[current total] file] progress IH]; [reflexivity|].
  cbn [flat_map]. rewrite actions_app, IH. unfold Ingest.parseProgress.
  destruct ((current mod 50 =? 0) || (current =? total)); reflexivity.
Qed.

Lemma actions_embedProgress (progress : list (nat * nat)) :
  Ingest.actions (flat_map Ingest.embedProgress progress) = [].
Proof.
  induction progress as [|[current total] progress IH]; [reflexivity|].
  cbn [flat_map]. rewrite actions_app, IH. reflexivity.
Qed.

(** A call of a trace is among its actions. *)
Lemma In_actions (t : list Ingest.io) (c : Ingest.call) (a : Ingest.answer) :
  In (Ingest.Called c a) t -> In (Ingest.Called c a) (Ingest.actions t).
Proof. intros H. unfold Ingest.actions. apply filter_In. split; [exact H | reflexivity]. Qed.

Lemma length_zero_false {A} (l : list A) : (length l =? 0) = false -> l <> [].
Proof. destruct l; [discriminate | discriminate]. Qed.

Ltac unfold_run :=
  unfold Ingest.traceOf, Ingest.resultOf, Ingest.worldOf,
    Ingest.run, Ingest.main, Ingest.scan, Ingest.step1, Ingest.step2, Ingest.step3,
    Ingest.summary, Ingest.createClientUITable, Ingest.embedClientUIChunks,
    mbind, Ingest.run_bind, mret, Ingest.run_ret, Ingest.try_catch, Ingest.request,
    Ingest.requestWithProgress, Ingest.emit, Ingest.emitAll, Ingest.exit, Ingest.clock,
    Ingest.probe, Ingest.void.

Ltac reduce := cbn beta iota zeta delta [fst snd negb default from_option id].

Ltac step :=
  match goal with
  | |- context [Ingest.now ?h ?w] =>
      destruct (Ingest.now h w) as [? ?] eqn:?
  | |- context [Ingest.existsSync ?h ?p ?w] =>
      destruct (Ingest.existsSync h p w) as [[|] ?] eqn:?
  | |- context [Ingest.mkdirSync ?h ?p ?w] =>
      destruct (Ingest.mkdirSync h p w) as [[[]|?] ?] eqn:?
  | |- context [Ingest.getClientUIStats ?h ?p ?w] =>
      destruct (Ingest.getClientUIStats h p w) as [[?|?] ?] eqn:?
  | |- context [Ingest.parseClientUIDirectory ?h ?p ?w] =>
      destruct (Ingest.parseClientUIDirectory h p w) as [[? [?|?]] ?] eqn:?
  | |- context [Ingest.writeFileSync ?h ?p ?d ?w] =>
      destruct (Ingest.writeFileSync h p d w) as [[[]|?] ?] eqn:?
  | |- context [Ingest.embedBatch ?h ?o ?t ?p ?m ?w] =>
      destruct (Ingest.embedBatch h o t p m w) as [[? [?|?]] ?] eqn:?
  | |- context [Ingest.connect ?h ?p ?w] =>
      destruct (Ingest.connect h p w) as [[[]|?] ?] eqn:?
  | |- context [Ingest.dropTable ?h ?p ?n ?w] =>
      destruct (Ingest.dropTable h p n w) as [[[]|?] ?] eqn:?
  | |- context [Ingest.createTable ?h ?p ?n ?d ?w] =>
      destruct (Ingest.createTable h p n d w) as [[[]|?] ?] eqn:?
  | |- context [if ?b then _ else _] => destruct b eqn:?
  end; reduce.

Ltac simp_actions :=
  rewrite ?actions_app, ?actions_logs, ?actions_parseProgress, ?actions_embedProgress;
  cbn [Ingest.actions List.filter Ingest.isAction app].

(** The answers of the run at hand, for the statements below. *)
Ltac answers apiKey :=
  match goal with
  | Hstats : Ingest.getClientUIStats _ _ _ = (Returned ?stats, _),
    Hparse : Ingest.parseClientUIDirectory _ _ _ = (_, Returned ?parsed, _),
    Hembed : Ingest.embedBatch _ _ _ _ _ _ = (_, Returned ?result, _) |- _ =>
      exists apiKey, stats, parsed, result
  end.

(** X16: the script reaches the database only after it has embedded
    something.  Every call that connects to LanceDB, drops the table or
    creates it comes after these, in this order, in the same run: the API
    key is set; [existsSync] found the Client/Data directory;
    [mkdirSync] and [getClientUIStats] returned; [parseClientUIDirectory]
    returned at least one chunk; the error log was written when there
    were parse errors; and the provider returned for the texts of
    exactly those chunks.  The call is a call on the database path and on
    the table [hytale_client_ui], and when it creates the table, row [i]
    is made of chunk [i] the parser returned and of vector [i] the
    provider returned.  So a missing key, a missing directory, an empty
    parse or a failed embedding leave the table that exists as it is. *)
Theorem ingest_reaches_database_only_after_embedding
    (argv2 argv3 VOYAGE_API_KEY : option string) (w : W)
    (c : Ingest.call) (a : Ingest.answer) :
  In (Ingest.Called c a)
     (Ingest.traceOf (Ingest.run host argv2 argv3 VOYAGE_API_KEY w)) ->
  Ingest.isTableCall c = true ->
  exists apiKey stats parsed result rest,
    Js.if_truthy VOYAGE_API_KEY = Some apiKey
    /\ Ingest.chunks parsed <> []
    /\ Ingest.actions (Ingest.traceOf (Ingest.run host argv2 argv3 VOYAGE_API_KEY w))
       = [Ingest.ExistsSync (Js.or_else argv2 Ingest.DEFAULT_CLIENT_DATA) true;
          Ingest.Called (Ingest.MkdirSync (Js.or_else argv3 (Ingest.defaultDbPath host)))
            Ingest.Void;
          Ingest.Called
            (Ingest.GetClientUIStats (Js.or_else argv2 Ingest.DEFAULT_CLIENT_DATA))
            (Ingest.Stats stats);
          Ingest.Called
            (Ingest.ParseClientUIDirectory (Js.or_else argv2 Ingest.DEFAULT_CLIENT_DATA))
            (Ingest.Parsed parsed)]
         ++ (if 0 <? length (Ingest.errors parsed)
             then [Ingest.Called
                     (Ingest.WriteFileSync
                        (Ingest.join host (Js.or_else argv3 (Ingest.defaultDbPath host))
                           "client_ui_parse_errors.txt")
                        (String.concat Main.nl (Ingest.errors parsed)))
                     Ingest.Void]
             else [])
         ++ [Ingest.Called
               (Ingest.EmbedBatch (Embedder.mkVoyageOptions "voyage" apiKey 128 100)
                  (map Ingest.textForEmbedding (Ingest.chunks parsed)) "text" "document")
               (Ingest.Vectors result)]
         ++ rest
    /\ In (Ingest.Called c a) rest
    /\ (c = Ingest.Connect (Js.or_else argv3 (Ingest.defaultDbPath host))
        \/ c = Ingest.DropTable (Js.or_else argv3 (Ingest.defaultDbPath host))
                 Ingest.TABLE_NAME
        \/ c = Ingest.CreateTable (Js.or_else argv3 (Ingest.defaultDbPath host))
                 Ingest.TABLE_NAME
                 (map Ingest.toRow
                    (imap (fun i chunk =>
                             Ingest.mkEmbeddedClientUIChunk chunk
                               (Embedder.vectors result !! i))
                          (Ingest.chunks parsed)))).
Proof.
  intros Hin. apply In_actions in Hin. revert Hin.
  unfold_run.
  destruct (Js.if_truthy VOYAGE_API_KEY) as [apiKey|]; reduce;
    [|cbn [Ingest.actions List.filter Ingest.isAction app In]; intros []].
  repeat step; simp_actions; cbn [In]; intros Hin Htable;
    repeat (destruct Hin as [Heq|Hin];
            [try discriminate Heq; injection Heq as <- <-; try discriminate Htable|]);
    try (destruct Hin);
    answers apiKey; eexists;
    (split; [reflexivity|]);
    (split; [apply length_zero_false; assumption|]);
    (split; [repeat match goal with
                    | H : ?b = _ |- context [if ?b then _ else _] => rewrite H
                    end;
             cbn [app]; reflexivity|]);
    (split; [cbn [In]; tauto|]);
    first [left; reflexivity | right; left; reflexivity | right; right; reflexivity].
Qed.

(** X17: a run that completes has done exactly this, in this order:
    [existsSync] found the Client/Data directory; [mkdirSync],
    [getClientUIStats] and [parseClientUIDirectory] returned, the parser
    with at least one chunk; [writeFileSync] wrote the error log when
    there were parse errors; [embedBatch] returned for the texts of the
    chunks the parser returned; [connect] returned; [dropTable] returned
    or threw; and [createTable] returned for the table
    [hytale_client_ui] with one row per chunk, row [i] made of chunk [i]
    the parser returned and of vector [i] the provider returned in this
    run.  The last thing done was to print the closing line. *)
Theorem ingest_completed_run
    (argv2 argv3 VOYAGE_API_KEY : option string) (w : W) :
  Ingest.resultOf (Ingest.run host argv2 argv3 VOYAGE_API_KEY w) = Ingest.Done tt ->
  exists apiKey stats parsed result dropped,
    Js.if_truthy VOYAGE_API_KEY = Some apiKey
    /\ Ingest.chunks parsed <> []
    /\ Ingest.actions (Ingest.traceOf (Ingest.run host argv2 argv3 VOYAGE_API_KEY w))
       = [Ingest.ExistsSync (Js.or_else argv2 Ingest.DEFAULT_CLIENT_DATA) true;
          Ingest.Called (Ingest.MkdirSync (Js.or_else argv3 (Ingest.defaultDbPath host)))
            Ingest.Void;
          Ingest.Called
            (Ingest.GetClientUIStats (Js.or_else argv2 Ingest.DEFAULT_CLIENT_DATA))
            (Ingest.Stats stats);
          Ingest.Called
            (Ingest.ParseClientUIDirectory (Js.or_else argv2 Ingest.DEFAULT_CLIENT_DATA))
            (Ingest.Parsed parsed)]
         ++ (if 0 <? length (Ingest.errors parsed)
             then [Ingest.Called
                     (Ingest.WriteFileSync
                        (Ingest.join host (Js.or_else argv3 (Ingest.defaultDbPath host))
                           "client_ui_parse_errors.txt")
                        (String.concat Main.nl (Ingest.errors parsed)))
                     Ingest.Void]
             else [])
         ++ [Ingest.Called
               (Ingest.EmbedBatch (Embedder.mkVoyageOptions "voyage" apiKey 128 100)
                  (map Ingest.textForEmbedding (Ingest.chunks parsed)) "text" "document")
               (Ingest.Vectors result);
             Ingest.Called (Ingest.Connect (Js.or_else argv3 (Ingest.defaultDbPath host)))
               Ingest.Void;
             Ingest.Called
               (Ingest.DropTable (Js.or_else argv3 (Ingest.defaultDbPath host))
                  Ingest.TABLE_NAME)
               dropped;
             Ingest.Called
               (Ingest.CreateTable (Js.or_else argv3 (Ingest.defaultDbPath host))
                  Ingest.TABLE_NAME
                  (map Ingest.toRow
                     (imap (fun i chunk =>
                              Ingest.mkEmbeddedClientUIChunk chunk
                                (Embedder.vectors result !! i))
                           (Ingest.chunks parsed))))
               Ingest.Void]
    /\ (dropped = Ingest.Void \/ exists e, dropped = Ingest.Thrown e)
    /\ (forall i chunk,
          Ingest.chunks parsed !! i = Some chunk ->
          map Ingest.toRow
            (imap (fun i chunk =>
                     Ingest.mkEmbeddedClientUIChunk chunk (Embedder.vectors result !! i))
                  (Ingest.chunks parsed)) !! i
          = Some (Ingest.toRow (Ingest.mkEmbeddedClientUIChunk chunk
                                  (Embedder.vectors result !! i))))
    /\ last (Ingest.traceOf (Ingest.run host argv2 argv3 VOYAGE_API_KEY w))
       = Some (Ingest.Log
                 "You can now use the search_hytale_client_ui MCP tool to query client UI.").
Proof.
  unfold_run.
  destruct (Js.if_truthy VOYAGE_API_KEY) as [apiKey|]; reduce; [|discriminate].
  repeat step; try discriminate; intros _;
    answers apiKey; eexists;
    (split; [reflexivity|]);
    (split; [apply length_zero_false; assumption|]);
    (split; [simp_actions;
             repeat match goal with
                    | H : ?b = _ |- context [if ?b then _ else _] => rewrite H
                    end;
             reflexivity|]);
    (split; [first [left; reflexivity | right; eexists; reflexivity]|]);
    (split; [intros i chunk Hchunk;
             rewrite list_lookup_fmap, list_lookup_imap, Hchunk; reflexivity|]);
    rewrite !last_app; reflexivity.
Qed.

(** X18: the script never ends on an exception, and never ends in failure
    without a word: an exception of any call is caught, by the [try] around
    the step or by the [catch] on [main()]; when the process is ended, the
    status is 1 and the last thing done was to print an error; when the run
    completes, the last thing done was to print the closing line. *)
Theorem ingest_exit_status
    (argv2 argv3 VOYAGE_API_KEY : option string) (w : W) :
  match Ingest.resultOf (Ingest.run host argv2 argv3 VOYAGE_API_KEY w) with
  | Ingest.Raised _ => False
  | Ingest.Exited code =>
      code = 1
      /\ exists ev,
           last (Ingest.traceOf (Ingest.run host argv2 argv3 VOYAGE_API_KEY w)) = Some ev
           /\ Ingest.isError ev = true
  | Ingest.Done _ =>
      last (Ingest.traceOf (Ingest.run host argv2 argv3 VOYAGE_API_KEY w))
      = Some (Ingest.Log
                "You can now use the search_hytale_client_ui MCP tool to query client UI.")
  end.
Proof.
  unfold_run.
  destruct (Js.if_truthy VOYAGE_API_KEY) as [apiKey|]; reduce.
  - repeat step;
      try (rewrite !last_app; reflexivity);
      (split; [reflexivity|]); eexists; (split; [rewrite !last_app; reflexivity|]);
      reflexivity.
  - split; [reflexivity|]. eexists. split; reflexivity.
Qed.

End IngestFacts.

Lemma ingest_reaches_database_only_after_embedding_witness :
  exists apiKey stats parsed result rest,
    Js.if_truthy (Some "pa-0123456789") = Some apiKey
    /\ Ingest.chunks parsed <> []
    /\ Ingest.actions (Ingest.traceOf (Ingest.run Doubles.uiHost (Some "Client/Data") None
                                         (Some "pa-0123456789") Doubles.indexedWorld))
       = [Ingest.ExistsSync (Js.or_else (Some "Client/Data") Ingest.DEFAULT_CLIENT_DATA) true;
          Ingest.Called
            (Ingest.MkdirSync (Js.or_else None (Ingest.defaultDbPath Doubles.uiHost)))
            Ingest.Void;
          Ingest.Called
            (Ingest.GetClientUIStats
               (Js.or_else (Some "Client/Data") Ingest.DEFAULT_CLIENT_DATA))
            (Ingest.Stats stats);
          Ingest.Called
            (Ingest.ParseClientUIDirectory
               (Js.or_else (Some "Client/Data") Ingest.DEFAULT_CLIENT_DATA))
            (Ingest.Parsed parsed)]
         ++ (if 0 <? length (Ingest.errors parsed)
             then [Ingest.Called
                     (Ingest.WriteFileSync
                        (Ingest.join Doubles.uiHost
                           (Js.or_else None (Ingest.defaultDbPath Doubles.uiHost))
                           "client_ui_parse_errors.txt")
                        (String.concat Main.nl (Ingest.errors parsed)))
                     Ingest.Void]
             else [])
         ++ [Ingest.Called
               (Ingest.EmbedBatch (Embedder.mkVoyageOptions "voyage" apiKey 128 100)
                  (map Ingest.textForEmbedding (Ingest.chunks parsed)) "text" "document")
               (Ingest.Vectors result)]
         ++ rest
    /\ In (Ingest.Called (Ingest.DropTable "data/lancedb" "hytale_client_ui") Ingest.Void)
          rest
    /\ (Ingest.DropTable "data/lancedb" "hytale_client_ui"
        = Ingest.Connect (Js.or_else None (Ingest.defaultDbPath Doubles.uiHost))
        \/ Ingest.DropTable "data/lancedb" "hytale_client_ui"
           = Ingest.DropTable (Js.or_else None (Ingest.defaultDbPath Doubles.uiHost))
               Ingest.TABLE_NAME
        \/ Ingest.DropTable "data/lancedb" "hytale_client_ui"
           = Ingest.CreateTable (Js.or_else None (Ingest.defaultDbPath Doubles.uiHost))
               Ingest.TABLE_NAME
               (map Ingest.toRow
                  (imap (fun i chunk =>
                           Ingest.mkEmbeddedClientUIChunk chunk
                             (Embedder.vectors result !! i))
                        (Ingest.chunks parsed)))).
Proof.
  apply (ingest_reaches_database_only_after_embedding Doubles.uiHost
           (Some "Client/Data") None (Some "pa-0123456789") Doubles.indexedWorld
           (Ingest.DropTable "data/lancedb" "hytale_client_ui") Ingest.Void).
  - vm_compute. repeat (first [left; reflexivity | right]).
  - reflexivity.
Defined.

Lemma ingest_completed_run_witness :
  exists apiKey stats parsed result dropped,
    Js.if_truthy (Some "pa-0123456789") = Some apiKey
    /\ Ingest.chunks parsed <> []
    /\ Ingest.actions (Ingest.traceOf (Ingest.run Doubles.uiHost (Some "Client/Data") None
                                         (Some "pa-0123456789") Doubles.indexedWorld))
       = [Ingest.ExistsSync (Js.or_else (Some "Client/Data") Ingest.DEFAULT_CLIENT_DATA) true;
          Ingest.Called
            (Ingest.MkdirSync (Js.or_else None (Ingest.defaultDbPath Doubles.uiHost)))
            Ingest.Void;
          Ingest.Called
            (Ingest.GetClientUIStats
               (Js.or_else (Some "Client/Data") Ingest.DEFAULT_CLIENT_DATA))
            (Ingest.Stats stats);
          Ingest.Called
            (Ingest.ParseClientUIDirectory
               (Js.or_else (Some "Client/Data") Ingest.DEFAULT_CLIENT_DATA))
            (Ingest.Parsed parsed)]
         ++ (if 0 <? length (Ingest.errors parsed)
             then [Ingest.Called
                     (Ingest.WriteFileSync
                        (Ingest.join Doubles.uiHost
                           (Js.or_else None (Ingest.defaultDbPath Doubles.uiHost))
                           "client_ui_parse_errors.txt")
                        (String.concat Main.nl (Ingest.errors parsed)))
                     Ingest.Void]
             else [])
         ++ [Ingest.Called
               (Ingest.EmbedBatch (Embedder.mkVoyageOptions "voyage" apiKey 128 100)
                  (map Ingest.textForEmbedding (Ingest.chunks parsed)) "text" "document")
               (Ingest.Vectors result);
             Ingest.Called
               (Ingest.Connect (Js.or_else None (Ingest.defaultDbPath Doubles.uiHost)))
               Ingest.Void;
             Ingest.Called
               (Ingest.DropTable (Js.or_else None (Ingest.defaultDbPath Doubles.uiHost))
                  Ingest.TABLE_NAME)
               dropped;
             Ingest.Called
               (Ingest.CreateTable (Js.or_else None (Ingest.defaultDbPath Doubles.uiHost))
                  Ingest.TABLE_NAME
                  (map Ingest.toRow
                     (imap (fun i chunk =>
                              Ingest.mkEmbeddedClientUIChunk chunk
                                (Embedder.vectors result !! i))
                           (Ingest.chunks parsed))))
               Ingest.Void]
    /\ (dropped = Ingest.Void \/ exists e, dropped = Ingest.Thrown e)
    /\ (forall i chunk,
          Ingest.chunks parsed !! i = Some chunk ->
          map Ingest.toRow
            (imap (fun i chunk =>
                     Ingest.mkEmbeddedClientUIChunk chunk (Embedder.vectors result !! i))
                  (Ingest.chunks parsed)) !! i
          = Some (Ingest.toRow (Ingest.mkEmbeddedClientUIChunk chunk
                                  (Embedder.vectors result !! i))))
    /\ last (Ingest.traceOf (Ingest.run Doubles.uiHost (Some "Client/Data") None
             (Some "pa-0123456789") Doubles.indexedWorld))
       = Some (Ingest.Log
                 "You can now use the search_hytale_client_ui MCP tool to query client UI.").
Proof.
  apply (ingest_completed_run Doubles.uiHost
           (Some "Client/Data") None (Some "pa-0123456789") Doubles.indexedWorld).
  vm_compute. reflexivity.
Defined.

(** What the run of the example does, without what it prints. *)
Example ingest_actions_of_the_example :
  Ingest.actions (Ingest.traceOf (Ingest.run Doubles.uiHost (Some "Client/Data") None
                                    (Some "pa-0123456789") Doubles.indexedWorld))
  = [Ingest.ExistsSync "Client/Data" true;
     Ingest.Called (Ingest.MkdirSync "data/lancedb") Ingest.Void;
     Ingest.Called (Ingest.GetClientUIStats "Client/Data")
       (Ingest.Stats (Ingest.mkClientUIStats 3 1 1 1 [("Menus", 1); ("Hud", 2)]));
     Ingest.Called (Ingest.ParseClientUIDirectory "Client/Data")
       (Ingest.Parsed (Ingest.mkParseResult [Doubles.hotbar; Doubles.mainMenu] []));
     Ingest.Called
       (Ingest.EmbedBatch (Embedder.mkVoyageOptions "voyage" "pa-0123456789" 128 100)
          ["UI file hotbar"; "XAML file main"] "text" "document")
       (Ingest.Vectors (Embedder.mkEmbedResult [[14%Q]; [14%Q]]));
     Ingest.Called (Ingest.Connect "data/lancedb") Ingest.Void;
     Ingest.Called (Ingest.DropTable "data/lancedb" "hytale_client_ui") Ingest.Void;
     Ingest.Called
       (Ingest.CreateTable "data/lancedb" "hytale_client_ui"
          [Ingest.toRow (Ingest.mkEmbeddedClientUIChunk Doubles.hotbar (Some [14%Q]));
           Ingest.toRow (Ingest.mkEmbeddedClientUIChunk Doubles.mainMenu (Some [14%Q]))])
       Ingest.Void].
Proof. vm_compute. reflexivity. Qed.

(** The run of the example replaces the table that was there; with a
    provider that refuses the key, the process ends with status 1 and the
    table is as it was. *)
Example ingest_replaces_table :
  Doubles.tables
    (Ingest.worldOf (Ingest.run Doubles.uiHost (Some "Client/Data") None
                       (Some "pa-0123456789") Doubles.indexedWorld))
  !! "hytale_client_ui"
  = Some [Ingest.toRow (Ingest.mkEmbeddedClientUIChunk Doubles.hotbar (Some [14%Q]));
          Ingest.toRow (Ingest.mkEmbeddedClientUIChunk Doubles.mainMenu (Some [14%Q]))].
Proof. vm_compute. reflexivity. Qed.

Example ingest_failed_embedding_keeps_table :
  Ingest.resultOf (Ingest.run (Doubles.host Doubles.twoFiles Doubles.unauthorized)
                     (Some "Client/Data") None (Some "pa-0123456789")
                     Doubles.indexedWorld)
  = Ingest.Exited 1
  /\ Doubles.tables
       (Ingest.worldOf (Ingest.run (Doubles.host Doubles.twoFiles Doubles.unauthorized)
                          (Some "Client/Data") None (Some "pa-0123456789")
                          Doubles.indexedWorld))
     = Doubles.tables Doubles.indexedWorld
  /\ last (Ingest.traceOf (Ingest.run (Doubles.host Doubles.twoFiles Doubles.unauthorized)
                             (Some "Client/Data") None (Some "pa-0123456789")
                             Doubles.indexedWorld))
     = Some (Ingest.Err (Main.nl +:+ "Embedding failed: Voyage API error: 401 Unauthorized")).
Proof. vm_compute. repeat split. Qed.

(** ** [core/schemas.ts]: what the schemas accept *)

Section SchemaAcceptance.

Local Open Scope Q_scope.

Lemma limitSchema_complete (q : Q) :
  Schema.is_integer q = true -> 1 <= q -> q <= 20 ->
  Schema.limitSchema (Some (Schema.JNumber q)) = Schema.ParseOk (Some q).
Proof.
  intros Hint Hlo Hhi.
  unfold Schema.limitSchema, Schema.z_default, Schema.z_optional, Schema.z_number.
  cbn [map concat Schema.run_check]. rewrite Hint.
  assert (Qle_bool (inject_Z 1) q = true) as -> by (apply Qle_bool_iff; exact Hlo).
  assert (Qle_bool q (inject_Z 20) = true) as -> by (apply Qle_bool_iff; exact Hhi).
  reflexivity.
Qed.

Lemma enum_complete (values : list string) (t : string) :
  In t values ->
  Schema.z_default (Schema.JString "all") (Schema.z_optional (Schema.z_enum values))
    (Some (Schema.JString t))
  = Schema.ParseOk (Some t).
Proof.
  intros Hin. unfold Schema.z_default, Schema.z_optional, Schema.z_enum.
  assert (existsb (String.eqb t) values = true) as ->; [|reflexivity].
  apply existsb_exists. exists t. split; [exact Hin | apply String.eqb_refl].
Qed.

Lemma query_complete (query : string) :
  Js.truthy_str query = true ->
  Schema.z_string_min 1 Schema.z_string (Some (Schema.JString query))
  = Schema.ParseOk query.
Proof.
  intros Hquery. unfold Schema.z_string_min, Schema.z_string.
  destruct query as [|c query]; [discriminate|]. reflexivity.
Qed.

(** X19: [searchDocsSchema] accepts every object whose [query] is a
    non-empty string, whose [type] is absent or one of [DOCS_TYPES] and
    whose [limit] is absent or an integer from 1 to 20, whatever other keys
    the object has; the validated input has the query, the type ([all]
    when absent) and the limit (5 when absent), and nothing else. *)
Theorem searchDocsSchema_complete
    (fields : list (string * Schema.json)) (query : string) :
  Schema.prop fields "query" = Some (Schema.JString query) ->
  Js.truthy_str query = true ->
  Schema.prop fields "type" = None
  \/ (exists t, Schema.prop fields "type" = Some (Schema.JString t)
                /\ In t Schema.DOCS_TYPES) ->
  Schema.prop fields "limit" = None
  \/ (exists q, Schema.prop fields "limit" = Some (Schema.JNumber q)
                /\ Schema.is_integer q = true /\ 1 <= q /\ q <= 20) ->
  Schema.searchDocsSchema (Some (Schema.JObject fields))
  = Schema.ParseOk
      {| Schema.st_query := query;
         Schema.st_type := Some match Schema.prop fields "type" with
                                | Some (Schema.JString t) => t
                                | _ => "all"%string
                                end;
         Schema.st_limit := Some (Js.Finite match Schema.prop fields "limit" with
                                            | Some (Schema.JNumber q) => q
                                            | _ => 5
                                            end) |}.
Proof.
  intros Hquery Htruthy Htype Hlimit.
  unfold Schema.searchDocsSchema, Schema.z_object3, Schema.field.
  rewrite Hquery, (query_complete query Htruthy).
  destruct Htype as [->|(t & -> & Hin)];
    destruct Hlimit as [->|(q & -> & Hint & Hlo & Hhi)];
    try rewrite (enum_complete _ t Hin);
    try rewrite (limitSchema_complete q Hint Hlo Hhi);
    reflexivity.
Qed.

Lemma searchDocsSchema_complete_witness :
  Schema.searchDocsSchema
    (Some (Schema.JObject [("type"%string, Schema.JString "faq");
                           ("query"%string, Schema.JString "block creation");
                           ("verbose"%string, Schema.JBool true)]))
  = Schema.ParseOk
      {| Schema.st_query := "block creation";
         Schema.st_type :=
           Some match Schema.prop [("type"%string, Schema.JString "faq");
                                   ("query"%string, Schema.JString "block creation");
                                   ("verbose"%string, Schema.JBool true)] "type" with
                | Some (Schema.JString t) => t
                | _ => "all"%string
                end;
         Schema.st_limit :=
           Some (Js.Finite
                   match Schema.prop [("type"%string, Schema.JString "faq");
                                      ("query"%string, Schema.JString "block creation");
                                      ("verbose"%string, Schema.JBool true)] "limit" with
                   | Some (Schema.JNumber q) => q
                   | _ => 5
                   end) |}.
Proof.
  apply (searchDocsSchema_complete
           [("type"%string, Schema.JString "faq");
            ("query"%string, Schema.JString "block creation");
            ("verbose"%string, Schema.JBool true)] "block creation").
  - reflexivity.
  - reflexivity.
  - right. exists "faq"%string. split; [reflexivity|]. simpl. tauto.
  - left. reflexivity.
Defined.

Lemma optional_string_ok (v : option Schema.json) (r : option string) :
  Schema.z_optional Schema.z_string v = Schema.ParseOk r <->
  (v = None /\ r = None) \/ (exists s, v = Some (Schema.JString s) /\ r = Some s).
Proof.
  unfold Schema.z_optional, Schema.z_string. split.
  - destruct v as [[| | |s| |]|]; try discriminate.
    + intros [= <-]. right. exists s. split; reflexivity.
    + intros [= <-]. left. split; reflexivity.
  - intros [[-> ->]|(s & -> & ->)]; reflexivity.
Qed.

(** X20: the inputs [searchCodeSchema] (and [searchClientCodeSchema],
    which is written the same) accepts, and what it makes of them: exactly
    the objects whose [query] is a non-empty string, whose [limit] is
    absent or an integer from 1 to 20 and whose [classFilter] is absent or
    a string; the validated input has that query, that limit (5 when
    absent) and that class filter (none when absent). *)
Theorem searchCodeSchema_accepts_iff
    (raw : option Schema.json) (input : Schema.SearchCodeInput) :
  Schema.searchCodeSchema raw = Schema.ParseOk input <->
  exists fields q,
    raw = Some (Schema.JObject fields)
    /\ Schema.prop fields "query" = Some (Schema.JString (Schema.sc_query input))
    /\ Js.truthy_str (Schema.sc_query input) = true
    /\ Schema.sc_limit input = Some q
    /\ ((Schema.prop fields "limit" = None /\ q = 5)
        \/ (Schema.prop fields "limit" = Some (Schema.JNumber q)
            /\ Schema.is_integer q = true /\ 1 <= q /\ q <= 20))
    /\ ((Schema.prop fields "classFilter" = None /\ Schema.sc_classFilter input = None)
        \/ (exists s, Schema.prop fields "classFilter" = Some (Schema.JString s)
                      /\ Schema.sc_classFilter input = Some s)).
Proof.
  split.
  - intros H. apply z_object3_ok in H as (fields & a & b & c & -> & Ha & Hb & Hc & ->).
    apply query_ok in Ha as [Ha Hquery].
    apply optional_string_ok in Hc.
    assert (exists q, b = Some q
                      /\ ((Schema.prop fields "limit" = None /\ q = 5)
                          \/ (Schema.prop fields "limit" = Some (Schema.JNumber q)
                              /\ Schema.is_integer q = true /\ 1 <= q /\ q <= 20)))
      as (q & -> & Hq).
    { destruct (Schema.prop fields "limit") as [j|] eqn:Elimit.
      - unfold Schema.limitSchema, Schema.z_default, Schema.z_optional in Hb.
        destruct (Schema.z_number [Schema.IsInt; Schema.Min 1; Schema.Max 20] (Some j))
          as [q|] eqn:Enumber; [|discriminate].
        injection Hb as <-. pose proof Enumber as Hj.
        apply z_number_ok in Hj as [[= ->] _].
        assert (Schema.limitSchema (Some (Schema.JNumber q)) = Schema.ParseOk (Some q))
          as Hl.
        { unfold Schema.limitSchema, Schema.z_default, Schema.z_optional.
          rewrite Enumber. reflexivity. }
        apply limitSchema_ok in Hl as (q' & [= <-] & Hint & Hlo & Hhi & _).
        exists q. split; [reflexivity|]. right. auto.
      - apply limitSchema_ok in Hb as (q & -> & _ & _ & _ & Hfive).
        exists q. split; [reflexivity|]. left. auto. }
    exists fields, q. cbn. auto 10.
  - intros (fields & q & -> & Hquery & Htruthy & Hlimit & Hq & Hclass).
    destruct input as [query limit classFilter]. cbn in *. subst limit.
    unfold Schema.searchCodeSchema, Schema.z_object3, Schema.field.
    rewrite Hquery, (query_complete query Htruthy).
    assert (Schema.limitSchema (Schema.prop fields "limit") = Schema.ParseOk (Some q)) as ->.
    { destruct Hq as [[-> ->]|(-> & Hint & Hlo & Hhi)];
        [reflexivity | apply limitSchema_complete; assumption]. }
    assert (Schema.z_optional Schema.z_string (Schema.prop fields "classFilter")
            = Schema.ParseOk classFilter) as ->.
    { apply optional_string_ok.
      destruct Hclass as [[-> ->]|(s & -> & ->)]; [left | right; exists s]; auto. }
    reflexivity.
Qed.

(** An input with a class filter, and one that is refused for its
    limit. *)
Example searchCodeSchema_examples :
  Schema.searchCodeSchema
    (Some (Schema.JObject [("query"%string, Schema.JString "inventory");
                           ("classFilter"%string, Schema.JString "Player")]))
  = Schema.ParseOk (Schema.mkSearchCodeInput "inventory" (Some 5) (Some "Player"%string))
  /\ Schema.issues_of
       (Schema.searchCodeSchema
          (Some (Schema.JObject [("query"%string, Schema.JString "inventory");
                                 ("limit"%string, Schema.JNumber (5 # 2))])))
     = [Schema.mkIssue ["limit"%string] "Expected integer, received float"].
Proof. vm_compute. split; reflexivity. Qed.

End SchemaAcceptance.

(** ** [db.ts]: creating a table *)

Section CreateTable.

Context {W : Type} (host : Ingest.Host W).

(** The tables of the database, as far as the statement below needs to
    see them. *)
Variable tablesOf : W -> gmap string (list Ingest.ClientUIRow).

(** What LanceDB is relied on for: connecting changes no table; dropping
    a table removes it and fails only when there is no such table, leaving
    the tables as they are; creating a table that does not exist, from at
    least one row, gives the table these rows. *)
Hypothesis connect_returns : forall dbPath w,
  exists w', Ingest.connect host dbPath w = (Returned tt, w') /\ tablesOf w' = tablesOf w.

Hypothesis dropTable_removes : forall dbPath tableName w,
  match Ingest.dropTable host dbPath tableName w with
  | (Returned _, w') => tablesOf w' = delete tableName (tablesOf w)
  | (Threw _, w') => tablesOf w' = tablesOf w /\ tablesOf w !! tableName = None
  end.

Hypothesis createTable_stores : forall dbPath tableName data w,
  tablesOf w !! tableName = None ->
  data <> [] ->
  exists w',
    Ingest.createTable host dbPath tableName data w = (Returned tt, w')
    /\ tablesOf w' = <[tableName := data]> (tablesOf w).


End CreateTable.

